(** * Fitness tracker: client form controller and calorie-estimation gateway

    A shallow embedding of [app/page.tsx] (the client form controller) and of
    the calorie-estimation route handler (the gateway), together with the
    ECMAScript primitives both rely on.

    Conventions.
    - A JavaScript string is a Rocq [string] read as a sequence of UTF-16 code
      units below 256 (the Latin-1 range).  On that range [trim], the
      regular-expression class [\s] and [toLowerCase] are given exactly.  A
      JSON text can name a code unit above that range in an escape; [parse]
      reports it as [OutOfRange] and the model says nothing of such a text.
    - A JavaScript number is an IEEE-754 binary64 value, [spec_float] with
      precision 53 and maximal exponent 1024, with the one [NaN].
    - A JSON object is an association list in insertion order.  JavaScript
      lists the keys that are array indices first, so for an object with
      such keys the order of the members differs; what a key holds does not.
    - Code that throws returns an [attempt]; [let* x := e in k] runs [k] when
      [e] returns and passes the exception on when it throws.
    - What the platform does is an input: what [request.json()] and [fetch]
      resolve to, the answer to [confirm], the readings of the clock, the
      reply of the completion service.  A handler that awaits is given as
      what it does up to the call and a continuation for what comes back. *)

From Stdlib Require Import ZArith String Ascii List Bool Lia DecimalString.
From Stdlib Require Import Floats.SpecFloat.
From stdpp Require Import gmap strings.

Open Scope string_scope.

(** ** Strings *)

Module JsString.

(** [WhiteSpace] and [LineTerminator] code units below 256: TAB, LF, VT, FF,
    CR, SP and NBSP.  This is the set [String.prototype.trim] strips and the
    set the regular-expression class [\s] matches. *)
Definition isWhiteSpace (c : ascii) : bool :=
  let n := N_of_ascii c in
  ((9 <=? n) && (n <=? 13) || (n =? 32) || (n =? 160))%N.

Fixpoint trimStart (s : string) : string :=
  match s with
  | String c r => if isWhiteSpace c then trimStart r else s
  | EmptyString => EmptyString
  end.

Fixpoint trimEnd (s : string) : string :=
  match s with
  | String c r =>
      match trimEnd r with
      | EmptyString => if isWhiteSpace c then EmptyString else String c EmptyString
      | r' => String c r'
      end
  | EmptyString => EmptyString
  end.

(** [s.trim()] *)
Definition trim (s : string) : string := trimEnd (trimStart s).

(** Lower-case mapping of one code unit: [A-Z] and the Latin-1 capitals
    U+00C0..U+00DE (without the multiplication sign U+00D7) move up by 32. *)
Definition toLowerChar (c : ascii) : ascii :=
  let n := N_of_ascii c in
  if ((65 <=? n) && (n <=? 90) || (192 <=? n) && (n <=? 222) && negb (n =? 215))%N
  then ascii_of_N (n + 32)
  else c.

(** [s.toLowerCase()] *)
Fixpoint toLowerCase (s : string) : string :=
  match s with
  | String c r => String (toLowerChar c) (toLowerCase r)
  | EmptyString => EmptyString
  end.

(** [s.replace(/C/g, '')] for a one-code-unit class [C], and
    [s.replace(/C+/g, '')]: both delete every code unit of the class. *)
Fixpoint removeAll (p : ascii -> bool) (s : string) : string :=
  match s with
  | String c r => if p c then removeAll p r else String c (removeAll p r)
  | EmptyString => EmptyString
  end.

Definition isHyphen (c : ascii) : bool := (c =? "-")%char.

(** Code units that a string literal cannot spell. *)
Definition dquote : ascii := ascii_of_N 34.
Definition backslash : ascii := ascii_of_N 92.
Definition newline : ascii := ascii_of_N 10.
Definition nl : string := String newline EmptyString.
Definition dq : string := String dquote EmptyString.

(** [s.includes(t)] *)
Definition includes (s t : string) : bool :=
  match String.index 0 t s with Some _ => true | None => false end.

(** [s.slice(0, n)] *)
Definition sliceTo (n : nat) (s : string) : string := String.substring 0 n s.

(** [s.slice(n)] *)
Definition sliceFrom (n : nat) (s : string) : string :=
  String.substring n (String.length s - n) s.

(** [s.startsWith(p)] *)
Definition startsWith (s p : string) : bool := String.prefix p s.

(** Truthiness of a string: only the empty string is falsy. *)
Definition truthy (s : string) : bool :=
  match s with EmptyString => false | _ => true end.

End JsString.

(** ** Numbers *)

Module JsNumber.

Definition prec : Z := 53.
Definition emax : Z := 1024.

Definition number : Type := spec_float.

Definition NaN : number := S754_nan.
Definition Infinity : number := S754_infinity false.

(** The number nearest to an integer (round to nearest, ties to even). *)
Definition ofZ (z : Z) : number := binary_normalize prec emax z 0 false.

(** The number nearest to [m * 10^e], with the sign [neg]. *)
Definition ofDecimal (neg : bool) (m : N) (e : Z) : number :=
  match m with
  | N0 => S754_zero neg
  | Npos p =>
      match e with
      | Zneg k =>
          SFdiv prec emax (S754_finite neg p 0) (S754_finite false (10 ^ k) 0)
      | Z0 => binary_round prec emax neg p 0
      | Zpos k => binary_round prec emax neg (p * 10 ^ k) 0
      end
  end.

Definition isNaN (x : number) : bool :=
  match x with S754_nan => true | _ => false end.

Definition isFinite (x : number) : bool :=
  match x with S754_zero _ | S754_finite _ _ _ => true | _ => false end.

Definition ltb (x y : number) : bool := SFltb x y.
Definition leb (x y : number) : bool := SFleb x y.
Definition mul (x y : number) : number := SFmul prec emax x y.

Definition zero : number := S754_zero false.

(** [Number.isInteger(x)] *)
Definition isInteger (x : number) : bool :=
  match x with
  | S754_zero _ => true
  | S754_finite _ m e =>
      match e with
      | Zneg k => (Z.pos m mod 2 ^ Z.pos k =? 0)%Z
      | _ => true
      end
  | _ => false
  end.

(** [Math.round(x)]: the integer nearest to [x], ties towards +Infinity;
    the sign of a zero result is the sign of [x]. *)
Definition round (x : number) : number :=
  match x with
  | S754_finite s m (Zneg k) =>
      let v := if s then Z.neg m else Z.pos m in
      let n := ((2 * v + 2 ^ Z.pos k) / 2 ^ (Z.pos k + 1))%Z in
      binary_normalize prec emax n 0 s
  | _ => x
  end.

Definition decimal (n : N) : string := NilZero.string_of_uint (N.to_uint n).

(** The integer nearest to [10 * |x|], ties upwards, for finite [x]. *)
Definition tenths (x : number) : N :=
  match x with
  | S754_finite _ m e =>
      match e with
      | Zneg k => Z.to_N ((20 * Z.pos m + 2 ^ Z.pos k) / 2 ^ (Z.pos k + 1))
      | _ => Z.to_N (10 * Z.pos m * 2 ^ e)
      end
  | _ => 0%N
  end.

(** [floor (m * 2^e * 10^p)] *)
Definition scaledFloor (m : positive) (e p : Z) : Z :=
  let num := (Z.pos m * (if 0 <=? e then 2 ^ e else 1) * (if 0 <=? p then 10 ^ p else 1))%Z in
  let den := ((if 0 <=? e then 1 else 2 ^ (- e)) * (if 0 <=? p then 1 else 10 ^ (- p)))%Z in
  (num / den)%Z.

(** Whether [m * 2^e < 10^p]. *)
Definition below (m : positive) (e p : Z) : bool :=
  let num := (Z.pos m * (if 0 <=? e then 2 ^ e else 1))%Z in
  let den := (if 0 <=? e then 1 else 2 ^ (- e))%Z in
  if (0 <=? p)%Z then (num <? 10 ^ p * den)%Z else (num * 10 ^ (- p) <? den)%Z.

(** The least [p] from [p] on with [m * 2^e < 10^p]. *)
Fixpoint leastAbove (fuel : nat) (m : positive) (e p : Z) : Z :=
  match fuel with
  | O => p
  | S fuel' => if below m e p then p else leastAbove fuel' m e (p + 1)
  end.

(** [n] with [10^(n-1) <= m * 2^e < 10^n].  The search starts from an
    estimate that is at most [n], taken from the binary logarithm: with
    [l = floor (log2 (m * 2^e))], [floor (l * log10 2) <= n - 1], and 1233/4096
    is within 0.00001 of [log10 2]. *)
Definition magnitude (m : positive) (e : Z) : Z :=
  let l := (Z.log2 (Z.pos m) + e)%Z in
  leastAbove 6 m e (l * 1233 / 4096 - 1).

(** Whether [m * 2^e * 10^p] is nearer to [lo + 1] than to [lo]:
    [Lt] nearer to [lo], [Eq] half way, [Gt] nearer to [lo + 1]. *)
Definition nearer (m : positive) (e p : Z) (lo : Z) : comparison :=
  let num := (Z.pos m * (if 0 <=? e then 2 ^ e else 1) * (if 0 <=? p then 10 ^ p else 1))%Z in
  let den := ((if 0 <=? e then 1 else 2 ^ (- e)) * (if 0 <=? p then 1 else 10 ^ (- p)))%Z in
  (2 * num ?= (2 * lo + 1) * den)%Z.

(** Identity of numbers as bit patterns (one NaN). *)
Definition same (x y : number) : bool :=
  match x, y with
  | S754_zero a, S754_zero b => Bool.eqb a b
  | S754_infinity a, S754_infinity b => Bool.eqb a b
  | S754_nan, S754_nan => true
  | S754_finite a m e, S754_finite b m' e' => Bool.eqb a b && (m =? m')%positive && (e =? e')%Z
  | _, _ => false
  end.

(** The shortest decimal [s * 10^(n - k)], [s] of [k] digits, that reads back
    as [S754_finite false m e], and then the one nearest to it: the digits
    and the exponent that [Number::toString] prints.  The search runs from
    [k] digits upwards; seventeen always suffice. *)
Fixpoint shortest (fuel : nat) (k : Z) (m : positive) (e n : Z) : N * Z :=
  let x := S754_finite false m e in
  let lo := scaledFloor m e (k - n) in
  let hi := (lo + 1)%Z in
  let okLo := same (ofDecimal false (Z.to_N lo) (n - k)) x in
  let okHi := same (ofDecimal false (Z.to_N hi) (n - k)) x in
  let pick (s : Z) :=
    if (s =? 10 ^ k)%Z then (Z.to_N (10 ^ (k - 1)), (n + 1)%Z) else (Z.to_N s, n) in
  match fuel with
  | O => pick lo
  | S fuel' =>
      match okLo, okHi with
      | true, true =>
          match nearer m e (k - n) lo with
          | Lt => pick lo
          | Gt => pick hi
          | Eq => if Z.even lo then pick lo else pick hi
          end
      | true, false => pick lo
      | false, true => pick hi
      | false, false => shortest fuel' (k + 1) m e n
      end
  end.

Fixpoint zeros (n : nat) : string :=
  match n with O => "" | S n' => String "0" (zeros n') end.

(** [Number::toString(x)], radix 10. *)
Definition toString (x : number) : string :=
  match x with
  | S754_nan => "NaN"
  | S754_zero _ => "0"
  | S754_infinity s => if s then "-Infinity" else "Infinity"
  | S754_finite sg m e =>
      let '(s, n) := shortest 17 1 m e (magnitude m e) in
      let ds := decimal s in
      let k := Z.of_nat (String.length ds) in
      let body :=
        if ((k <=? n) && (n <=? 21))%Z then
          ds ++ zeros (Z.to_nat (n - k))
        else if ((0 <? n) && (n <=? 21))%Z then
          String.substring 0 (Z.to_nat n) ds ++ "." ++ JsString.sliceFrom (Z.to_nat n) ds
        else if ((-6 <? n) && (n <=? 0))%Z then
          "0." ++ zeros (Z.to_nat (- n)) ++ ds
        else
          let ex := (if (0 <=? n - 1)%Z then "+" else "-") ++ decimal (Z.to_N (Z.abs (n - 1))) in
          if (k =? 1)%Z then ds ++ "e" ++ ex
          else String.substring 0 1 ds ++ "." ++ JsString.sliceFrom 1 ds ++ "e" ++ ex
      in
      (if sg then "-" else "") ++ body
  end.

(** [x.toFixed(1)] *)
Definition toFixed1 (x : number) : string :=
  match x with
  | S754_nan | S754_infinity _ => toString x
  | S754_zero _ => "0.0"
  | S754_finite sg m e =>
      if leb (ofDecimal false 1 21) (S754_finite false m e) then toString x
      else
        let n := tenths x in
        (if sg then "-" else "") ++ decimal (n / 10) ++ "." ++ decimal (n mod 10)
  end.

End JsNumber.

(** ** Numeric strings: [parseFloat], [parseInt], [StringToNumber] and the
    digit patterns of the gateway *)

Module JsParse.
Import JsString JsNumber.

Definition isDigit (c : ascii) : bool :=
  let n := N_of_ascii c in ((48 <=? n) && (n <=? 57))%N.

Definition digitValue (c : ascii) : N := (N_of_ascii c - 48)%N.

(** The longest run of decimal digits at the head of [s], and what follows. *)
Fixpoint spanDigits (s : string) : string * string :=
  match s with
  | String c r =>
      if isDigit c then let '(ds, t) := spanDigits r in (String c ds, t)
      else (EmptyString, s)
  | EmptyString => (EmptyString, EmptyString)
  end.

Fixpoint digitsValue (acc : N) (ds : string) : N :=
  match ds with
  | String c r => digitsValue (acc * 10 + digitValue c) r
  | EmptyString => acc
  end.

(** An optional sign at the head of [s]: whether it is [-], and the rest. *)
Definition spanSign (s : string) : bool * string :=
  match s with
  | String "+" r => (false, r)
  | String "-" r => (true, r)
  | _ => (false, s)
  end.

(** [ExponentPart] at the head of [s], when there is one: its value and what
    follows.  An [e] without digits is no exponent and is left in place. *)
Definition spanExponent (s : string) : Z * string :=
  match s with
  | String c r =>
      if ((c =? "e") || (c =? "E"))%char then
        let '(neg, r') := spanSign r in
        let '(ds, t) := spanDigits r' in
        match ds with
        | EmptyString => (0%Z, s)
        | _ =>
            let v := Z.of_N (digitsValue 0 ds) in
            ((if neg then - v else v)%Z, t)
        end
      else (0%Z, s)
  | EmptyString => (0%Z, s)
  end.

(** The longest prefix of [s] that is a [StrUnsignedDecimalLiteral]: its
    value with the sign [neg], and what follows; [None] when no prefix is
    one. *)
Definition spanUnsignedDecimal (neg : bool) (s : string) : option (number * string) :=
  if startsWith s "Infinity" then
    Some (S754_infinity neg, sliceFrom 8 s)
  else
    let '(int, r) := spanDigits s in
    let '(frac, r', dot) :=
      match r with
      | String "." t => let '(f, t') := spanDigits t in (f, t', true)
      | _ => (EmptyString, r, false)
      end in
    match int, frac with
    | EmptyString, EmptyString => None
    | _, _ =>
        let '(ex, t) := spanExponent r' in
        Some (ofDecimal neg (digitsValue 0 (int ++ frac))
                        (ex - Z.of_nat (String.length frac)), t)
    end.

(** The longest prefix that is a [StrDecimalLiteral]. *)
Definition spanDecimal (s : string) : option (number * string) :=
  let '(neg, r) := spanSign s in spanUnsignedDecimal neg r.

(** [parseFloat(s)] on a string. *)
Definition parseFloat (s : string) : number :=
  match spanDecimal (trimStart s) with
  | Some (x, _) => x
  | None => NaN
  end.

Definition radixDigit (radix : N) (c : ascii) : option N :=
  let n := N_of_ascii c in
  let d :=
    if ((48 <=? n) && (n <=? 57))%N then Some (n - 48)%N
    else if ((97 <=? n) && (n <=? 122))%N then Some (n - 87)%N
    else if ((65 <=? n) && (n <=? 90))%N then Some (n - 55)%N
    else None in
  match d with
  | Some v => if (v <? radix)%N then Some v else None
  | None => None
  end.

(** The value of the longest run of radix-[radix] digits at the head of
    [s], [None] when the run is empty; and what follows the run. *)
Fixpoint spanRadix (radix : N) (acc : option N) (s : string) : option N * string :=
  match s with
  | String c r =>
      match radixDigit radix c with
      | Some d =>
          spanRadix radix (Some (match acc with Some a => a * radix + d | None => d end)%N) r
      | None => (acc, s)
      end
  | EmptyString => (acc, s)
  end.

(** [parseInt(s)] on a string, no radix given. *)
Definition parseInt (s : string) : number :=
  let '(neg, r) := spanSign (trimStart s) in
  let '(radix, digits) :=
    match r with
    | String "0" (String x t) =>
        if ((x =? "x") || (x =? "X"))%char then (16%N, t) else (10%N, r)
    | _ => (10%N, r)
    end in
  match fst (spanRadix radix None digits) with
  | None => NaN
  | Some n => binary_normalize prec emax (if neg then - Z.of_N n else Z.of_N n) 0 neg
  end.

(** [StringToNumber(s)]: the whole trimmed string must be a numeric
    literal; the empty string is zero. *)
Definition stringToNumber (s : string) : number :=
  let t := trim s in
  match t with
  | EmptyString => S754_zero false
  | String "0" (String x r) =>
      let radix :=
        if ((x =? "x") || (x =? "X"))%char then Some 16%N
        else if ((x =? "o") || (x =? "O"))%char then Some 8%N
        else if ((x =? "b") || (x =? "B"))%char then Some 2%N
        else None in
      match radix with
      | Some b =>
          match spanRadix b None r with
          | (Some n, EmptyString) => ofZ (Z.of_N n)
          | _ => NaN
          end
      | None =>
          match spanDecimal t with
          | Some (v, EmptyString) => v
          | _ => NaN
          end
      end
  | _ =>
      match spanDecimal t with
      | Some (v, EmptyString) => v
      | _ => NaN
      end
  end.

(** [s.match(/\d+/)]: the first run of digits, taken as long as it goes. *)
Fixpoint matchDigits (s : string) : option string :=
  match s with
  | String c r => if isDigit c then Some (fst (spanDigits s)) else matchDigits r
  | EmptyString => None
  end.

(** The first match of the pace pattern, digits then an optional point then
    optional digits: the first run of digits, a point when one follows, and
    the digits after it. *)
Fixpoint matchDecimal (s : string) : option string :=
  match s with
  | String c r =>
      if isDigit c then
        let '(int, t) := spanDigits s in
        match t with
        | String "." t' => Some (int ++ "." ++ fst (spanDigits t'))
        | _ => Some int
        end
      else matchDecimal r
  | EmptyString => None
  end.

End JsParse.

(** ** Values, coercions and JSON *)

Module Json.
Import JsString JsNumber JsParse.

(** The values that JSON texts and the object literals of the program hold. *)
#[warnings="-register-all"]
Inductive value : Type :=
| JUndefined
| JNull
| JBool (b : bool)
| JNum (n : number)
| JStr (s : string)
| JArr (items : list value)
| JObj (fields : list (string * value)).

Definition object : Type := list (string * value).

(** Own property lookup in an object. *)
Fixpoint lookup (k : string) (fields : object) : option value :=
  match fields with
  | (k', v) :: rest => if (k =? k')%string then Some v else lookup k rest
  | [] => None
  end.

(** [o[k] = v]: an existing key keeps its place, a new key goes last. *)
Fixpoint assign (k : string) (v : value) (fields : object) : object :=
  match fields with
  | (k', v') :: rest =>
      if (k =? k')%string then (k', v) :: rest else (k', v') :: assign k v rest
  | [] => [(k, v)]
  end.

(** [{...a, ...b}]: the keys of [b] assigned over [a], in order. *)
Definition spread (a b : object) : object :=
  fold_left (fun acc kv => assign (fst kv) (snd kv) acc) b a.

(** [v.k] for a value that is neither [null] nor [undefined] and a key
    that no prototype defines. *)
Definition get (k : string) (v : value) : value :=
  match v with
  | JObj fields => match lookup k fields with Some x => x | None => JUndefined end
  | _ => JUndefined
  end.

Definition isNullish (v : value) : bool :=
  match v with JUndefined | JNull => true | _ => false end.

(** [ToBoolean] *)
Definition truthy (v : value) : bool :=
  match v with
  | JUndefined | JNull => false
  | JBool b => b
  | JNum n =>
      match n with
      | S754_zero _ | S754_nan => false
      | _ => true
      end
  | JStr s => JsString.truthy s
  | JArr _ | JObj _ => true
  end.

(** *** Exceptions *)

(** What a [throw] carries: an [Error] made by the program, the completion
    client's [APIError] with its [code], or a [TypeError] of the engine.
    Each has a [message]. *)
Inductive exn : Type :=
| Error (message : string)
| APIError (message : string) (code : option string)
| TypeError (message : string).

Definition message (e : exn) : string :=
  match e with
  | Error m | APIError m _ | TypeError m => m
  end.

(** A computation that returns or throws. *)
Inductive attempt (A : Type) : Type :=
| Return (a : A)
| Throw (e : exn).
Arguments Return {A} a.
Arguments Throw {A} e.

Definition andThen {A B : Type} (r : attempt A) (f : A -> attempt B) : attempt B :=
  match r with
  | Return a => f a
  | Throw e => Throw e
  end.

Notation "'let*' x := e 'in' k" := (andThen e (fun x => k))
  (at level 10, x name, e at level 100, k at level 200).

(** The engine's wording of its own errors (V8, the runtime of the route). *)
Definition notPrimitive : exn := TypeError "Cannot convert object to primitive value".
Definition notAFunction (callee : string) : exn := TypeError (callee ++ " is not a function").
Definition readOfNullish (v : value) (k : string) : exn :=
  TypeError ("Cannot read properties of "
             ++ (match v with JNull => "null" | _ => "undefined" end)
             ++ " (reading '" ++ k ++ "')").

(** [v.k]: throws on [null] and [undefined]. *)
Definition getProp (v : value) (k : string) : attempt value :=
  if isNullish v then Throw (readOfNullish v k) else Return (get k v).

(** [ToString].  An array joins its elements with commas, [null] and
    [undefined] elements as the empty string.  An object parsed from JSON
    prints as [[object Object]] through the inherited [toString], unless a
    member named [toString] hides it: that member is not callable and the
    conversion throws. *)
Fixpoint toStr (v : value) : attempt string :=
  match v with
  | JUndefined => Return "undefined"
  | JNull => Return "null"
  | JBool b => Return (if b then "true" else "false")
  | JNum n => Return (JsNumber.toString n)
  | JStr s => Return s
  | JArr items =>
      (fix join (l : list value) : attempt string :=
         match l with
         | [] => Return ""
         | x :: r =>
             andThen (if isNullish x then Return "" else toStr x) (fun sx =>
             match r with
             | [] => Return sx
             | _ => andThen (join r) (fun sr => Return (sx ++ "," ++ sr))
             end)
         end) items
  | JObj fields =>
      match lookup "toString" fields with
      | Some _ => Throw notPrimitive
      | None => Return "[object Object]"
      end
  end.

(** [ToNumber] *)
Definition toNumber (v : value) : attempt number :=
  match v with
  | JUndefined => Return NaN
  | JNull => Return (S754_zero false)
  | JBool b => Return (if b then ofZ 1 else S754_zero false)
  | JNum n => Return n
  | JStr s => Return (stringToNumber s)
  | JArr _ | JObj _ => andThen (toStr v) (fun s => Return (stringToNumber s))
  end.

(** [a || b] on values. *)
Definition orElse (a b : value) : value := if truthy a then a else b.

(** *** [JSON.parse] *)

(** What [JSON.parse] does with a text: a value, a [SyntaxError], or a
    string escape naming a code unit above U+00FF, which no string of this
    development holds. *)
Inductive outcome (A : Type) : Type :=
| Parsed (a : A)
| SyntaxError
| OutOfRange.
Arguments Parsed {A} a.
Arguments SyntaxError {A}.
Arguments OutOfRange {A}.

Definition bind {A B : Type} (o : outcome A) (f : A -> outcome B) : outcome B :=
  match o with
  | Parsed a => f a
  | SyntaxError => SyntaxError
  | OutOfRange => OutOfRange
  end.

Definition isJsonSpace (c : ascii) : bool :=
  let n := N_of_ascii c in ((n =? 32) || (n =? 9) || (n =? 10) || (n =? 13))%N.

Fixpoint skipSpace (s : string) : string :=
  match s with
  | String c r => if isJsonSpace c then skipSpace r else s
  | EmptyString => EmptyString
  end.

Definition hexValue (c : ascii) : option N := radixDigit 16 c.

(** The escape after a backslash that stands for one fixed code unit. *)
Definition simpleEscape (c : ascii) : option ascii :=
  if (c =? dquote)%char then Some dquote
  else if (c =? backslash)%char then Some backslash
  else if (c =? "/")%char then Some "/"%char
  else if (c =? "b")%char then Some (ascii_of_N 8)
  else if (c =? "f")%char then Some (ascii_of_N 12)
  else if (c =? "n")%char then Some (ascii_of_N 10)
  else if (c =? "r")%char then Some (ascii_of_N 13)
  else if (c =? "t")%char then Some (ascii_of_N 9)
  else None.

(** The characters of a string literal after its opening quote, up to the
    closing quote; and what follows. *)
Fixpoint parseChars (s : string) : outcome (string * string) :=
  match s with
  | EmptyString => SyntaxError
  | String c r =>
      if (c =? dquote)%char then Parsed (EmptyString, r)
      else if (c =? backslash)%char then
        match r with
        | String e r' =>
            match simpleEscape e with
            | Some ch =>
                bind (parseChars r') (fun p => Parsed (String ch (fst p), snd p))
            | None =>
                if (e =? "u")%char then
                  match r' with
                  | String h1 (String h2 (String h3 (String h4 r''))) =>
                      match hexValue h1, hexValue h2, hexValue h3, hexValue h4 with
                      | Some a, Some b, Some c', Some d =>
                          let n := (((a * 16 + b) * 16 + c') * 16 + d)%N in
                          if (n <? 256)%N then
                            bind (parseChars r'')
                                 (fun p => Parsed (String (ascii_of_N n) (fst p), snd p))
                          else OutOfRange
                      | _, _, _, _ => SyntaxError
                      end
                  | _ => SyntaxError
                  end
                else SyntaxError
            end
        | EmptyString => SyntaxError
        end
      else if (N_of_ascii c <? 32)%N then SyntaxError
      else bind (parseChars r) (fun p => Parsed (String c (fst p), snd p))
  end.

(** A JSON number at the head of [s]: minus, integer part without leading
    zeros, fraction, exponent. *)
Definition parseNumber (s : string) : outcome (number * string) :=
  let '(neg, r) :=
    match s with String "-" t => (true, t) | _ => (false, s) end in
  let '(int, r1) :=
    match r with
    | String "0" t => ("0", t)
    | _ => spanDigits r
    end in
  match int with
  | EmptyString => SyntaxError
  | _ =>
      let '(frac, r2) :=
        match r1 with
        | String "." t =>
            match spanDigits t with
            | (EmptyString, _) => (EmptyString, r1)
            | (f, t') => (f, t')
            end
        | _ => (EmptyString, r1)
        end in
      let '(ex, r3) := spanExponent r2 in
      Parsed (ofDecimal neg (digitsValue 0 (int ++ frac))
                        (ex - Z.of_nat (String.length frac)), r3)
  end.

Definition expect (lit : string) (v : value) (s : string) : outcome (value * string) :=
  if startsWith s lit
  then Parsed (v, sliceFrom (String.length lit) s)
  else SyntaxError.

(** One JSON value at the head of [s] after white space, and what follows.
    [parseElements] reads the elements of an array up to its bracket,
    [parseMembers] the members of an object up to its brace; a repeated key
    keeps its first place and takes the last value. *)
Fixpoint parseValue (fuel : nat) (s : string) : outcome (value * string) :=
  match fuel with
  | O => SyntaxError
  | S fuel' =>
      match skipSpace s with
      | String "{" r =>
          match skipSpace r with
          | String "}" t => Parsed (JObj [], t)
          | r' => bind (parseMembers fuel' [] r') (fun p => Parsed (JObj (fst p), snd p))
          end
      | String "[" r =>
          match skipSpace r with
          | String "]" t => Parsed (JArr [], t)
          | r' => bind (parseElements fuel' [] r') (fun p => Parsed (JArr (fst p), snd p))
          end
      | String "t" _ as t => expect "true" (JBool true) t
      | String "f" _ as t => expect "false" (JBool false) t
      | String "n" _ as t => expect "null" JNull t
      | String c r as t =>
          if (c =? dquote)%char
          then bind (parseChars r) (fun p => Parsed (JStr (fst p), snd p))
          else bind (parseNumber t) (fun p => Parsed (JNum (fst p), snd p))
      | EmptyString => SyntaxError
      end
  end
with parseElements (fuel : nat) (acc : list value) (s : string)
     : outcome (list value * string) :=
  match fuel with
  | O => SyntaxError
  | S fuel' =>
      bind (parseValue fuel' s) (fun p =>
        let acc' := (acc ++ [fst p])%list in
        match skipSpace (snd p) with
        | String "," t => parseElements fuel' acc' t
        | String "]" t => Parsed (acc', t)
        | _ => SyntaxError
        end)
  end
with parseMembers (fuel : nat) (acc : object) (s : string)
     : outcome (object * string) :=
  match fuel with
  | O => SyntaxError
  | S fuel' =>
      match skipSpace s with
      | String c r =>
          if (c =? dquote)%char then
            bind (parseChars r) (fun k =>
              match skipSpace (snd k) with
              | String ":" t =>
                  bind (parseValue fuel' t) (fun p =>
                    let acc' := assign (fst k) (fst p) acc in
                    match skipSpace (snd p) with
                    | String "," t' => parseMembers fuel' acc' t'
                    | String "}" t' => Parsed (acc', t')
                    | _ => SyntaxError
                    end)
              | _ => SyntaxError
              end)
          else SyntaxError
      | EmptyString => SyntaxError
      end
  end.

(** [JSON.parse(text)] *)
Definition parse (text : string) : outcome value :=
  bind (parseValue (2 * String.length text + 2) text) (fun p =>
    match skipSpace (snd p) with
    | EmptyString => Parsed (fst p)
    | _ => SyntaxError
    end).

(** *** [JSON.stringify] *)

Definition hexDigit (n : N) : ascii :=
  if (n <? 10)%N then ascii_of_N (48 + n) else ascii_of_N (87 + n).

Fixpoint quoteChars (s : string) : string :=
  match s with
  | EmptyString => EmptyString
  | String c r =>
      let n := N_of_ascii c in
      (if (c =? dquote)%char then String backslash dq
       else if (c =? backslash)%char then String backslash (String backslash EmptyString)
       else if (n =? 8)%N then String backslash "b"
       else if (n =? 12)%N then String backslash "f"
       else if (n =? 10)%N then String backslash "n"
       else if (n =? 13)%N then String backslash "r"
       else if (n =? 9)%N then String backslash "t"
       else if (n <? 32)%N then
         String backslash "u00"
         ++ String (hexDigit (n / 16)) (String (hexDigit (n mod 16)) EmptyString)
       else String c EmptyString) ++ quoteChars r
  end.

Definition quote (s : string) : string := dq ++ quoteChars s ++ dq.

(** [JSON.stringify(v)] for a value other than [undefined]: a number that is
    not finite prints as [null], an [undefined] array element prints as
    [null] and an [undefined] member is left out. *)
Fixpoint stringify (v : value) : string :=
  match v with
  | JUndefined | JNull => "null"
  | JBool b => if b then "true" else "false"
  | JNum n => if isFinite n then JsNumber.toString n else "null"
  | JStr s => quote s
  | JArr items =>
      "[" ++
      (fix elements (l : list value) : string :=
         match l with
         | [] => ""
         | x :: r => stringify x ++ match r with [] => "" | _ => "," ++ elements r end
         end) items
      ++ "]"
  | JObj fields =>
      "{" ++
      (fix members (first : bool) (l : list (string * value)) : string :=
         match l with
         | [] => ""
         | (k, x) :: r =>
             match x with
             | JUndefined => members first r
             | _ =>
                 (if first then "" else ",") ++ quote k ++ ":" ++ stringify x
                 ++ members false r
             end
         end) true fields
      ++ "}"
  end.

(** What the reader of a JSON body gets back for the value the writer
    serialised: [parse (stringify v)] at the level of values. *)
Fixpoint wire (v : value) : value :=
  match v with
  | JUndefined => JNull
  | JNum n =>
      match n with
      | S754_finite _ _ _ => v
      | S754_zero _ => JNum (S754_zero false)
      | _ => JNull
      end
  | JArr items => JArr (map wire items)
  | JObj fields =>
      JObj ((fix members (l : list (string * value)) : list (string * value) :=
               match l with
               | [] => []
               | (k, x) :: r =>
                   match x with
                   | JUndefined => members r
                   | _ => (k, wire x) :: members r
                   end
               end) fields)
  | _ => v
  end.

End Json.
(** ** The calorie-estimation gateway: the [POST] route handler *)

Module Route.
Import JsString JsNumber JsParse Json.

(** [process.env]: the credential, when the variable is set. *)
Record Env : Type := { OPENAI_API_KEY : option string }.

(** What [request.json()] resolves to, or the error it rejects with. *)
Definition Request : Type := attempt value.

(** [NextResponse.json(body, { status })] *)
Record Response : Type := { status : Z; body : value }.

(** What [openai.chat.completions.create] does with a prompt: it throws, or
    it resolves to a completion whose [choices[0]?.message?.content] is a
    string, [null] or [undefined]. *)
Definition Completion : Type := attempt (option string).

(** The handler up to the point where it awaits the completion service:
    either it has responded already, or it sends one prompt and goes on
    with what comes back.  The continuation gives no response when the
    reply is JSON whose strings leave the Latin-1 range. *)
Inductive Gateway : Type :=
| Respond (r : Response)
| Complete (prompt : string) (k : Completion -> option Response).

Definition json (status : Z) (fields : object) : Response :=
  {| status := status; body := JObj fields |}.

(** The [catch] block, lines 159-177. *)
Definition catch (e : exn) : Response :=
  match e with
  | APIError m code =>
      json 500
        [("error", JStr ("OpenAI API error: " ++ m));
         ("details",
          match code with
          | Some (String _ _ as c) => JStr ("Error code: " ++ c)
          | _ => JUndefined
          end)]
  | _ =>
      json 500
        [("error",
          orElse (JStr (message e))
                 (JStr "Failed to calculate calories. Please try again."))]
  end.

(** [parseFloat(v)] on any value: [ToString] first. *)
Definition parseFloatOf (v : value) : attempt number :=
  let* s := toStr v in Return (parseFloat s).

(** [workoutType.toLowerCase()]; only strings have the method. *)
Definition toLowerCaseOf (callee : string) (v : value) : attempt string :=
  match v with
  | JStr s => Return (toLowerCase s)
  | _ => Throw (notAFunction callee)
  end.

(** The conversion factor of line 67, as the number the literal denotes. *)
Definition lbsToKg : number := ofDecimal false 453592 (-6).

(** Lines 58-76: the two weight strings, [(weightInfo, weightForCalculation)]. *)
Definition weightStrings (weight weightUnit : value) : attempt (string * string) :=
  if truthy weight then
    let* weightNum := parseFloatOf weight in
    if negb (isNaN weightNum) && ltb zero weightNum then
      let unit := orElse weightUnit (JStr "kg") in
      match unit with
      | JStr "lbs" =>
          let weightKg := mul weightNum lbsToKg in
          Return (nl ++ "Weight: " ++ toString weightNum ++ " lbs ("
                     ++ toFixed1 weightKg ++ " kg)",
                  toFixed1 weightKg ++ " kg")
      | _ =>
          Return (nl ++ "Weight: " ++ toString weightNum ++ " kg",
                  toString weightNum ++ " kg")
      end
    else Return ("", "")
  else Return ("", "").

(** Lines 78-90: the pace guidance. *)
Definition paceGuidance (isRunning : bool) (runningPace : value) : attempt string :=
  if isRunning && truthy runningPace then
    match runningPace with
    | JStr pace =>
        match matchDecimal pace with
        | Some m =>
            let paceNum := parseFloat m in
            let p := toString paceNum in
            Return (nl ++ nl ++ "IMPORTANT: The pace is " ++ p ++ " min/km. " ++ nl
              ++ "- A pace of " ++ p ++ " min/km means the runner covers 1 kilometer in "
              ++ p ++ " minutes." ++ nl
              ++ "- FASTER paces (LOWER min/km numbers) = HIGHER intensity = MORE calories burned per minute." ++ nl
              ++ "- For example: 5 min/km burns MORE calories than 7 min/km for the same duration." ++ nl
              ++ "- Calculate calories based on this intensity level. A " ++ p
              ++ " min/km pace is "
              ++ (if leb paceNum (ofZ 5) then "very fast/high intensity"
                  else if leb paceNum (ofZ 6) then "fast/moderate-high intensity"
                  else if leb paceNum (ofZ 7) then "moderate intensity"
                  else "slow/moderate-low intensity")
              ++ ".")
        | None => Return ""
        end
    | _ => Throw (notAFunction "runningPace.match")
    end
  else Return "".

(** Lines 54-107: the prompt. *)
Definition buildPrompt (workoutType : value) (durationNum : number)
           (runningPace weight weightUnit : value) : attempt string :=
  let* lower := toLowerCaseOf "workoutType.toLowerCase" workoutType in
  let isRunning := (lower =? "run") || (lower =? "running") in
  let* paceInfo :=
    (if isRunning && truthy runningPace
     then let* p := toStr runningPace in
          Return (nl ++ "Running Pace: " ++ p ++ " (in min/km format)")
     else Return "") in
  let* w := weightStrings weight weightUnit in
  let '(weightInfo, weightForCalculation) := w in
  let* guidance := paceGuidance isRunning runningPace in
  let* type := toStr workoutType in
  let* paceAdvice :=
    (if isRunning && truthy runningPace
     then let* p := toStr runningPace in
          Return ("Use the running pace to determine intensity. Remember: LOWER min/km = FASTER pace = MORE calories per minute. A "
                  ++ p ++ " pace should result in higher calorie burn than a slower pace for the same duration.")
     else Return "Use moderate intensity unless otherwise specified.") in
  Return
    ("Calculate the approximate number of calories burned for the following workout:" ++ nl
     ++ "    " ++ nl
     ++ "Workout Type: " ++ type ++ nl
     ++ "Duration: " ++ toString durationNum ++ " minutes"
     ++ paceInfo ++ weightInfo ++ guidance ++ nl
     ++ nl
     ++ "Please provide:" ++ nl
     ++ "1. The estimated number of calories burned (as a single number, no text)" ++ nl
     ++ "2. A brief explanation (1-2 sentences) of how you calculated this" ++ nl
     ++ nl
     ++ (if JsString.truthy weightForCalculation
         then "Use the person's weight of " ++ weightForCalculation
              ++ " to calculate calories. Heavier people burn more calories for the same activity."
         else "Assume an average adult (weighing approximately 70kg/154lbs) performing this activity.")
     ++ " " ++ paceAdvice ++ nl
     ++ nl
     ++ "Format your response as JSON with this structure:" ++ nl
     ++ "{" ++ nl
     ++ "  " ++ dq ++ "calories" ++ dq ++ ": <number>," ++ nl
     ++ "  " ++ dq ++ "explanation" ++ dq ++ ": " ++ dq ++ "<brief explanation>" ++ dq ++ nl
     ++ "}").

(** Lines 132-146: the reply as JSON, or the first run of digits in it. *)
Definition parseReply (responseContent : string) : option (attempt value) :=
  match parse responseContent with
  | Parsed v => Some (Return v)
  | SyntaxError =>
      Some
        match matchDigits responseContent with
        | Some caloriesMatch =>
            Return (JObj [("calories", JNum (parseInt caloriesMatch));
                          ("explanation", JStr responseContent)])
        | None => Throw (Error "Could not parse OpenAI response")
        end
  | OutOfRange => None
  end.

(** Lines 148-158: the validity check and the success response. *)
Definition respond (workoutType : value) (durationNum : number) (reply : value)
  : attempt Response :=
  let* calories := getProp reply "calories" in
  let* notANumber :=
    (if truthy calories then let* n := toNumber calories in Return (isNaN n)
     else Return true) in
  if notANumber then Throw (Error "Invalid calorie calculation from OpenAI")
  else
    let* n := toNumber calories in
    let* explanation := getProp reply "explanation" in
    Return
      (json 200
         [("calories", JNum (round n));
          ("explanation",
           orElse explanation
                  (JStr "Calories calculated based on workout type and duration."));
          ("workoutType", workoutType);
          ("duration", JNum durationNum)]).

(** Lines 126-158: what the handler does with the completion. *)
Definition finish (workoutType : value) (durationNum : number) (c : Completion)
  : option Response :=
  match c with
  | Throw e => Some (catch e)
  | Return content =>
      match content with
      | Some (String _ _ as responseContent) =>
          match parseReply responseContent with
          | Some (Return reply) =>
              Some match respond workoutType durationNum reply with
                   | Return r => r
                   | Throw e => catch e
                   end
          | Some (Throw e) => Some (catch e)
          | None => None
          end
      | _ => Some (catch (Error "No response from OpenAI"))
      end
  end.

(** The engine's wording when [body] cannot be destructured. *)
Definition notDestructurable (v : value) : exn :=
  TypeError ("Cannot destructure property 'workoutType' of 'body' as it is "
             ++ (match v with JNull => "null" | _ => "undefined" end) ++ ".").

(** [POST], lines 12-178. *)
Definition POST (env : Env) (request : Request) : Gateway :=
  match request with
  | Throw e => Respond (catch e)
  | Return body =>
      if isNullish body then Respond (catch (notDestructurable body))
      else
        let workoutType := get "workoutType" body in
        let duration := get "duration" body in
        let runningPace := get "runningPace" body in
        let weight := get "weight" body in
        let weightUnit := get "weightUnit" body in
        (* Validate input *)
        if negb (truthy workoutType) || negb (truthy duration) then
          Respond (json 400 [("error", JStr "Workout type and duration are required")])
        else
          match parseFloatOf duration with
          | Throw e => Respond (catch e)
          | Return durationNum =>
              if isNaN durationNum || leb durationNum zero then
                Respond (json 400 [("error", JStr "Duration must be a positive number")])
              else
                (* Check if API key is configured *)
                match OPENAI_API_KEY env with
                | None | Some EmptyString =>
                    Respond (json 500 [("error", JStr "OpenAI API key is not configured. Please set OPENAI_API_KEY in your environment variables.")])
                | Some key =>
                    (* Check if API key starts correctly (basic validation) *)
                    if negb (startsWith key "sk-") then
                      Respond (json 400 [("error", JStr ("Invalid API key format. OpenAI API keys should start with " ++ dq ++ "sk-" ++ dq ++ "."))])
                    else
                      match buildPrompt workoutType durationNum runningPace weight weightUnit with
                      | Throw e => Respond (catch e)
                      | Return prompt =>
                          Complete prompt (finish workoutType durationNum)
                      end
                end
          end
  end.

(** The handler run against a completion service. *)
Definition run (service : string -> Completion) (g : Gateway) : option Response :=
  match g with
  | Respond r => Some r
  | Complete prompt k => k (service prompt)
  end.

End Route.
(** ** The client form controller, [app/page.tsx] *)

Module Page.
Import JsString JsNumber JsParse Json.

(** The normal form [isPushUp] compares: lower-cased, white space removed,
    hyphens removed. *)
Definition normalize (trimmed : string) : string :=
  removeAll isHyphen (removeAll isWhiteSpace (toLowerCase trimmed)).

(** [isPushUp], lines 36-52.  Nothing in the [try] block throws on a string
    argument, so the [catch] branch is dead. *)
Definition isPushUp (workout : string) : bool :=
  if negb (JsString.truthy workout) then false
  else
    let trimmed := trim workout in
    if negb (JsString.truthy trimmed) then false
    else
      let normalized := normalize trimmed in
      (normalized =? "pushup") || (normalized =? "pushups")
      || startsWith normalized "pushup".

(** The component state, lines 17-32.  A history entry is the object
    [addToHistory] builds.  The result cell is [None] for the [null] it
    starts with and [Some data] once [setResult(data)] has run; the page
    reads it by its truthiness ([showsResult] below), so [Some] of a falsy
    value shows no result either. *)
Record State : Type := {
  workoutType : string;
  duration : string;
  reps : string;
  runningPace : string;
  weight : string;
  weightUnit : string;
  isSubmitting : bool;
  result : option value;
  error : option string;
  workoutHistory : list object
}.

(** The state together with [localStorage]. *)
Record Client : Type := {
  state : State;
  localStorage : gmap string string
}.

Definition historyKey : string := "fitness-tracker-history".

(** The state setters the handlers call. *)
Definition setWorkoutHistory (h : list object) (st : State) : State :=
  {| workoutType := workoutType st; duration := duration st; reps := reps st;
     runningPace := runningPace st; weight := weight st;
     weightUnit := weightUnit st; isSubmitting := isSubmitting st;
     result := result st; error := error st; workoutHistory := h |}.

Definition setIsSubmitting (b : bool) (st : State) : State :=
  {| workoutType := workoutType st; duration := duration st; reps := reps st;
     runningPace := runningPace st; weight := weight st;
     weightUnit := weightUnit st; isSubmitting := b;
     result := result st; error := error st; workoutHistory := workoutHistory st |}.

Definition setResult (r : option value) (st : State) : State :=
  {| workoutType := workoutType st; duration := duration st; reps := reps st;
     runningPace := runningPace st; weight := weight st;
     weightUnit := weightUnit st; isSubmitting := isSubmitting st;
     result := r; error := error st; workoutHistory := workoutHistory st |}.

Definition setError (e : option string) (st : State) : State :=
  {| workoutType := workoutType st; duration := duration st; reps := reps st;
     runningPace := runningPace st; weight := weight st;
     weightUnit := weightUnit st; isSubmitting := isSubmitting st;
     result := result st; error := e; workoutHistory := workoutHistory st |}.

(** Lines 198-203 and 211-214: the form is cleared, the unit selector kept. *)
Definition clearForm (st : State) : State :=
  {| workoutType := ""; duration := ""; reps := ""; runningPace := ""; weight := "";
     weightUnit := weightUnit st; isSubmitting := isSubmitting st;
     result := result st; error := error st; workoutHistory := workoutHistory st |}.

(** [JSON.stringify] of a history list. *)
Definition serialize (h : list object) : string := stringify (JArr (map JObj h)).

(** The effect of lines 90-94, run when [workoutHistory] has changed. *)
Definition saveHistory (c : Client) : Client :=
  if (0 <? length (workoutHistory (state c)))%nat then
    {| state := state c;
       localStorage := <[historyKey := serialize (workoutHistory (state c))]> (localStorage c) |}
  else c.

(** [v !== id] for a string [id]. *)
Definition differsFrom (id : string) (v : value) : bool :=
  match v with
  | JStr s => negb (s =? id)
  | _ => true
  end.

(** [clearHistory], lines 111-118; [confirmed] is the answer to [confirm]. *)
Definition clearHistory (confirmed : bool) (c : Client) : Client :=
  if confirmed then
    {| state := setWorkoutHistory [] (state c);
       localStorage := delete historyKey (localStorage c) |}
  else c.

(** [deleteWorkout], lines 120-132; [confirmed] is the answer to [confirm]. *)
Definition deleteWorkout (confirmed : bool) (id : string) (c : Client) : Client :=
  if confirmed then
    let updatedHistory :=
      List.filter (fun workout => differsFrom id (get "id" (JObj workout)))
                  (workoutHistory (state c)) in
    {| state := setWorkoutHistory updatedHistory (state c);
       localStorage :=
         if (0 <? length updatedHistory)%nat
         then <[historyKey := serialize updatedHistory]> (localStorage c)
         else delete historyKey (localStorage c) |}
  else c.

(** A click on an entry's delete button: the handler, then the effect that
    follows the change of [workoutHistory]. *)
Definition deleteClicked (confirmed : bool) (id : string) (c : Client) : Client :=
  if confirmed then saveHistory (deleteWorkout confirmed id c) else c.

(** The readings of the clock that [addToHistory] takes:
    [Date.now().toString()] and [new Date().toISOString()]. *)
Record Clock : Type := { now : string; iso : string }.

(** The own enumerable properties that an object spread copies. *)
Definition ownProperties (v : value) : object :=
  match v with
  | JObj fields => fields
  | JArr items =>
      snd (fold_left (fun acc x => (N.succ (fst acc), (snd acc ++ [(decimal (fst acc), x)])%list))
                     items (0%N, []))
  | JStr s =>
      snd (fold_left (fun acc ch => (N.succ (fst acc),
                                     (snd acc ++ [(decimal (fst acc), JStr (String ch EmptyString))])%list))
                     (list_ascii_of_string s) (0%N, []))
  | _ => []
  end.

(** [addToHistory], lines 96-109: the new entry goes first. *)
Definition newWorkout (workout : value) (clock : Clock) : object :=
  assign "timestamp" (JStr (iso clock))
         (spread [("id", JStr (now clock))] (ownProperties workout)).

Definition addToHistory (workout : value) (clock : Clock) (st : State) : State :=
  setWorkoutHistory (newWorkout workout clock :: workoutHistory st) st.

(** What [fetch] resolves to, as far as the handler reads it: [response.ok],
    the [content-type] header, and what [response.json()] and
    [response.text()] give. *)
Record HttpResponse : Type := {
  ok : bool;
  contentType : option string;
  json : attempt value;
  text : string
}.

(** [fetch] resolves or rejects. *)
Definition Fetched : Type := attempt HttpResponse.

(** What a submission does: a blocking notification and nothing else, or one
    request, whose body is [JSON.stringify] of the object given here, and
    then the state reached once the response is in. *)
Inductive Submission : Type :=
| Blocked (alert : string)
| Sent (url : string) (body : object) (k : Fetched -> Clock -> State).

(** Lines 178-186: the object the request body is made of. *)
Definition requestBody (st : State) : object :=
  let isPushUpWorkout := isPushUp (workoutType st) in
  let isRunning :=
    (toLowerCase (trim (workoutType st)) =? "run")
    || (toLowerCase (trim (workoutType st)) =? "running") in
  spread
    (spread
       (spread [("workoutType", JStr (trim (workoutType st)))]
               (if isPushUpWorkout
                then [("reps", JNum (parseInt (reps st)))]
                else [("duration", JNum (parseFloat (duration st)))]))
       (if isRunning && JsString.truthy (trim (runningPace st))
        then [("runningPace", JStr (trim (runningPace st)))]
        else []))
    (if JsString.truthy (trim (weight st))
     then [("weight", JStr (trim (weight st))); ("weightUnit", JStr (weightUnit st))]
     else []).

(** Lines 189-209: the data of a good response, or the error thrown. *)
Definition readResponse (fetched : Fetched) : attempt value :=
  let* response := fetched in
  let contentType :=
    match contentType response with
    | Some (String _ _ as c) => c
    | _ => ""
    end in
  if includes contentType "application/json" then
    let* data := json response in
    if negb (ok response) then
      let* e := getProp data "error" in
      let* m := toStr (orElse e (JStr "Failed to calculate calories")) in
      Throw (Error m)
    else Return data
  else
    Throw (Error ("Server returned an error page. Details: " ++ sliceTo 200 (text response))).

(** Lines 166-220: the state once the request has resolved. *)
Definition afterFetch (st : State) (fetched : Fetched) (clock : Clock) : State :=
  let st := setError None (setResult None (setIsSubmitting true st)) in
  let st :=
    match readResponse fetched with
    | Return data => clearForm (addToHistory data clock (setResult (Some data) st))
    | Throw e =>
        setError (Some (if JsString.truthy (message e) then message e
                        else "Failed to calculate calories. Please try again."))
                 st
    end in
  setIsSubmitting false st.

(** [handleSubmit], lines 134-221. *)
Definition handleSubmit (st : State) : Submission :=
  let isPushUpWorkout := isPushUp (workoutType st) in
  if negb (JsString.truthy (trim (workoutType st))) then
    Blocked "Please fill in the workout type"
  else if isPushUpWorkout then
    if negb (JsString.truthy (trim (reps st))) then
      Blocked "Please fill in the number of reps"
    else
      let repsNum := parseFloat (reps st) in
      if isNaN repsNum || leb repsNum zero || negb (isInteger repsNum) then
        Blocked "Please enter a valid number of reps (must be a positive whole number)"
      else Sent "/api/calculate-calories" (requestBody st) (afterFetch st)
  else
    if negb (JsString.truthy (trim (duration st))) then
      Blocked "Please fill in the duration"
    else
      let durationNum := parseFloat (duration st) in
      if isNaN durationNum || leb durationNum zero then
        Blocked "Please enter a valid duration (in minutes)"
      else Sent "/api/calculate-calories" (requestBody st) (afterFetch st).

Definition weightUnitKey : string := "fitness-tracker-weight-unit".

Definition setWeightUnit (u : string) (st : State) : State :=
  {| workoutType := workoutType st; duration := duration st; reps := reps st;
     runningPace := runningPace st; weight := weight st;
     weightUnit := u; isSubmitting := isSubmitting st;
     result := result st; error := error st; workoutHistory := workoutHistory st |}.

(** The effect of lines 83-87, run when [weightUnit] has changed. *)
Definition saveWeightUnit (c : Client) : Client :=
  {| state := state c;
     localStorage := <[weightUnitKey := weightUnit (state c)]> (localStorage c) |}.

(** A parsed history record as a list of entries, when it is an array of
    objects.  [setWorkoutHistory] takes whatever [JSON.parse] gives; the
    state of this development holds lists of entries only. *)
Definition asHistory (v : value) : option (list object) :=
  match v with
  | JArr items =>
      fold_right (fun x acc =>
                    match x, acc with
                    | JObj fields, Some h => Some (fields :: h)
                    | _, _ => None
                    end)
                 (Some []) items
  | _ => None
  end.

(** Lines 62-69: the history the mount effect sets, [Some None] when it sets
    none (no record, an empty one, or one that is not JSON, which is logged
    and dropped).  No answer when the record is JSON but not an array of
    objects, or names a code unit above U+00FF. *)
Definition loadHistory (storage : gmap string string) : option (option (list object)) :=
  match storage !! historyKey with
  | Some (String _ _ as saved) =>
      match parse saved with
      | Parsed v =>
          match asHistory v with
          | Some h => Some (Some h)
          | None => None
          end
      | SyntaxError => Some None
      | OutOfRange => None
      end
  | _ => Some None
  end.

(** Lines 72-78: the unit the mount effect sets. *)
Definition loadWeightUnit (storage : gmap string string) : string :=
  match storage !! weightUnitKey with
  | Some (String _ _ as savedWeightUnit) => savedWeightUnit
  | _ => "lbs"
  end.

(** The mount effect, lines 60-80. *)
Definition loadOnMount (c : Client) : option Client :=
  match loadHistory (localStorage c) with
  | Some loaded =>
      let st :=
        match loaded with
        | Some h => setWorkoutHistory h (state c)
        | None => state c
        end in
      Some {| state := setWeightUnit (loadWeightUnit (localStorage c)) st;
              localStorage := localStorage c |}
  | None => None
  end.

(** Lines 330 and 374: the weight and pace fields are on the form. *)
Definition showsRunFields (st : State) : bool :=
  (toLowerCase (trim (workoutType st)) =? "run")
  || (toLowerCase (trim (workoutType st)) =? "running").

(** Line 491: the result panel is on the page, [result && ...]. *)
Definition showsResult (st : State) : bool :=
  match result st with
  | Some data => truthy data
  | None => false
  end.

(** A value React takes as a child, or converts to text: text, a number,
    nothing for a boolean, [null] or [undefined], the items of an array.  An
    object as a child makes the render throw. *)
Fixpoint renderable (v : value) : bool :=
  match v with
  | JObj _ => false
  | JArr items => forallb renderable items
  | _ => true
  end.

(** Lines 491-521: the children of the result panel, [workoutType], [reps]
    when truthy and [duration] otherwise, [calories] and [explanation]. *)
Definition rendersResult (data : value) : bool :=
  renderable (get "workoutType" data)
  && renderable (if truthy (get "reps" data) then get "reps" data else get "duration" data)
  && renderable (get "calories" data)
  && renderable (get "explanation" data).

(** Lines 545-580 and 631: the children of one entry of the history, its
    [id] as the key, its [timestamp] as the argument of [new Date], and its
    [calories] in the sum of the total.  Values without objects are enough
    for all of them. *)
Definition rendersEntry (workout : object) : bool :=
  renderable (get "id" (JObj workout))
  && rendersResult (JObj workout)
  && renderable (get "timestamp" (JObj workout)).

(** The page renders the state: every child of the result panel, when it
    is shown, and of the entries is renderable.  With an object among them
    the render throws and React commits nothing. *)
Definition renders (st : State) : bool :=
  match result st with
  | Some data => if truthy data then rendersResult data else true
  | None => true
  end
  && forallb rendersEntry (workoutHistory st).

End Page.

(** ** The client against the gateway *)

Module System.
Import JsString JsNumber Json.

(** The response the client's [fetch] resolves to when the gateway answers
    [r]: [NextResponse.json] writes the body as JSON. *)
Definition deliver (r : Route.Response) : Page.HttpResponse :=
  {| Page.ok := ((200 <=? Route.status r) && (Route.status r <=? 299))%Z;
     Page.contentType := Some "application/json";
     Page.json := Return (wire (Route.body r));
     Page.text := stringify (Route.body r) |}.

(** One request through the gateway: the body object as [request.json()]
    reads it back, the handler, the completion service. *)
Definition serve (env : Route.Env) (service : string -> Route.Completion)
           (body : object) : option Page.Fetched :=
  match Route.run service (Route.POST env (Return (wire (JObj body)))) with
  | Some r => Some (Return (deliver r))
  | None => None
  end.

(** A submission from state [st], end to end: the state afterwards. *)
Definition submit (env : Route.Env) (service : string -> Route.Completion)
           (clock : Page.Clock) (st : Page.State) : option Page.State :=
  match Page.handleSubmit st with
  | Page.Blocked _ => Some st
  | Page.Sent _ body k =>
      match serve env service body with
      | Some fetched => Some (k fetched clock)
      | None => None
      end
  end.

End System.
(** ** The specification's own wording, to compare the code with *)

Module Spec.
Import JsString JsNumber JsParse Json.

(** The normal form of a workout type in the words of the specification:
    lower-cased, white space and hyphens stripped. *)
Definition stripped (workout : string) : string :=
  removeAll (fun c => isWhiteSpace c || isHyphen c) (toLowerCase workout).

(** A positive number, and a positive integer. *)
Definition positive (x : number) : bool := negb (isNaN x) && ltb zero x.
Definition positiveInteger (x : number) : bool := positive x && isInteger x.

(** When a submission goes out, in the words of the specification: the
    workout type is not empty once trimmed and, in push-up mode, the reps
    field parses to a positive integer, otherwise the duration field parses
    to a positive number. *)
Definition maySend (st : Page.State) : bool :=
  JsString.truthy (trim (Page.workoutType st))
  && (if Page.isPushUp (Page.workoutType st)
      then positiveInteger (parseFloat (Page.reps st))
      else positive (parseFloat (Page.duration st))).

(** A field of an entry is populated when the entry has it. *)
Definition populated (k : string) (entry : object) : bool :=
  match lookup k entry with Some _ => true | None => false end.

(** The workout is a run: the type is [run] or [running] in any case. *)
Definition isRun (workoutType : string) : bool :=
  (toLowerCase workoutType =? "run") || (toLowerCase workoutType =? "running").

(** The exact figure for a weight of [k] tenths of a pound: [k / 10] times
    0.453592, in tenths of a kilogram, rounded to the nearest. *)
Definition exactKilogramTenths (k : N) : N :=
  ((2 * k * 453592 + 1000000) / 2000000)%N.

(** The numeral, with one decimal, of [t] tenths. *)
Definition oneDecimal (t : N) : string := decimal (t / 10) ++ "." ++ decimal (t mod 10).

(** The entries that stay when the entry with identifier [id] is deleted. *)
Definition remaining (id : string) (history : list object) : list object :=
  List.filter (fun workout => Page.differsFrom id (get "id" (JObj workout))) history.

(** The identifier of an entry. *)
Definition idOf (workout : object) : value := get "id" (JObj workout).

(** The invariant of the data model on one entry: it has a workout type,
    [reps] is populated exactly when the type is a push-up label, and
    [duration] exactly when it is not; so exactly one of the two is. *)
Definition oneQuantity (entry : object) : Prop :=
  exists workoutType,
    lookup "workoutType" entry = Some (JStr workoutType)
    /\ populated "reps" entry = Page.isPushUp workoutType
    /\ populated "duration" entry = negb (Page.isPushUp workoutType).

(** A request body passes the gateway's validation, with the duration
    [durationNum]: it has a workout type and a duration, and the duration
    parses to a positive number. *)
Definition validated (body : value) (durationNum : number) : Prop :=
  isNullish body = false
  /\ truthy (get "workoutType" body) = true
  /\ truthy (get "duration" body) = true
  /\ Route.parseFloatOf (get "duration" body) = Return durationNum
  /\ positive durationNum = true.

(** The status of request-validation errors. *)
Definition validationStatus : Z := 400.

End Spec.


(** ** Shapes: the predicates and states further properties are stated with *)

Module Shape.
Import JsString JsNumber JsParse Json.

(** An error body: its [error] member is a string that is not empty. *)
Definition errorBody (r : Route.Response) : Prop :=
  exists message,
    JsString.truthy message = true /\ get "error" (Route.body r) = JStr message.

(** A string without a decimal digit, and a string of decimal digits only. *)
Fixpoint digitFree (s : string) : bool :=
  match s with
  | String c r => negb (isDigit c) && digitFree r
  | EmptyString => true
  end.

Fixpoint allDigits (s : string) : bool :=
  match s with
  | String c r => isDigit c && allDigits r
  | EmptyString => true
  end.

(** The string does not go on with a digit. *)
Definition noDigitAhead (s : string) : bool :=
  match s with
  | String c _ => negb (isDigit c)
  | EmptyString => true
  end.

(** The history record of the storage matches the history of the state:
    there is none for an empty history, and otherwise it is the history
    serialised. *)
Definition inSync (c : Page.Client) : Prop :=
  Page.localStorage c !! Page.historyKey
  = match Page.workoutHistory (Page.state c) with
    | [] => None
    | h => Some (Page.serialize h)
    end.

(** The state a failed submission leaves: the error message, no result, the
    form and the history as they were. *)
Definition failed (message : string) (st : Page.State) : Page.State :=
  {| Page.workoutType := Page.workoutType st; Page.duration := Page.duration st;
     Page.reps := Page.reps st; Page.runningPace := Page.runningPace st;
     Page.weight := Page.weight st; Page.weightUnit := Page.weightUnit st;
     Page.isSubmitting := false; Page.result := None; Page.error := Some message;
     Page.workoutHistory := Page.workoutHistory st |}.

(** The state a submission leaves when it succeeds with the data [data]:
    the result, no error, the form cleared but for the unit, and a new entry
    first in the history. *)
Definition succeeded (data : value) (clock : Page.Clock) (st : Page.State) : Page.State :=
  {| Page.workoutType := ""; Page.duration := ""; Page.reps := "";
     Page.runningPace := ""; Page.weight := ""; Page.weightUnit := Page.weightUnit st;
     Page.isSubmitting := false; Page.result := Some data; Page.error := None;
     Page.workoutHistory := Page.newWorkout data clock :: Page.workoutHistory st |}.

(** A member of a JSON body that is a finite number, or [null]. *)
Definition numberOrNull (v : value) : Prop :=
  v = JNull \/ exists n, v = JNum n /\ isFinite n = true.

(** An error body as the client reads it: its [error] member is a string
    that is not empty. *)
Definition errorDelivered (r : Route.Response) : Prop :=
  exists message,
    JsString.truthy message = true
    /\ get "error" (wire (Route.body r)) = JStr message.

(** The prompt can be built from the body: the workout type is a string,
    the pace of a run, when truthy, is a string, and the weight, when truthy,
    converts to a string. *)
Definition promptable (body : value) : Prop :=
  exists workoutType,
    get "workoutType" body = JStr workoutType
    /\ (Spec.isRun workoutType = true -> truthy (get "runningPace" body) = true ->
        exists pace, get "runningPace" body = JStr pace)
    /\ (truthy (get "weight" body) = true ->
        exists weightNum, Route.parseFloatOf (get "weight" body) = Return weightNum).

(** An entry whose text [JSON.stringify] writes in the order of this
    development: no key starts with a digit and no value holds an object. *)
Definition plainEntry (workout : object) : bool :=
  forallb (fun kv => noDigitAhead (fst kv) && Page.renderable (snd kv)) workout.

End Shape.
(** ** Scenarios *)

Module Scenario.
Import JsString JsNumber Json.

Definition form (workoutType duration reps : string) (history : list object) : Page.State :=
  {| Page.workoutType := workoutType; Page.duration := duration; Page.reps := reps;
     Page.runningPace := ""; Page.weight := ""; Page.weightUnit := "lbs";
     Page.isSubmitting := false; Page.result := None; Page.error := None;
     Page.workoutHistory := history |}.

(** The end-to-end scenario of the specification. *)
Definition pushUps20 : Page.State := form "Push-Ups" "" "20" [].

Definition blankType : Page.State := form "  " "30" "" [].

Definition run30 : Page.State := form "Running" "30" "" [].

Definition entry (id type : string) (minutes calories : Z) : object :=
  [("id", JStr id); ("calories", JNum (ofZ calories)); ("workoutType", JStr type);
   ("duration", JNum (ofZ minutes)); ("timestamp", JStr "2024-05-01T07:30:00.000Z")].

Definition client (history : list object) : Page.Client :=
  {| Page.state := form "" "" "" history;
     Page.localStorage := {[ Page.historyKey := Page.serialize history ]} |}.

(** One entry; two entries with ids of their own; two with the same id. *)
Definition single : Page.Client := client [entry "1714548600000" "Yoga" 45 180].
Definition pair : Page.Client :=
  client [entry "1714635000000" "Rowing" 20 210; entry "1714548600000" "Yoga" 45 180].
Definition twins : Page.Client :=
  client [entry "1714548600000" "Rowing" 20 210; entry "1714548600000" "Yoga" 45 180].

Definition withKey (key : string) : Route.Env := {| Route.OPENAI_API_KEY := Some key |}.
Definition noKey : Route.Env := {| Route.OPENAI_API_KEY := None |}.

(** Request bodies as [request.json()] gives them. *)
Definition repsOnly : value :=
  JObj [("workoutType", JStr "Push-Ups"); ("reps", JNum (ofZ 20))].
Definition yoga45 : value :=
  JObj [("workoutType", JStr "Yoga"); ("duration", JNum (ofZ 45))].
Definition run30lbs : value :=
  JObj [("workoutType", JStr "Running"); ("duration", JNum (ofZ 30));
        ("weight", JStr "150"); ("weightUnit", JStr "lbs")].

Definition clock : Page.Clock :=
  {| Page.now := "1714548600000"; Page.iso := "2024-05-01T07:30:00.000Z" |}.

(** Replies of the completion service. *)
Definition prose : string := "30 minutes of running burns about 480 calories.".
Definition prose480 : string := "Roughly 480 calories for a run of 30 minutes.".
Definition zeroCalories : string :=
  "{" ++ dq ++ "calories" ++ dq ++ ": 0, " ++ dq ++ "explanation" ++ dq ++ ": "
      ++ dq ++ "rest day" ++ dq ++ "}".
Definition smallCalories : string := "{" ++ dq ++ "calories" ++ dq ++ ": 0.4}".
Definition calories250 : string := "{" ++ dq ++ "calories" ++ dq ++ ": 250.6}".

(** The completion service that answers every prompt with [reply]. *)
Definition answering (reply : string) : string -> Route.Completion :=
  fun _ => Return (Some reply).

(** The state after the run of thirty minutes has been logged with the
    reply [calories250]. *)
Definition logged : Page.State :=
  {| Page.workoutType := ""; Page.duration := ""; Page.reps := "";
     Page.runningPace := ""; Page.weight := ""; Page.weightUnit := "lbs";
     Page.isSubmitting := false;
     Page.result :=
       Some (JObj [("calories", JNum (ofZ 251));
                   ("explanation",
                    JStr "Calories calculated based on workout type and duration.");
                   ("workoutType", JStr "Running");
                   ("duration", JNum (ofZ 30))]);
     Page.error := None;
     Page.workoutHistory :=
       [[("id", JStr "1714548600000");
         ("calories", JNum (ofZ 251));
         ("explanation", JStr "Calories calculated based on workout type and duration.");
         ("workoutType", JStr "Running");
         ("duration", JNum (ofZ 30));
         ("timestamp", JStr "2024-05-01T07:30:00.000Z")]] |}.

(** The prompt for [run30lbs]. *)
Definition prompt150 : string :=
  match Route.buildPrompt (JStr "Running") (ofZ 30) JUndefined (JStr "150") (JStr "lbs") with
  | Return prompt => prompt
  | Throw _ => ""
  end.

(** A run with a weight of 6250 pounds, and its prompt. *)
Definition run30heavy : value :=
  JObj [("workoutType", JStr "Running"); ("duration", JNum (ofZ 30));
        ("weight", JStr "6250"); ("weightUnit", JStr "lbs")].

Definition prompt6250 : string :=
  match Route.buildPrompt (JStr "Running") (ofZ 30) JUndefined (JStr "6250") (JStr "lbs") with
  | Return prompt => prompt
  | Throw _ => ""
  end.

(** A run with the weight in a unit the form does not offer, and its
    prompt. *)
Definition run30stone : value :=
  JObj [("workoutType", JStr "Running"); ("duration", JNum (ofZ 30));
        ("weight", JStr "11"); ("weightUnit", JStr "stone")].

Definition prompt11 : string :=
  match Route.buildPrompt (JStr "Running") (ofZ 30) JUndefined (JStr "11") (JStr "stone") with
  | Return prompt => prompt
  | Throw _ => ""
  end.

(** A reply whose figure is beyond the numbers: it parses to [Infinity]. *)
Definition hugeCalories : string := "{" ++ dq ++ "calories" ++ dq ++ ": 1e999}".

(** A reply without a figure. *)
Definition refusal : string := "I cannot estimate that.".

End Scenario.

(** ** Facts about strings *)

Section StringFacts.
Import JsString.

Lemma isWhiteSpace_toLowerChar c : isWhiteSpace (toLowerChar c) = isWhiteSpace c.
Proof. destruct c as [[] [] [] [] [] [] [] []]; reflexivity. Qed.

Lemma toLowerCase_trimStart s : toLowerCase (trimStart s) = trimStart (toLowerCase s).
Proof.
  induction s as [|c r IH]; simpl; [reflexivity|].
  rewrite isWhiteSpace_toLowerChar.
  destruct (isWhiteSpace c); [exact IH | reflexivity].
Qed.

Lemma toLowerCase_trimEnd s : toLowerCase (trimEnd s) = trimEnd (toLowerCase s).
Proof.
  induction s as [|c r IH]; simpl; [reflexivity|].
  rewrite <- IH, isWhiteSpace_toLowerChar.
  destruct (trimEnd r); simpl; [destruct (isWhiteSpace c)|]; reflexivity.
Qed.

Lemma toLowerCase_trim s : toLowerCase (trim s) = trim (toLowerCase s).
Proof. unfold trim. now rewrite toLowerCase_trimEnd, toLowerCase_trimStart. Qed.

Lemma removeAll_trimStart s : removeAll isWhiteSpace (trimStart s) = removeAll isWhiteSpace s.
Proof.
  induction s as [|c r IH]; simpl; [reflexivity|].
  destruct (isWhiteSpace c) eqn:E; [exact IH | simpl; now rewrite E].
Qed.

Lemma removeAll_trimEnd s : removeAll isWhiteSpace (trimEnd s) = removeAll isWhiteSpace s.
Proof.
  induction s as [|c r IH]; simpl; [reflexivity|].
  rewrite <- IH.
  destruct (trimEnd r); simpl; destruct (isWhiteSpace c) eqn:E; simpl; now rewrite ?E.
Qed.

Lemma removeAll_trim s : removeAll isWhiteSpace (trim s) = removeAll isWhiteSpace s.
Proof. unfold trim. now rewrite removeAll_trimEnd, removeAll_trimStart. Qed.

Lemma removeAll_removeAll p q s :
  removeAll p (removeAll q s) = removeAll (fun c => q c || p c) s.
Proof.
  induction s as [|c r IH]; simpl; [reflexivity|].
  destruct (q c); simpl; [exact IH|].
  destruct (p c); now rewrite IH.
Qed.

Lemma truthy_false s : truthy s = false <-> s = "".
Proof. destruct s; simpl; split; congruence. Qed.

(** A string is white space only exactly when trimming empties it. *)
Lemma trimStart_empty s : trimStart s = "" <-> removeAll isWhiteSpace s = "".
Proof.
  induction s as [|c r IH]; simpl; [tauto|].
  destruct (isWhiteSpace c); [exact IH | split; discriminate].
Qed.

Lemma trimEnd_empty s : trimEnd s = "" <-> removeAll isWhiteSpace s = "".
Proof.
  induction s as [|c r IH]; simpl; [tauto|].
  destruct (trimEnd r) eqn:E.
  - destruct (isWhiteSpace c); [| split; discriminate].
    split; intros _; [now apply IH | reflexivity].
  - destruct (isWhiteSpace c); split; try discriminate.
    intros H. apply IH in H. discriminate.
Qed.

Lemma trim_empty s : trim s = "" <-> removeAll isWhiteSpace s = "".
Proof. unfold trim. now rewrite trimEnd_empty, removeAll_trimStart. Qed.

End StringFacts.

(** ** The push-up predicate *)

Section PushUp.
Import JsString Page Spec.

(** The normal form computed by the code is the one the specification
    describes: trimming first changes nothing once white space is stripped. *)
Lemma normalized_trim workout : normalize (trim workout) = stripped workout.
Proof.
  unfold normalize, stripped.
  now rewrite toLowerCase_trim, removeAll_trim, removeAll_removeAll.
Qed.

Lemma startsWith_eqb s p : (s =? p) = true -> startsWith s p = true.
Proof.
  intros H. apply String.eqb_eq in H. subst s. unfold startsWith.
  induction p as [|c r IH]; simpl; [reflexivity|].
  destruct (ascii_dec c c); [exact IH | congruence].
Qed.

Lemma isPushUp_prefix workout :
  isPushUp workout = startsWith (stripped workout) "pushup".
Proof.
  unfold isPushUp.
  destruct (JsString.truthy workout) eqn:Hw; simpl.
  - destruct (JsString.truthy (trim workout)) eqn:Ht; simpl.
    + rewrite normalized_trim.
      destruct (stripped workout =? "pushup") eqn:E1.
      { now rewrite (startsWith_eqb _ _ E1). }
      destruct (stripped workout =? "pushups") eqn:E2; [|reflexivity].
      apply String.eqb_eq in E2. now rewrite E2.
    + apply truthy_false in Ht. rewrite <- normalized_trim, Ht. reflexivity.
  - apply truthy_false in Hw. now subst workout.
Qed.

Lemma stripped_trim workout : stripped (trim workout) = stripped workout.
Proof.
  unfold stripped.
  rewrite <- !removeAll_removeAll.
  now rewrite toLowerCase_trim, removeAll_trim.
Qed.

Lemma isPushUp_trim workout : isPushUp (trim workout) = isPushUp workout.
Proof. now rewrite !isPushUp_prefix, stripped_trim. Qed.

End PushUp.

(** C4, as stated, fails: the predicate also holds for a string whose normal
    form only starts with [pushup].  For [pushup bar] the normal form is
    [pushupbar], neither [pushup] nor [pushups], and yet the predicate is
    true. *)
Lemma isPushUp_longer_label :
  Page.isPushUp "pushup bar" = true
  /\ Spec.stripped "pushup bar" = "pushupbar"
  /\ Spec.stripped "pushup bar" <> "pushup"
  /\ Spec.stripped "pushup bar" <> "pushups".
Proof. repeat split; try reflexivity; discriminate. Qed.

(** C4, amended: the push-up predicate is true exactly for the strings whose
    normal form (lower-cased, white space and hyphens stripped) starts with
    [pushup], and false for every other string.  So it is true for every
    string whose normal form is [pushup] or [pushups], and false for the
    empty string and for strings of white space. *)
Theorem isPushUp_iff_prefix (workout : string) :
  Page.isPushUp workout = JsString.startsWith (Spec.stripped workout) "pushup"
  /\ (Spec.stripped workout = "pushup" \/ Spec.stripped workout = "pushups" ->
      Page.isPushUp workout = true)
  /\ (JsString.trim workout = "" -> Page.isPushUp workout = false).
Proof.
  pose proof (isPushUp_prefix workout) as P.
  split; [exact P|]. split.
  - intros [E | E]; rewrite P, E; reflexivity.
  - intros E. apply trim_empty in E.
    assert (S : Spec.stripped workout = "").
    { unfold Spec.stripped. rewrite <- removeAll_removeAll.
      rewrite <- (removeAll_trim (JsString.toLowerCase workout)).
      rewrite <- toLowerCase_trim.
      apply trim_empty in E. now rewrite E. }
    now rewrite P, S.
Qed.

Lemma isPushUp_iff_prefix_witness :
  Page.isPushUp "Push-Ups" = true /\ Page.isPushUp "   " = false.
Proof.
  split.
  - exact (proj1 (proj2 (isPushUp_iff_prefix "Push-Ups")) (or_intror eq_refl)).
  - exact (proj2 (proj2 (isPushUp_iff_prefix "   ")) eq_refl).
Defined.

(** ** Client-side validation and the request *)

Section Numbers.
Import JsString JsNumber JsParse.

(** On a number, [x <= 0] fails exactly when [0 < x] holds. *)
Lemma leb_zero_ltb x : isNaN x = false -> leb x zero = negb (ltb zero x).
Proof.
  destruct x as [s | s | | s m e]; simpl; try discriminate; intros _;
    try destruct s; reflexivity.
Qed.

Lemma positive_checks x :
  isNaN x || leb x zero = negb (Spec.positive x).
Proof.
  unfold Spec.positive.
  destruct (isNaN x) eqn:E; simpl; [reflexivity|].
  rewrite (leb_zero_ltb x E). reflexivity.
Qed.

Lemma trimStart_blank s : trim s = "" -> trimStart s = "".
Proof. intros H. apply trimStart_empty. now apply trim_empty. Qed.

(** A field of white space parses to [NaN]. *)
Lemma parseFloat_blank s : trim s = "" -> parseFloat s = NaN.
Proof.
  intros H. unfold parseFloat. rewrite (trimStart_blank s H). reflexivity.
Qed.

End Numbers.

Section Submit.
Import JsString JsNumber JsParse Json Page.

Lemma handleSubmit_maySend st :
  if Spec.maySend st
  then handleSubmit st = Sent "/api/calculate-calories" (requestBody st) (afterFetch st)
  else exists alert, handleSubmit st = Blocked alert.
Proof.
  unfold Spec.maySend, handleSubmit.
  destruct (JsString.truthy (trim (workoutType st))) eqn:Hw; simpl; [|eauto].
  destruct (isPushUp (workoutType st)).
  - unfold Spec.positiveInteger.
    destruct (JsString.truthy (trim (reps st))) eqn:Hr; simpl.
    + rewrite positive_checks.
      destruct (Spec.positive (parseFloat (reps st))); simpl; [|eauto].
      destruct (isInteger (parseFloat (reps st))); simpl; eauto.
    + apply truthy_false in Hr. rewrite (parseFloat_blank _ Hr). simpl. eauto.
  - destruct (JsString.truthy (trim (duration st))) eqn:Hd; simpl.
    + rewrite positive_checks.
      destruct (Spec.positive (parseFloat (duration st))); simpl; eauto.
    + apply truthy_false in Hd. rewrite (parseFloat_blank _ Hd). simpl. eauto.
Qed.

(** In push-up mode the body carries [reps] and no [duration]; otherwise
    it carries [duration] and no [reps]. *)
Lemma requestBody_quantity st :
  if isPushUp (workoutType st)
  then lookup "reps" (requestBody st) = Some (JNum (parseInt (reps st)))
       /\ lookup "duration" (requestBody st) = None
  else lookup "duration" (requestBody st) = Some (JNum (parseFloat (duration st)))
       /\ lookup "reps" (requestBody st) = None.
Proof.
  unfold requestBody.
  destruct (isPushUp (workoutType st));
    destruct (_ && JsString.truthy (trim (runningPace st)));
    destruct (JsString.truthy (trim (weight st))); split; reflexivity.
Qed.

End Submit.

(** C7: a submission issues its request exactly when the workout type is not
    empty once trimmed and, in push-up mode, the reps field parses to a
    positive integer, otherwise the duration field parses to a positive
    number ([Spec.maySend]); every other submission ends in a blocking
    notification and sends nothing.  With an empty workout type no request is
    sent. *)
Theorem handleSubmit_sends_iff (st : Page.State) :
  (if Spec.maySend st
   then Page.handleSubmit st
        = Page.Sent "/api/calculate-calories" (Page.requestBody st) (Page.afterFetch st)
   else exists alert, Page.handleSubmit st = Page.Blocked alert)
  /\ (JsString.trim (Page.workoutType st) = ""
      -> Page.handleSubmit st = Page.Blocked "Please fill in the workout type").
Proof.
  split; [apply handleSubmit_maySend|].
  intros H. unfold Page.handleSubmit. now rewrite H.
Qed.

Lemma handleSubmit_sends_iff_witness :
  Page.handleSubmit Scenario.blankType = Page.Blocked "Please fill in the workout type".
Proof. exact (proj2 (handleSubmit_sends_iff Scenario.blankType) eq_refl). Defined.

(** C2: with workout type [Push-Ups], reps [20] and no weight entered,
    push-up mode is on and the request body is exactly
    [{workoutType: "Push-Ups", reps: 20}], without a [duration] key; and
    whenever the push-up predicate holds the body carries [reps] and no
    [duration]. *)
Theorem push_ups_request (st : Page.State) :
  (Page.workoutType st = "Push-Ups" -> Page.reps st = "20"
   -> JsString.trim (Page.weight st) = ""
   -> Page.isPushUp (Page.workoutType st) = true
      /\ Page.handleSubmit st
         = Page.Sent "/api/calculate-calories"
             [("workoutType", Json.JStr "Push-Ups"); ("reps", Json.JNum (JsNumber.ofZ 20))]
             (Page.afterFetch st)
      /\ Json.lookup "duration" (Page.requestBody st) = None)
  /\ (Page.isPushUp (Page.workoutType st) = true
      -> Json.lookup "reps" (Page.requestBody st)
         = Some (Json.JNum (JsParse.parseInt (Page.reps st)))
         /\ Json.lookup "duration" (Page.requestBody st) = None).
Proof.
  split.
  - intros Hw Hr Hwt.
    assert (Hb : Page.requestBody st
                 = [("workoutType", Json.JStr "Push-Ups");
                    ("reps", Json.JNum (JsNumber.ofZ 20))]).
    { unfold Page.requestBody. rewrite Hw, Hr, Hwt. reflexivity. }
    split; [now rewrite Hw|].
    split; [|now rewrite Hb].
    rewrite <- Hb.
    pose proof (handleSubmit_maySend st) as M.
    assert (S : Spec.maySend st = true).
    { unfold Spec.maySend. rewrite Hw, Hr. vm_compute. reflexivity. }
    now rewrite S in M.
  - intros H. pose proof (requestBody_quantity st) as Q. now rewrite H in Q.
Qed.

Lemma push_ups_request_witness :
  Page.isPushUp "Push-Ups" = true
  /\ Page.handleSubmit Scenario.pushUps20
     = Page.Sent "/api/calculate-calories"
         [("workoutType", Json.JStr "Push-Ups"); ("reps", Json.JNum (JsNumber.ofZ 20))]
         (Page.afterFetch Scenario.pushUps20)
  /\ Json.lookup "duration" (Page.requestBody Scenario.pushUps20) = None.
Proof. exact (proj1 (push_ups_request Scenario.pushUps20) eq_refl eq_refl eq_refl). Defined.

(** The body of that request as it goes over the wire. *)
Example push_ups_request_text :
  Json.stringify (Json.JObj (Page.requestBody Scenario.pushUps20))
  = "{" ++ JsString.dq ++ "workoutType" ++ JsString.dq ++ ":"
        ++ JsString.dq ++ "Push-Ups" ++ JsString.dq ++ ","
        ++ JsString.dq ++ "reps" ++ JsString.dq ++ ":20}".
Proof. vm_compute. reflexivity. Qed.

(** ** Deleting from the history *)

Section History.
Import JsString Json Page.

Lemma deleteClicked_history id c :
  workoutHistory (state (deleteClicked true id c))
  = Spec.remaining id (workoutHistory (state c)).
Proof.
  unfold deleteClicked, saveHistory, deleteWorkout, Spec.remaining.
  set (rest := List.filter _ _). clearbody rest.
  destruct rest; reflexivity.
Qed.

Lemma deleteClicked_storage id c :
  localStorage (deleteClicked true id c) !! historyKey
  = match Spec.remaining id (workoutHistory (state c)) with
    | [] => None
    | rest => Some (serialize rest)
    end.
Proof.
  unfold deleteClicked, saveHistory, deleteWorkout, Spec.remaining.
  set (rest := List.filter _ _). clearbody rest.
  destruct rest as [|e rest]; cbn [length Nat.ltb Nat.leb state localStorage
                                    setWorkoutHistory workoutHistory].
  - apply lookup_delete_eq.
  - rewrite insert_insert_eq. apply lookup_insert_eq.
Qed.

(** With identifiers all different, a list of two or more keeps an entry. *)
Lemma remaining_of_distinct id history :
  NoDup (map Spec.idOf history) -> (1 < length history)%nat ->
  Spec.remaining id history <> [].
Proof.
  destruct history as [|a [|b rest]]; cbn [length map]; try lia.
  intros ND _. unfold Spec.remaining. cbn [List.filter].
  destruct (differsFrom id (get "id" (JObj a))) eqn:Ea; [discriminate|].
  destruct (differsFrom id (get "id" (JObj b))) eqn:Eb; [discriminate|].
  exfalso. apply NoDup_cons in ND as [Hnotin _]. apply Hnotin.
  apply elem_of_cons. left. unfold Spec.idOf.
  unfold differsFrom in Ea, Eb.
  destruct (get "id" (JObj a)) as [| | | |sa| |]; try discriminate.
  destruct (get "id" (JObj b)) as [| | | |sb| |]; try discriminate.
  apply negb_false_iff, String.eqb_eq in Ea, Eb. congruence.
Qed.

(** Clearing the history removes the record as well, and asks first. *)
Lemma clearHistory_removes c :
  workoutHistory (state (clearHistory true c)) = []
  /\ localStorage (clearHistory true c) !! historyKey = None
  /\ clearHistory false c = c.
Proof.
  unfold clearHistory. cbn [state localStorage setWorkoutHistory workoutHistory].
  split; [reflexivity|]. split; [apply lookup_delete_eq | reflexivity].
Qed.

End History.

(** C9, as stated, fails in its second half: entries are deleted by
    identifier, so a list of two entries that share one identifier loses both
    and its record is removed, not rewritten. *)
Lemma delete_twins_removes_record :
  length (Page.workoutHistory (Page.state Scenario.twins)) = 2%nat
  /\ Page.localStorage Scenario.twins !! Page.historyKey
     = Some (Page.serialize (Page.workoutHistory (Page.state Scenario.twins)))
  /\ Page.workoutHistory (Page.state (Page.deleteClicked true "1714548600000" Scenario.twins)) = []
  /\ Page.localStorage (Page.deleteClicked true "1714548600000" Scenario.twins)
     !! Page.historyKey = None.
Proof.
  split; [reflexivity|].
  split; [apply lookup_singleton_eq|].
  split; [reflexivity|].
  rewrite deleteClicked_storage. reflexivity.
Qed.

(** C9, amended: after a confirmed deletion the history is the list of the
    entries whose identifier differs from the deleted one.  When none stays,
    as when the only entry of the list is deleted, the persisted record is
    removed and no empty-array record is left; when some entry stays the
    record is rewritten with the entries that stay, which is the case for
    every list of more than one entry whose identifiers are all different.
    Without confirmation nothing changes. *)
Theorem delete_persists (id : string) (c : Page.Client) :
  let rest := Spec.remaining id (Page.workoutHistory (Page.state c)) in
  let c' := Page.deleteClicked true id c in
  Page.workoutHistory (Page.state c') = rest
  /\ (forall e, Page.workoutHistory (Page.state c) = [e] -> Spec.idOf e = Json.JStr id ->
      Page.workoutHistory (Page.state c') = []
      /\ Page.localStorage c' !! Page.historyKey = None)
  /\ (rest = [] -> Page.localStorage c' !! Page.historyKey = None)
  /\ (rest <> [] -> Page.localStorage c' !! Page.historyKey = Some (Page.serialize rest))
  /\ (NoDup (map Spec.idOf (Page.workoutHistory (Page.state c))) ->
      (1 < length (Page.workoutHistory (Page.state c)))%nat ->
      Page.localStorage c' !! Page.historyKey = Some (Page.serialize rest))
  /\ Page.deleteClicked false id c = c.
Proof.
  intros rest c'. subst rest c'.
  pose proof (deleteClicked_history id c) as Hh.
  pose proof (deleteClicked_storage id c) as Hs.
  split; [exact Hh|].
  split.
  { intros e He Hid. rewrite Hh, Hs, He.
    unfold Spec.remaining, Spec.idOf in *. cbn [List.filter]. rewrite Hid.
    unfold Page.differsFrom. rewrite String.eqb_refl. split; reflexivity. }
  split; [intros E; now rewrite Hs, E|].
  split.
  { intros NE. rewrite Hs.
    destruct (Spec.remaining id (Page.workoutHistory (Page.state c))); congruence. }
  split; [|reflexivity].
  intros ND Hlen. rewrite Hs.
  pose proof (remaining_of_distinct id _ ND Hlen) as NE.
  destruct (Spec.remaining id (Page.workoutHistory (Page.state c))); congruence.
Qed.

Lemma delete_persists_witness :
  Page.workoutHistory (Page.state (Page.deleteClicked true "1714548600000" Scenario.single)) = []
  /\ Page.localStorage (Page.deleteClicked true "1714548600000" Scenario.single)
     !! Page.historyKey = None.
Proof.
  exact (proj1 (proj2 (delete_persists "1714548600000" Scenario.single))
               _ eq_refl eq_refl).
Defined.

(** Deleting the newer of two entries rewrites the record with the older. *)
Example delete_one_of_pair :
  Page.localStorage (Page.deleteClicked true "1714635000000" Scenario.pair)
  !! Page.historyKey
  = Some (Page.serialize [Scenario.entry "1714548600000" "Yoga" 45 180]).
Proof. rewrite deleteClicked_storage. reflexivity. Qed.

(** ** The gateway: validation and credential *)

Section Validation.
Import JsString JsNumber JsParse Json Route.

Lemma status_catch e : status (catch e) = 500%Z.
Proof. destruct e; reflexivity. Qed.

(** A body without a usable [duration] is turned away, whatever else it
    carries. *)
Lemma POST_requires_duration env body :
  isNullish body = false -> truthy (get "duration" body) = false ->
  POST env (Return body)
  = Respond (json 400 [("error", JStr "Workout type and duration are required")]).
Proof.
  intros Hn Hd. unfold POST. rewrite Hn, Hd.
  now rewrite orb_true_r.
Qed.

Lemma POST_requires_workoutType env body :
  isNullish body = false -> truthy (get "workoutType" body) = false ->
  POST env (Return body)
  = Respond (json 400 [("error", JStr "Workout type and duration are required")]).
Proof. intros Hn Hw. unfold POST. now rewrite Hn, Hw. Qed.

Lemma POST_requires_positive env body durationNum :
  isNullish body = false ->
  truthy (get "workoutType" body) = true -> truthy (get "duration" body) = true ->
  parseFloatOf (get "duration" body) = Return durationNum ->
  Spec.positive durationNum = false ->
  POST env (Return body)
  = Respond (json 400 [("error", JStr "Duration must be a positive number")]).
Proof.
  intros Hn Hw Hd Hp Hpos. unfold POST.
  now rewrite Hn, Hw, Hd, Hp, positive_checks, Hpos.
Qed.

(** Past validation the handler looks at the credential and then builds the
    prompt. *)
Lemma POST_validated env body durationNum :
  Spec.validated body durationNum ->
  POST env (Return body)
  = match OPENAI_API_KEY env with
    | None | Some EmptyString =>
        Respond (json 500 [("error", JStr "OpenAI API key is not configured. Please set OPENAI_API_KEY in your environment variables.")])
    | Some key =>
        if negb (startsWith key "sk-") then
          Respond (json 400 [("error", JStr ("Invalid API key format. OpenAI API keys should start with " ++ dq ++ "sk-" ++ dq ++ "."))])
        else
          match buildPrompt (get "workoutType" body) durationNum (get "runningPace" body)
                            (get "weight" body) (get "weightUnit" body) with
          | Throw e => Respond (catch e)
          | Return prompt => Complete prompt (finish (get "workoutType" body) durationNum)
          end
    end.
Proof.
  intros (Hn & Hw & Hd & Hp & Hpos). unfold POST.
  rewrite Hn, Hw, Hd, Hp, positive_checks, Hpos. reflexivity.
Qed.

(** A request-validation error carries one of the two validation
    messages. *)
Lemma validation_errors_exact (env : Route.Env) (body : Json.value) :
  Json.isNullish body = false ->
  Json.truthy (Json.get "workoutType" body) = false
  \/ Json.truthy (Json.get "duration" body) = false
  \/ (exists d, Route.parseFloatOf (Json.get "duration" body) = Json.Return d
                /\ Spec.positive d = false) ->
  Route.POST env (Json.Return body)
  = Route.Respond
      (Route.json Spec.validationStatus
         [("error", Json.JStr "Workout type and duration are required")])
  \/ Route.POST env (Json.Return body)
     = Route.Respond
         (Route.json Spec.validationStatus
            [("error", Json.JStr "Duration must be a positive number")]).
Proof.
  intros Hn [Hw | [Hd | (d & Hp & Hpos)]].
  - left. now apply POST_requires_workoutType.
  - left. now apply POST_requires_duration.
  - destruct (Json.truthy (Json.get "workoutType" body)) eqn:Hw.
    + destruct (Json.truthy (Json.get "duration" body)) eqn:Hd.
      * right. now apply (POST_requires_positive env body d).
      * left. now apply POST_requires_duration.
    + left. now apply POST_requires_workoutType.
Qed.

End Validation.

(** C1: the gateway reads [duration] only.  The request the client sends for
    push-ups, [{workoutType: "Push-Ups", reps: 20}], is answered with status
    400 and the message that workout type and duration are required; end to
    end, the push-up submission of the specification leaves the error in the
    state and adds nothing to the history. *)
Theorem reps_only_request_rejected (env : Route.Env)
        (service : string -> Route.Completion) :
  Json.wire (Json.JObj (Page.requestBody Scenario.pushUps20)) = Scenario.repsOnly
  /\ Route.POST env (Json.Return Scenario.repsOnly)
     = Route.Respond
         (Route.json 400 [("error", Json.JStr "Workout type and duration are required")])
  /\ (exists st,
        System.submit env service Scenario.clock Scenario.pushUps20 = Some st
        /\ Page.error st = Some "Workout type and duration are required"
        /\ Page.workoutHistory st = []).
Proof.
  split; [reflexivity|].
  split.
  - apply POST_requires_duration; reflexivity.
  - pose proof (handleSubmit_maySend Scenario.pushUps20) as S.
    replace (Spec.maySend Scenario.pushUps20) with true in S
      by (vm_compute; reflexivity).
    unfold System.submit, System.serve. rewrite S.
    replace (Json.wire (Json.JObj (Page.requestBody Scenario.pushUps20)))
      with Scenario.repsOnly by reflexivity.
    rewrite POST_requires_duration by reflexivity.
    eexists. split; [reflexivity|]. split; reflexivity.
Qed.

(** C5, as stated, fails: a credential that is present but does not start
    with [sk-] is answered with status 400, the status of request-validation
    errors. *)
Lemma malformed_key_status_400 :
  Route.POST (Scenario.withKey "abc") (Json.Return Scenario.yoga45)
  = Route.Respond
      (Route.json Spec.validationStatus
         [("error", Json.JStr ("Invalid API key format. OpenAI API keys should start with "
                               ++ JsString.dq ++ "sk-" ++ JsString.dq ++ "."))])
  /\ Route.POST (Scenario.withKey "abc") (Json.Return Scenario.repsOnly)
     = Route.Respond
         (Route.json Spec.validationStatus
            [("error", Json.JStr "Workout type and duration are required")]).
Proof. split; vm_compute; reflexivity. Qed.

(** C5, amended: every request-validation error has status 400, under one
    of the two validation messages.  For a request that passes validation, an
    absent or empty credential is answered with status 500, which differs
    from 400; a credential that is present but does not start with [sk-] is
    answered with status 400, the same status as a request-validation error,
    under a message of its own, [Invalid API key format. OpenAI API keys
    should start with "sk-".], which is neither of the validation messages. *)
Theorem credential_checks (env : Route.Env) (body : Json.value) :
  (Json.isNullish body = false ->
   Json.truthy (Json.get "workoutType" body) = false
   \/ Json.truthy (Json.get "duration" body) = false
   \/ (exists d, Route.parseFloatOf (Json.get "duration" body) = Json.Return d
                 /\ Spec.positive d = false) ->
   Route.POST env (Json.Return body)
   = Route.Respond
       (Route.json Spec.validationStatus
          [("error", Json.JStr "Workout type and duration are required")])
   \/ Route.POST env (Json.Return body)
      = Route.Respond
          (Route.json Spec.validationStatus
             [("error", Json.JStr "Duration must be a positive number")]))
  /\ (forall durationNum,
        Spec.validated body durationNum ->
        Route.OPENAI_API_KEY env = None \/ Route.OPENAI_API_KEY env = Some "" ->
        Route.POST env (Json.Return body)
        = Route.Respond
            (Route.json 500
               [("error", Json.JStr "OpenAI API key is not configured. Please set OPENAI_API_KEY in your environment variables.")])
        /\ 500%Z <> Spec.validationStatus)
  /\ (forall durationNum key,
        Spec.validated body durationNum ->
        Route.OPENAI_API_KEY env = Some key -> key <> "" ->
        JsString.startsWith key "sk-" = false ->
        let message :=
          "Invalid API key format. OpenAI API keys should start with "
            ++ JsString.dq ++ "sk-" ++ JsString.dq ++ "." in
        Route.POST env (Json.Return body)
        = Route.Respond (Route.json Spec.validationStatus [("error", Json.JStr message)])
        /\ message <> "Workout type and duration are required"
        /\ message <> "Duration must be a positive number").
Proof.
  split; [apply validation_errors_exact|].
  split.
  - intros d V K. rewrite (POST_validated env body d V).
    destruct K as [-> | ->]; (split; [reflexivity | discriminate]).
  - intros d key V K NE Hk message. subst message.
    rewrite (POST_validated env body d V), K, Hk.
    destruct key; [congruence|].
    split; [reflexivity|].
    split; apply String.eqb_neq; vm_compute; reflexivity.
Qed.

Lemma yoga45_validated :
  Spec.validated Scenario.yoga45 (JsNumber.ofZ 45).
Proof. repeat split; vm_compute; reflexivity. Defined.

Lemma credential_checks_witness :
  (Route.POST Scenario.noKey (Json.Return Scenario.yoga45)
   = Route.Respond
       (Route.json 500
          [("error", Json.JStr "OpenAI API key is not configured. Please set OPENAI_API_KEY in your environment variables.")])
   /\ 500%Z <> Spec.validationStatus)
  /\ (let message :=
         "Invalid API key format. OpenAI API keys should start with "
           ++ JsString.dq ++ "sk-" ++ JsString.dq ++ "." in
      Route.POST (Scenario.withKey "abc") (Json.Return Scenario.yoga45)
      = Route.Respond (Route.json Spec.validationStatus [("error", Json.JStr message)])
      /\ message <> "Workout type and duration are required"
      /\ message <> "Duration must be a positive number").
Proof.
  split.
  - exact (proj1 (proj2 (credential_checks Scenario.noKey Scenario.yoga45))
                 _ yoga45_validated (or_introl eq_refl)).
  - refine (proj2 (proj2 (credential_checks (Scenario.withKey "abc") Scenario.yoga45))
                  _ "abc" yoga45_validated eq_refl _ eq_refl).
    discriminate.
Defined.

(** ** The gateway: the reply of the completion service *)

Section Reply.
Import JsString JsNumber JsParse Json Route.

Lemma matchDigits_nonempty text m : matchDigits text = Some m -> JsString.truthy text = true.
Proof. destruct text; [discriminate | reflexivity]. Qed.

Lemma parse_nonempty text v : parse text = Parsed v -> JsString.truthy text = true.
Proof. destruct text; [discriminate | reflexivity]. Qed.

(** [finish] on a reply that is not empty. *)
Lemma finish_content workoutType durationNum text :
  JsString.truthy text = true ->
  finish workoutType durationNum (Return (Some text))
  = match parseReply text with
    | Some (Return reply) =>
        Some match respond workoutType durationNum reply with
             | Return r => r
             | Throw e => catch e
             end
    | Some (Throw e) => Some (catch e)
    | None => None
    end.
Proof. destruct text; [discriminate | reflexivity]. Qed.

Lemma parseInt_480 : parseInt "480" = ofZ 480.
Proof. vm_compute. reflexivity. Qed.

(** The success response, when the calories value is a number that is
    neither zero nor [NaN]. *)
Lemma respond_number workoutType durationNum fields n :
  lookup "calories" fields = Some (JNum n) ->
  truthy (JNum n) = true ->
  respond workoutType durationNum (JObj fields)
  = Return
      (json 200
         [("calories", JNum (round n));
          ("explanation",
           orElse (get "explanation" (JObj fields))
                  (JStr "Calories calculated based on workout type and duration."));
          ("workoutType", workoutType);
          ("duration", JNum durationNum)]).
Proof.
  intros Hc Ht. unfold respond, getProp.
  cbn [isNullish get andThen]. rewrite Hc. cbn [andThen]. rewrite Ht.
  cbn [toNumber andThen].
  destruct n; try discriminate; reflexivity.
Qed.

(** A success response is the response of [respond]; every other response
    has status 500. *)
Lemma respond_success workoutType durationNum reply r :
  respond workoutType durationNum reply = Return r ->
  isNullish reply = false
  /\ truthy (get "calories" reply) = true
  /\ exists n explanation,
       truthy explanation = true
       /\ r = json 200 [("calories", JNum n); ("explanation", explanation);
                        ("workoutType", workoutType); ("duration", JNum durationNum)].
Proof.
  unfold respond, getProp.
  destruct (isNullish reply) eqn:Hn; cbn [andThen]; [discriminate|].
  destruct (truthy (get "calories" reply)) eqn:Ht; cbn [andThen]; [|discriminate].
  destruct (toNumber (get "calories" reply)) as [n|e]; cbn [andThen]; [|discriminate].
  destruct (isNaN n); [discriminate|].
  intros H. injection H as <-.
  split; [reflexivity|]. split; [reflexivity|].
  eexists _, _. split; [|reflexivity].
  unfold orElse. destruct (truthy (get "explanation" reply)) eqn:He; [exact He | reflexivity].
Qed.

End Reply.

(** C6, as stated, fails: the figure is the first run of digits, not any
    occurrence of [480].  The reply [30 minutes of running burns about 480
    calories.] is not JSON and contains [480], and the gateway answers with
    calories 30. *)
Lemma first_digits_win :
  Json.parse Scenario.prose = Json.SyntaxError
  /\ JsString.includes Scenario.prose "480" = true
  /\ Route.finish (Json.JStr "Running") (JsNumber.ofZ 30) (Json.Return (Some Scenario.prose))
     = Some (Route.json 200
               [("calories", Json.JNum (JsNumber.ofZ 30));
                ("explanation", Json.JStr Scenario.prose);
                ("workoutType", Json.JStr "Running");
                ("duration", Json.JNum (JsNumber.ofZ 30))]).
Proof. repeat split; vm_compute; reflexivity. Qed.

(** C6, amended: for every reply that fails strict JSON parsing and whose
    first run of decimal digits is [480], the gateway answers with status
    200, calories 480 and the raw reply as the explanation. *)
Theorem fallback_first_digits (workoutType : Json.value) (durationNum : JsNumber.number)
        (text : string) :
  Json.parse text = Json.SyntaxError ->
  JsParse.matchDigits text = Some "480" ->
  Route.finish workoutType durationNum (Json.Return (Some text))
  = Some (Route.json 200
            [("calories", Json.JNum (JsNumber.ofZ 480));
             ("explanation", Json.JStr text);
             ("workoutType", workoutType);
             ("duration", Json.JNum durationNum)]).
Proof.
  intros Hparse Hmatch.
  pose proof (matchDigits_nonempty text _ Hmatch) as Hne.
  rewrite (finish_content _ _ _ Hne).
  unfold Route.parseReply. rewrite Hparse, Hmatch, parseInt_480.
  rewrite (respond_number _ _ _ (JsNumber.ofZ 480)) by reflexivity.
  unfold Json.orElse. cbn [Json.get Json.lookup String.eqb Ascii.eqb Bool.eqb].
  cbn [Json.truthy]. rewrite Hne. reflexivity.
Qed.

Lemma fallback_first_digits_witness :
  Route.finish (Json.JStr "Running") (JsNumber.ofZ 30) (Json.Return (Some Scenario.prose480))
  = Some (Route.json 200
            [("calories", Json.JNum (JsNumber.ofZ 480));
             ("explanation", Json.JStr Scenario.prose480);
             ("workoutType", Json.JStr "Running");
             ("duration", Json.JNum (JsNumber.ofZ 30))]).
Proof.
  apply (fallback_first_digits (Json.JStr "Running") (JsNumber.ofZ 30) Scenario.prose480);
    vm_compute; reflexivity.
Defined.

(** C10, as stated, fails in its second half: a success response of the
    strict-JSON path can carry calories 0.  The reply [{"calories": 0.4}]
    parses, its calories value is truthy, and [Math.round] takes it to 0. *)
Lemma rounded_to_zero_succeeds :
  Json.parse Scenario.smallCalories
  = Json.Parsed (Json.JObj [("calories", Json.JNum (JsNumber.ofDecimal false 4 (-1)))])
  /\ Route.finish (Json.JStr "Yoga") (JsNumber.ofZ 45) (Json.Return (Some Scenario.smallCalories))
     = Some (Route.json 200
               [("calories", Json.JNum (S754_zero false));
                ("explanation",
                 Json.JStr "Calories calculated based on workout type and duration.");
                ("workoutType", Json.JStr "Yoga");
                ("duration", Json.JNum (JsNumber.ofZ 45))]).
Proof. split; vm_compute; reflexivity. Qed.

(** C10, amended: for every reply that parses as strict JSON into an object
    whose calories field is the number 0 (of either sign), the gateway
    answers with status 500 and the message of an invalid calorie
    calculation; and a success response of the strict-JSON path always comes
    from a reply whose calories value is truthy, so never from a calories
    field equal to 0.  (Its own calories figure is rounded and can be 0.) *)
Theorem zero_calories_rejected (workoutType : Json.value) (durationNum : JsNumber.number)
        (text : string) :
  (forall fields sign,
      Json.parse text = Json.Parsed (Json.JObj fields) ->
      Json.lookup "calories" fields = Some (Json.JNum (S754_zero sign)) ->
      Route.finish workoutType durationNum (Json.Return (Some text))
      = Some (Route.json 500
                [("error", Json.JStr "Invalid calorie calculation from OpenAI")]))
  /\ (forall reply r,
        Json.parse text = Json.Parsed reply ->
        Route.finish workoutType durationNum (Json.Return (Some text)) = Some r ->
        Route.status r = 200%Z ->
        Json.isNullish reply = false /\ Json.truthy (Json.get "calories" reply) = true).
Proof.
  split.
  - intros fields sign Hparse Hc.
    rewrite (finish_content _ _ _ (parse_nonempty _ _ Hparse)).
    unfold Route.parseReply. rewrite Hparse.
    unfold Route.respond, Json.getProp.
    cbn [Json.isNullish Json.get Json.andThen]. rewrite Hc. reflexivity.
  - intros reply r Hparse Hf Hs.
    rewrite (finish_content _ _ _ (parse_nonempty _ _ Hparse)) in Hf.
    unfold Route.parseReply in Hf. rewrite Hparse in Hf.
    destruct (Route.respond workoutType durationNum reply) as [r'|e] eqn:Hr.
    + apply respond_success in Hr as (Hn & Ht & _). split; assumption.
    + injection Hf as <-. rewrite status_catch in Hs. discriminate.
Qed.

Lemma zero_calories_rejected_witness :
  Route.finish (Json.JStr "Yoga") (JsNumber.ofZ 45) (Json.Return (Some Scenario.zeroCalories))
  = Some (Route.json 500 [("error", Json.JStr "Invalid calorie calculation from OpenAI")]).
Proof.
  refine (proj1 (zero_calories_rejected (Json.JStr "Yoga") (JsNumber.ofZ 45)
                                        Scenario.zeroCalories)
                [("calories", Json.JNum (S754_zero false));
                 ("explanation", Json.JStr "rest day")] false _ _);
    vm_compute; reflexivity.
Defined.

(** ** The gateway: the weight in the prompt *)

Section Prompt.
Import JsString JsNumber JsParse Json Route.

Lemma append_cons c a b : String c a ++ b = String c (a ++ b).
Proof. reflexivity. Qed.

Lemma append_assoc (a b c : string) : (a ++ b) ++ c = a ++ (b ++ c).
Proof.
  induction a as [|x a IH]; [reflexivity|].
  now rewrite !append_cons, IH.
Qed.

Lemma truthy_append_r a b : JsString.truthy b = true -> JsString.truthy (a ++ b) = true.
Proof. intros H. destruct a; [exact H | reflexivity]. Qed.

(** A prompt is sent only for a validated body, and it is the prompt
    [buildPrompt] makes of the fields of the body. *)
Lemma POST_Complete env body prompt k :
  POST env (Return body) = Complete prompt k ->
  exists durationNum,
    Spec.validated body durationNum
    /\ buildPrompt (get "workoutType" body) durationNum (get "runningPace" body)
                   (get "weight" body) (get "weightUnit" body) = Return prompt
    /\ k = finish (get "workoutType" body) durationNum.
Proof.
  unfold POST.
  destruct (isNullish body) eqn:Hn; [discriminate|].
  destruct (truthy (get "workoutType" body)) eqn:Hw; [|discriminate].
  destruct (truthy (get "duration" body)) eqn:Hd; [|discriminate].
  cbn [negb orb].
  destruct (parseFloatOf (get "duration" body)) as [d|e] eqn:Hp; [|discriminate].
  rewrite positive_checks.
  destruct (Spec.positive d) eqn:Hpos; [|discriminate].
  cbn [negb].
  destruct (OPENAI_API_KEY env) as [[|c key]|]; try discriminate.
  destruct (negb (startsWith (String c key) "sk-")); [discriminate|].
  destruct (buildPrompt _ _ _ _ _) as [p|e] eqn:Hb; [|discriminate].
  intros H. injection H as <- <-.
  exists d. repeat split; assumption.
Qed.

(** The two weight strings for a positive weight in pounds. *)
Lemma weightStrings_lbs weight weightNum :
  truthy weight = true ->
  parseFloatOf weight = Return weightNum ->
  Spec.positive weightNum = true ->
  weightStrings weight (JStr "lbs")
  = Return (nl ++ "Weight: " ++ toString weightNum ++ " lbs ("
               ++ toFixed1 (mul weightNum lbsToKg) ++ " kg)",
            toFixed1 (mul weightNum lbsToKg) ++ " kg").
Proof.
  intros Ht Hp Hpos. unfold weightStrings.
  rewrite Ht, Hp. cbn [andThen].
  unfold Spec.positive in Hpos. rewrite Hpos. reflexivity.
Qed.

Lemma buildPrompt_lbs workoutType durationNum runningPace weight weightNum prompt :
  buildPrompt workoutType durationNum runningPace weight (JStr "lbs") = Return prompt ->
  truthy weight = true ->
  parseFloatOf weight = Return weightNum ->
  Spec.positive weightNum = true ->
  (exists before after,
      prompt = before
               ++ (nl ++ "Weight: " ++ toString weightNum ++ " lbs ("
                      ++ toFixed1 (mul weightNum lbsToKg) ++ " kg)")
               ++ after)
  /\ (exists before after,
         prompt = before
                  ++ ("Use the person's weight of "
                        ++ toFixed1 (mul weightNum lbsToKg) ++ " kg to calculate calories.")
                  ++ after).
Proof.
  intros Hb Ht Hp Hpos. unfold buildPrompt in Hb.
  rewrite (weightStrings_lbs weight weightNum Ht Hp Hpos) in Hb.
  destruct (toLowerCaseOf _ workoutType) as [lower|e]; [|discriminate].
  cbn [andThen] in Hb.
  set (isRunning := (lower =? "run") || (lower =? "running")) in Hb.
  destruct (if isRunning && truthy runningPace
            then andThen (toStr runningPace) _ else _) as [paceInfo|e];
    [|discriminate].
  cbn [andThen] in Hb.
  destruct (paceGuidance isRunning runningPace) as [guidance|e]; [|discriminate].
  cbn [andThen] in Hb.
  destruct (toStr workoutType) as [type|e]; [|discriminate].
  cbn [andThen] in Hb.
  destruct (if isRunning && truthy runningPace
            then andThen (toStr runningPace) _ else _) as [paceAdvice|e];
    [|discriminate].
  cbn [andThen] in Hb.
  rewrite (truthy_append_r _ " kg" eq_refl) in Hb.
  injection Hb as <-.
  split.
  - exists ("Calculate the approximate number of calories burned for the following workout:"
            ++ nl ++ "    " ++ nl ++ "Workout Type: " ++ type ++ nl
            ++ "Duration: " ++ toString durationNum ++ " minutes" ++ paceInfo).
    eexists. rewrite !append_assoc. reflexivity.
  - exists ("Calculate the approximate number of calories burned for the following workout:"
            ++ nl ++ "    " ++ nl ++ "Workout Type: " ++ type ++ nl
            ++ "Duration: " ++ toString durationNum ++ " minutes" ++ paceInfo
            ++ (nl ++ "Weight: " ++ toString weightNum ++ " lbs ("
                   ++ toFixed1 (mul weightNum lbsToKg) ++ " kg)")
            ++ guidance ++ nl ++ nl ++ "Please provide:" ++ nl
            ++ "1. The estimated number of calories burned (as a single number, no text)" ++ nl
            ++ "2. A brief explanation (1-2 sentences) of how you calculated this" ++ nl
            ++ nl).
    eexists. rewrite !append_assoc. reflexivity.
Qed.

(** On the weights from 0.1 to 1000.0 pounds in tenths, the figure of the
    code, binary64 product and [toFixed(1)], is the exact product rounded to
    one decimal. *)
Lemma pounds_rounded_on_form_steps :
  forallb (fun k => let k := N.of_nat k in
                    (k =? 0)%N
                    || (toFixed1 (mul (ofDecimal false k (-1)) lbsToKg)
                        =? Spec.oneDecimal (Spec.exactKilogramTenths k))%string)
          (seq 0 (N.to_nat 10001))
  = true.
Proof. vm_compute. reflexivity. Qed.

Lemma pounds_rounded (tenthsOfPound : N) :
  (1 <= tenthsOfPound <= 10000)%N ->
  toFixed1 (mul (ofDecimal false tenthsOfPound (-1)) lbsToKg)
  = Spec.oneDecimal (Spec.exactKilogramTenths tenthsOfPound).
Proof.
  intros [Hlo Hhi].
  pose proof (proj1 (forallb_forall _ _) pounds_rounded_on_form_steps
                    (N.to_nat tenthsOfPound)) as H.
  cbv beta zeta in H. rewrite N2Nat.id in H.
  assert (Hin : In (N.to_nat tenthsOfPound) (seq 0 (N.to_nat 10001))).
  { apply in_seq. lia. }
  specialize (H Hin).
  replace (tenthsOfPound =? 0)%N with false in H by (symmetry; apply N.eqb_neq; lia).
  cbn [orb] in H. now apply String.eqb_eq in H.
Qed.

End Prompt.

(** C8, as stated, fails: the product is the binary64 product, not the exact
    one.  For a run with a weight of 6250 pounds the exact product, 2834.95,
    rounds to 2835.0 kilograms, and the prompt of the gateway says 2834.9. *)
Lemma pounds_6250_one_tenth_off :
  Route.POST (Scenario.withKey "sk-test") (Json.Return Scenario.run30heavy)
  = Route.Complete Scenario.prompt6250 (Route.finish (Json.JStr "Running") (JsNumber.ofZ 30))
  /\ JsString.includes Scenario.prompt6250 "Weight: 6250 lbs (2834.9 kg)" = true
  /\ JsString.includes Scenario.prompt6250
                       "Use the person's weight of 2834.9 kg to calculate calories." = true
  /\ Route.parseFloatOf (Json.get "weight" Scenario.run30heavy)
     = Json.Return (JsNumber.ofDecimal false 62500 (-1))
  /\ Spec.exactKilogramTenths 62500 = 28350%N
  /\ Spec.oneDecimal (Spec.exactKilogramTenths 62500) = "2835.0".
Proof.
  split.
  { assert (V : Spec.validated Scenario.run30heavy (JsNumber.ofZ 30))
      by (repeat split; vm_compute; reflexivity).
    rewrite (POST_validated _ _ _ V).
    assert (B : Route.buildPrompt (Json.get "workoutType" Scenario.run30heavy)
                  (JsNumber.ofZ 30)
                  (Json.get "runningPace" Scenario.run30heavy)
                  (Json.get "weight" Scenario.run30heavy)
                  (Json.get "weightUnit" Scenario.run30heavy)
                = Json.Return Scenario.prompt6250)
      by (vm_compute; reflexivity).
    cbn [Route.OPENAI_API_KEY Scenario.withKey].
    replace (negb (JsString.startsWith "sk-test" "sk-")) with false by reflexivity.
    rewrite B. reflexivity. }
  repeat split; vm_compute; reflexivity.
Qed.

(** C8, amended: whenever the gateway sends a prompt for a request whose
    workout type is [run] or [running] in any case and whose weight parses to
    a positive number with unit [lbs], the weight in the prompt is the
    binary64 product of the pound value and the number nearest 0.453592,
    printed with one decimal by [toFixed(1)]: it stands in the line of the
    weight and in the instruction to use it.  For every weight from 0.1 to
    1000.0 pounds in tenths that figure is the exact product with 0.453592
    rounded to one decimal place. *)
Theorem pounds_to_kilograms (env : Route.Env) (body : Json.value) (prompt : string)
        (k : Route.Completion -> option Route.Response)
        (workoutType : string) (weightNum : JsNumber.number) :
  Route.POST env (Json.Return body) = Route.Complete prompt k ->
  Json.get "workoutType" body = Json.JStr workoutType ->
  Spec.isRun workoutType = true ->
  Json.truthy (Json.get "weight" body) = true ->
  Route.parseFloatOf (Json.get "weight" body) = Json.Return weightNum ->
  Spec.positive weightNum = true ->
  Json.get "weightUnit" body = Json.JStr "lbs" ->
  let kg := JsNumber.toFixed1
              (JsNumber.mul weightNum (JsNumber.ofDecimal false 453592 (-6))) in
  (exists before after,
      prompt = before
               ++ (JsString.nl ++ "Weight: " ++ JsNumber.toString weightNum ++ " lbs ("
                      ++ kg ++ " kg)")
               ++ after)
  /\ (exists before after,
         prompt = before
                  ++ ("Use the person's weight of " ++ kg ++ " kg to calculate calories.")
                  ++ after)
  /\ (forall tenthsOfPound : N,
        (1 <= tenthsOfPound <= 10000)%N ->
        weightNum = JsNumber.ofDecimal false tenthsOfPound (-1) ->
        kg = Spec.oneDecimal (Spec.exactKilogramTenths tenthsOfPound)).
Proof.
  intros HP Hw _ Ht Hf Hpos Hu kg.
  apply POST_Complete in HP as (d & _ & Hb & _).
  rewrite Hu in Hb.
  destruct (buildPrompt_lbs _ _ _ _ _ _ Hb Ht Hf Hpos) as [H1 H2].
  split; [exact H1|]. split; [exact H2|].
  intros tenthsOfPound Hrange ->. exact (pounds_rounded tenthsOfPound Hrange).
Qed.

Lemma run30lbs_validated : Spec.validated Scenario.run30lbs (JsNumber.ofZ 30).
Proof. repeat split; vm_compute; reflexivity. Defined.

Lemma run30lbs_prompt :
  Route.POST (Scenario.withKey "sk-test") (Json.Return Scenario.run30lbs)
  = Route.Complete Scenario.prompt150 (Route.finish (Json.JStr "Running") (JsNumber.ofZ 30)).
Proof.
  rewrite (POST_validated _ _ _ run30lbs_validated).
  assert (B : Route.buildPrompt (Json.get "workoutType" Scenario.run30lbs) (JsNumber.ofZ 30)
                (Json.get "runningPace" Scenario.run30lbs)
                (Json.get "weight" Scenario.run30lbs)
                (Json.get "weightUnit" Scenario.run30lbs)
              = Json.Return Scenario.prompt150)
    by (vm_compute; reflexivity).
  cbn [Route.OPENAI_API_KEY Scenario.withKey].
  replace (negb (JsString.startsWith "sk-test" "sk-")) with false by reflexivity.
  rewrite B. reflexivity.
Defined.

Lemma pounds_to_kilograms_witness :
  (exists before after,
      Scenario.prompt150
      = before ++ (JsString.nl ++ "Weight: 150 lbs (68.0 kg)") ++ after)
  /\ (exists before after,
         Scenario.prompt150
         = before ++ "Use the person's weight of 68.0 kg to calculate calories." ++ after)
  /\ "68.0" = Spec.oneDecimal (Spec.exactKilogramTenths 1500).
Proof.
  assert (Hf : Route.parseFloatOf (Json.get "weight" Scenario.run30lbs)
               = Json.Return (JsNumber.ofDecimal false 1500 (-1)))
    by (vm_compute; reflexivity).
  assert (Hpos : Spec.positive (JsNumber.ofDecimal false 1500 (-1)) = true)
    by (vm_compute; reflexivity).
  pose proof (pounds_to_kilograms (Scenario.withKey "sk-test") Scenario.run30lbs
                Scenario.prompt150 (Route.finish (Json.JStr "Running") (JsNumber.ofZ 30))
                "Running" (JsNumber.ofDecimal false 1500 (-1)) run30lbs_prompt
                eq_refl eq_refl eq_refl Hf Hpos eq_refl)
    as P.
  cbv zeta in P.
  destruct P as (P1 & P2 & P3).
  specialize (P3 1500%N ltac:(lia) eq_refl).
  replace (JsNumber.toFixed1
             (JsNumber.mul (JsNumber.ofDecimal false 1500 (-1))
                           (JsNumber.ofDecimal false 453592 (-6))))
    with "68.0" in P1, P2, P3 by (vm_compute; reflexivity).
  replace (JsNumber.toString (JsNumber.ofDecimal false 1500 (-1))) with "150" in P1
    by (vm_compute; reflexivity).
  exact (conj P1 (conj P2 P3)).
Defined.

(** One hundred and fifty pounds are 68.0 kilograms in the prompt. *)
Example toFixed1_150_lbs :
  JsNumber.toFixed1 (JsNumber.mul (JsNumber.ofZ 150) Route.lbsToKg) = "68.0".
Proof. vm_compute. reflexivity. Qed.

(** ** End to end: the entries of the history *)

Section EndToEnd.
Import JsString JsNumber JsParse Json.

Variable env : Route.Env.
Variable service : string -> Route.Completion.
Variable clock : Page.Clock.

(** Every response of the gateway is an error of status 400 or 500, or the
    success response, which echoes the workout type of the request and
    carries [duration]. *)
Lemma finish_responses workoutType durationNum c r :
  Route.finish workoutType durationNum c = Some r ->
  Route.status r = 500%Z
  \/ exists n explanation,
       truthy explanation = true
       /\ r = Route.json 200 [("calories", JNum n); ("explanation", explanation);
                              ("workoutType", workoutType); ("duration", JNum durationNum)].
Proof.
  unfold Route.finish.
  destruct c as [[[|ch text]|]|e]; cbv beta iota;
    try (intros H; injection H as <-; left; first [apply status_catch | reflexivity]).
  destruct (Route.parseReply (String ch text)) as [[reply|e]|]; [| |discriminate].
  - destruct (Route.respond workoutType durationNum reply) as [r'|e] eqn:Hr;
      intros H; injection H as <-.
    + right. apply respond_success in Hr as (_ & _ & n & ex & He & ->). eauto.
    + left. apply status_catch.
  - intros H; injection H as <-. left. apply status_catch.
Qed.

Lemma run_responses body r :
  Route.run service (Route.POST env (Return body)) = Some r ->
  Route.status r = 400%Z \/ Route.status r = 500%Z
  \/ exists durationNum n explanation,
       Spec.validated body durationNum
       /\ truthy explanation = true
       /\ r = Route.json 200 [("calories", JNum n); ("explanation", explanation);
                              ("workoutType", get "workoutType" body);
                              ("duration", JNum durationNum)].
Proof.
  destruct (Route.POST env (Return body)) as [r'|prompt k] eqn:HP.
  - cbn [Route.run]. intros H; injection H as <-.
    revert HP. unfold Route.POST.
    repeat match goal with
           | |- context [if ?b then _ else _] => destruct b
           | |- context [match ?x with _ => _ end] => destruct x
           end;
      intros H; try discriminate; injection H as <-;
      rewrite ?status_catch; auto.
  - apply POST_Complete in HP as (d & V & _ & ->).
    cbn [Route.run]. intros H.
    apply finish_responses in H as [H | (n & ex & He & ->)]; [auto|].
    right; right. eauto 6.
Qed.

Lemma includes_json : includes "application/json" "application/json" = true.
Proof. reflexivity. Qed.

(** An error response makes the client throw, and the history stays. *)
Lemma afterFetch_error st r :
  Route.status r = 400%Z \/ Route.status r = 500%Z ->
  Page.workoutHistory (Page.afterFetch st (Return (System.deliver r)) clock)
  = Page.workoutHistory st.
Proof.
  intros Hs. unfold Page.afterFetch, Page.readResponse, System.deliver.
  cbn [andThen Page.contentType Page.json Page.ok]. rewrite includes_json.
  replace ((200 <=? Route.status r) && (Route.status r <=? 299))%Z with false
    by (destruct Hs as [-> | ->]; reflexivity).
  cbn [negb].
  destruct (getProp (wire (Route.body r)) "error") as [e|e]; cbn [andThen];
    [|reflexivity].
  destruct (toStr _); reflexivity.
Qed.

(** A success response puts a new entry first. *)
Lemma afterFetch_success st fields :
  Page.workoutHistory (Page.afterFetch st (Return (System.deliver (Route.json 200 fields))) clock)
  = Page.newWorkout (wire (JObj fields)) clock :: Page.workoutHistory st.
Proof. reflexivity. Qed.

Lemma newWorkout_quantity n explanation workoutType d :
  truthy explanation = true ->
  let entry :=
    Page.newWorkout
      (wire (JObj [("calories", JNum n); ("explanation", explanation);
                   ("workoutType", JStr workoutType); ("duration", JNum d)]))
      clock in
  lookup "workoutType" entry = Some (JStr workoutType)
  /\ Spec.populated "reps" entry = false
  /\ Spec.populated "duration" entry = true.
Proof.
  intros He entry. subst entry.
  destruct explanation; try discriminate; repeat split; reflexivity.
Qed.

(** What the gateway reads in the body of a request of the client. *)
Lemma requestBody_wire st :
  get "workoutType" (wire (JObj (Page.requestBody st)))
  = JStr (trim (Page.workoutType st))
  /\ (Page.isPushUp (Page.workoutType st) = true ->
      get "duration" (wire (JObj (Page.requestBody st))) = JUndefined).
Proof.
  unfold Page.requestBody.
  destruct (Page.isPushUp (Page.workoutType st));
    destruct (_ && JsString.truthy (trim (Page.runningPace st)));
    destruct (JsString.truthy (trim (Page.weight st)));
    split; try reflexivity; try discriminate.
Qed.

Lemma submit_history st st' :
  System.submit env service clock st = Some st' ->
  Page.workoutHistory st' = Page.workoutHistory st
  \/ exists entry,
       Page.workoutHistory st' = entry :: Page.workoutHistory st
       /\ Page.isPushUp (Page.workoutType st) = false
       /\ lookup "workoutType" entry = Some (JStr (trim (Page.workoutType st)))
       /\ Spec.populated "reps" entry = false
       /\ Spec.populated "duration" entry = true.
Proof.
  unfold System.submit, System.serve.
  pose proof (handleSubmit_maySend st) as S.
  destruct (Spec.maySend st).
  2:{ destruct S as (alert & ->). intros H; injection H as <-. now left. }
  rewrite S.
  destruct (Route.run service _) as [r|] eqn:Hr; [|discriminate].
  intros H; injection H as <-.
  destruct (requestBody_wire st) as (Hw & Hd).
  apply run_responses in Hr as [H4 | [H5 | (d & n & ex & V & He & ->)]].
  - left. apply afterFetch_error. now left.
  - left. apply afterFetch_error. now right.
  - right. rewrite afterFetch_success, Hw.
    eexists. split; [reflexivity|].
    split.
    { destruct (Page.isPushUp (Page.workoutType st)); [|reflexivity].
      destruct V as (_ & _ & Vd & _). rewrite (Hd eq_refl) in Vd. discriminate. }
    apply (newWorkout_quantity n ex _ d He).
Qed.

End EndToEnd.

(** C3: every entry the client adds to the history from a response of the
    gateway satisfies the invariant of the data model: exactly one of
    [duration] and [reps] is populated, [reps] exactly when the workout type
    is a push-up label and [duration] otherwise.  (Such an entry always has
    [duration]: a push-up submission carries no [duration], the gateway
    turns it away, and no entry is made of it.) *)
Theorem entry_one_quantity (env : Route.Env) (service : string -> Route.Completion)
        (clock : Page.Clock) (st st' : Page.State) :
  System.submit env service clock st = Some st' ->
  Page.workoutHistory st' = Page.workoutHistory st
  \/ exists entry,
       Page.workoutHistory st' = entry :: Page.workoutHistory st
       /\ Spec.oneQuantity entry
       /\ Spec.populated "duration" entry = negb (Spec.populated "reps" entry).
Proof.
  intros H.
  destruct (submit_history env service clock st st' H)
    as [Same | (entry & Hh & Hp & Hw & Hr & Hd)]; [now left|].
  right. exists entry. split; [exact Hh|].
  split.
  - exists (JsString.trim (Page.workoutType st)).
    rewrite isPushUp_trim, Hp, Hr, Hd. repeat split; [exact Hw | reflexivity..].
  - now rewrite Hr, Hd.
Qed.

Lemma entry_one_quantity_witness :
  Page.workoutHistory Scenario.logged = Page.workoutHistory Scenario.run30
  \/ exists entry,
       Page.workoutHistory Scenario.logged = entry :: Page.workoutHistory Scenario.run30
       /\ Spec.oneQuantity entry
       /\ Spec.populated "duration" entry = negb (Spec.populated "reps" entry).
Proof.
  apply (entry_one_quantity (Scenario.withKey "sk-test")
                            (Scenario.answering Scenario.calories250)
                            Scenario.clock Scenario.run30 Scenario.logged).
  vm_compute. reflexivity.
Defined.

(** ** The examples of the specification, evaluated *)

Section Examples.
Import JsString JsNumber JsParse Json.

(** In push-up mode 10 reps pass, and 0, -5 and 3.5 do not. *)
Example reps_examples :
  map (fun reps => Spec.maySend (Scenario.form "push up" "" reps []))
      ["10"; "0"; "-5"; "3.5"]
  = [true; false; false; false].
Proof. vm_compute. reflexivity. Qed.

(** In duration mode 30 minutes pass, and 0, -1 and a word do not. *)
Example duration_examples :
  map (fun duration => Spec.maySend (Scenario.form "Yoga" duration "" []))
      ["30"; "0"; "-1"; "soon"]
  = [true; false; false; false].
Proof. vm_compute. reflexivity. Qed.

(** The hyphen and space variants of the push-up label. *)
Example isPushUp_examples :
  map Page.isPushUp ["push up"; "push-up"; "pushup"; "pushups"; "Push Ups"; " PUSH - UPS ";
                     "pull up"; "push"; ""; "   "]
  = [true; true; true; true; true; true; false; false; false; false].
Proof. vm_compute. reflexivity. Qed.

(** A reply with calories 250.6 is answered with 251. *)
Example rounded_calories :
  Route.finish (JStr "Running") (ofZ 30) (Return (Some Scenario.calories250))
  = Some (Route.json 200
            [("calories", JNum (ofZ 251));
             ("explanation", JStr "Calories calculated based on workout type and duration.");
             ("workoutType", JStr "Running");
             ("duration", JNum (ofZ 30))]).
Proof. vm_compute. reflexivity. Qed.

(** A reply that is not JSON and has no digit fails to parse. *)
Example no_digits :
  Route.finish (JStr "Running") (ofZ 30) (Return (Some "plenty"))
  = Some (Route.json 500 [("error", JStr "Could not parse OpenAI response")]).
Proof. vm_compute. reflexivity. Qed.

(** Bodies as written and read back: [wire] is [JSON.parse] after
    [JSON.stringify] on them. *)
Example wire_request :
  parse (stringify (JObj (Page.requestBody Scenario.run30)))
  = Parsed (wire (JObj (Page.requestBody Scenario.run30))).
Proof. vm_compute. reflexivity. Qed.

Example wire_response :
  parse (stringify (JObj [("calories", JNum (ofZ 251)); ("details", JUndefined);
                          ("duration", JNum Infinity); ("explanation", JStr "a, b")]))
  = Parsed (wire (JObj [("calories", JNum (ofZ 251)); ("details", JUndefined);
                        ("duration", JNum Infinity); ("explanation", JStr "a, b")])).
Proof. vm_compute. reflexivity. Qed.

(** Numbers print as the language prints them. *)
Example toString_examples :
  map toString [ofZ 30; ofDecimal false 45 (-1); ofDecimal false 1 21; ofDecimal false 1 (-7);
                mul (ofZ 150) Route.lbsToKg]
  = ["30"; "4.5"; "1e+21"; "1e-7"; "68.0388"].
Proof. vm_compute. reflexivity. Qed.

End Examples.

(** ** More on the gateway *)

Section GatewayMore.
Import JsString JsNumber JsParse Json Route.

Lemma catch_errorBody e : status (catch e) = 500%Z /\ Shape.errorBody (catch e).
Proof.
  split; [apply status_catch|].
  destruct e as [m | m code | m]; unfold Shape.errorBody.
  - destruct m; eexists; (split; [| reflexivity]); reflexivity.
  - eexists. split; [| reflexivity]. reflexivity.
  - destruct m; eexists; (split; [| reflexivity]); reflexivity.
Qed.

Lemma json_errorBody st c m :
  Shape.errorBody (json st [("error", JStr (String c m))]).
Proof. eexists. split; [| reflexivity]. reflexivity. Qed.

(** The responses the handler gives before it calls the service. *)
Lemma Respond_errors env request r :
  POST env request = Respond r ->
  (status r = 400%Z \/ status r = 500%Z) /\ Shape.errorBody r.
Proof.
  unfold POST.
  repeat match goal with
         | |- context [if ?b then _ else _] => destruct b
         | |- context [match ?x with _ => _ end] => destruct x
         end;
    intros H; try discriminate; injection H as <-;
    first [ split; [right; apply status_catch | apply catch_errorBody]
          | split; [left; reflexivity | apply json_errorBody]
          | split; [right; reflexivity | apply json_errorBody] ].
Qed.

(** A prompt goes out only for a validated body under a credential that
    starts with [sk-]. *)
Lemma POST_Complete_key env request prompt k :
  POST env request = Complete prompt k ->
  exists body durationNum key,
    request = Return body
    /\ Spec.validated body durationNum
    /\ OPENAI_API_KEY env = Some key
    /\ startsWith key "sk-" = true
    /\ buildPrompt (get "workoutType" body) durationNum (get "runningPace" body)
                   (get "weight" body) (get "weightUnit" body) = Return prompt
    /\ k = finish (get "workoutType" body) durationNum.
Proof.
  destruct request as [body|e]; [|discriminate].
  unfold POST.
  destruct (isNullish body) eqn:Hn; [discriminate|].
  destruct (truthy (get "workoutType" body)) eqn:Hw; [|discriminate].
  destruct (truthy (get "duration" body)) eqn:Hd; [|discriminate].
  cbn [negb orb].
  destruct (parseFloatOf (get "duration" body)) as [d|e] eqn:Hp; [|discriminate].
  rewrite positive_checks.
  destruct (Spec.positive d) eqn:Hpos; [|discriminate].
  cbn [negb].
  destruct (OPENAI_API_KEY env) as [[|c key]|]; try discriminate.
  destruct (startsWith (String c key) "sk-") eqn:Hk; [|discriminate].
  cbn [negb].
  destruct (buildPrompt _ _ _ _ _) as [p|e] eqn:Hb; [|discriminate].
  intros H. injection H as <- <-.
  exists body, d, (String c key). repeat split; assumption.
Qed.

(** Unless the reply names a code unit above U+00FF, the handler goes on to
    a response. *)
Lemma finish_total workoutType durationNum c :
  (forall text, c = Return (Some text) -> parse text <> OutOfRange) ->
  exists r, finish workoutType durationNum c = Some r.
Proof.
  intros H. unfold finish.
  destruct c as [[[|ch text]|]|e]; cbv beta iota; eauto.
  specialize (H _ eq_refl). unfold parseReply.
  destruct (parse (String ch text)); [| |congruence].
  - eexists; reflexivity.
  - destruct (matchDigits (String ch text)); eexists; reflexivity.
Qed.

Lemma run_total env service request :
  (forall prompt text, service prompt = Return (Some text) -> parse text <> OutOfRange) ->
  exists r, run service (POST env request) = Some r.
Proof.
  intros Hservice.
  destruct (POST env request) as [r|prompt k] eqn:HP; cbn [run]; [eauto|].
  apply POST_Complete_key in HP as (body & d & key & _ & _ & _ & _ & _ & ->).
  exact (finish_total _ _ _ (Hservice prompt)).
Qed.

(** *** The prompt *)

Lemma not_lbs (A : Type) (u : value) (a b : A) :
  u <> JStr "lbs" ->
  match u with JStr "lbs" => a | _ => b end = b.
Proof.
  intros H. destruct u as [| | | |s| |]; try reflexivity.
  destruct s as [|c1 s]; [reflexivity|].
  destruct c1 as [[] [] [] [] [] [] [] []]; try reflexivity.
  destruct s as [|c2 s]; [reflexivity|].
  destruct c2 as [[] [] [] [] [] [] [] []]; try reflexivity.
  destruct s as [|c3 s]; [reflexivity|].
  destruct c3 as [[] [] [] [] [] [] [] []]; try reflexivity.
  destruct s; [|reflexivity].
  exfalso. apply H. reflexivity.
Qed.

Lemma weightStrings_kg weight weightUnit weightNum :
  truthy weight = true ->
  parseFloatOf weight = Return weightNum ->
  Spec.positive weightNum = true ->
  weightUnit <> JStr "lbs" ->
  weightStrings weight weightUnit
  = Return (nl ++ "Weight: " ++ toString weightNum ++ " kg",
            toString weightNum ++ " kg").
Proof.
  intros Ht Hp Hpos Hu. unfold weightStrings.
  rewrite Ht, Hp. cbn [andThen].
  unfold Spec.positive in Hpos. rewrite Hpos.
  apply not_lbs. unfold orElse.
  destruct (truthy weightUnit); [exact Hu | discriminate].
Qed.

Lemma weightStrings_unusable weight weightUnit :
  truthy weight = false
  \/ (exists weightNum,
         parseFloatOf weight = Return weightNum /\ Spec.positive weightNum = false) ->
  weightStrings weight weightUnit = Return ("", "").
Proof.
  intros H. unfold weightStrings.
  destruct (truthy weight); [|reflexivity].
  destruct H as [H | (w & Hp & Hpos)]; [discriminate|].
  rewrite Hp. cbn [andThen].
  unfold Spec.positive in Hpos. now rewrite Hpos.
Qed.

(** Where the two weight strings stand in the prompt. *)
Lemma buildPrompt_weight workoutType durationNum runningPace weight weightUnit
      weightInfo weightForCalculation prompt :
  buildPrompt workoutType durationNum runningPace weight weightUnit = Return prompt ->
  weightStrings weight weightUnit = Return (weightInfo, weightForCalculation) ->
  exists before between after,
    prompt = before ++ weightInfo ++ between
             ++ (if JsString.truthy weightForCalculation
                 then "Use the person's weight of " ++ weightForCalculation
                      ++ " to calculate calories. Heavier people burn more calories for the same activity."
                 else "Assume an average adult (weighing approximately 70kg/154lbs) performing this activity.")
             ++ after.
Proof.
  intros Hb Hw. unfold buildPrompt in Hb. rewrite Hw in Hb.
  destruct (toLowerCaseOf _ workoutType) as [lower|e]; [|discriminate].
  cbn [andThen] in Hb.
  set (isRunning := (lower =? "run") || (lower =? "running")) in Hb.
  destruct (if isRunning && truthy runningPace
            then andThen (toStr runningPace) _ else _) as [paceInfo|e];
    [|discriminate].
  cbn [andThen] in Hb.
  destruct (paceGuidance isRunning runningPace) as [guidance|e]; [|discriminate].
  cbn [andThen] in Hb.
  destruct (toStr workoutType) as [type|e]; [|discriminate].
  cbn [andThen] in Hb.
  destruct (if isRunning && truthy runningPace
            then andThen (toStr runningPace) _ else _) as [paceAdvice|e];
    [|discriminate].
  cbn [andThen] in Hb.
  injection Hb as <-.
  exists ("Calculate the approximate number of calories burned for the following workout:"
            ++ nl ++ "    " ++ nl ++ "Workout Type: " ++ type ++ nl
            ++ "Duration: " ++ toString durationNum ++ " minutes" ++ paceInfo).
  exists (guidance ++ nl ++ nl ++ "Please provide:" ++ nl
            ++ "1. The estimated number of calories burned (as a single number, no text)" ++ nl
            ++ "2. A brief explanation (1-2 sentences) of how you calculated this" ++ nl
            ++ nl).
  eexists. rewrite !append_assoc. reflexivity.
Qed.

(** *** The first run of digits *)

Lemma matchDigits_digitFree s : Shape.digitFree s = true -> matchDigits s = None.
Proof.
  induction s as [|c r IH]; [reflexivity|].
  cbn [Shape.digitFree matchDigits]. intros H.
  apply andb_prop in H as [Hc Hr]. apply negb_true_iff in Hc.
  rewrite Hc. exact (IH Hr).
Qed.

Lemma spanDigits_run ds post :
  Shape.allDigits ds = true -> Shape.noDigitAhead post = true ->
  spanDigits (ds ++ post) = (ds, post).
Proof.
  intros Hd Hp. induction ds as [|c r IH].
  - destruct post as [|c r]; [reflexivity|].
    cbn [Shape.noDigitAhead] in Hp. apply negb_true_iff in Hp.
    change ("" ++ String c r) with (String c r).
    cbn [spanDigits]. now rewrite Hp.
  - cbn [Shape.allDigits] in Hd. apply andb_prop in Hd as [Hc Hr].
    rewrite append_cons. cbn [spanDigits]. now rewrite Hc, (IH Hr).
Qed.

Lemma matchDigits_first pre ds post :
  Shape.digitFree pre = true -> Shape.allDigits ds = true -> ds <> "" ->
  Shape.noDigitAhead post = true ->
  matchDigits (pre ++ ds ++ post) = Some ds.
Proof.
  intros Hpre Hd Hne Hp. induction pre as [|c r IH].
  - destruct ds as [|c r]; [congruence|].
    change ("" ++ String c r ++ post) with (String c (r ++ post)).
    pose proof Hd as Hd'. cbn [Shape.allDigits] in Hd'.
    apply andb_prop in Hd' as [Hc _].
    cbn [matchDigits]. rewrite Hc.
    change (String c (r ++ post)) with (String c r ++ post).
    now rewrite (spanDigits_run _ _ Hd Hp).
  - cbn [Shape.digitFree] in Hpre. apply andb_prop in Hpre as [Hc Hr].
    apply negb_true_iff in Hc.
    rewrite append_cons. cbn [matchDigits]. rewrite Hc. exact (IH Hr).
Qed.

Lemma radixDigit_digit c :
  isDigit c = true -> radixDigit 10 c = Some (digitValue c).
Proof.
  unfold isDigit, radixDigit, digitValue. cbv zeta. intros H. rewrite H.
  apply andb_prop in H as [_ H]. apply N.leb_le in H.
  replace (N_of_ascii c - 48 <? 10)%N with true; [reflexivity|].
  symmetry. apply N.ltb_lt. lia.
Qed.

Lemma spanRadix_digits ds acc :
  Shape.allDigits ds = true ->
  spanRadix 10 acc ds
  = (match ds with
     | EmptyString => acc
     | _ => Some (digitsValue (match acc with Some a => a | None => 0 end) ds)
     end, EmptyString).
Proof.
  revert acc. induction ds as [|c r IH]; intros acc Hd; [reflexivity|].
  cbn [Shape.allDigits] in Hd. apply andb_prop in Hd as [Hc Hr].
  cbn [spanRadix]. rewrite (radixDigit_digit c Hc), (IH _ Hr).
  cbn [digitsValue].
  destruct r as [|c' r']; destruct acc as [a|]; reflexivity.
Qed.

Lemma digit_plain c r :
  isDigit c = true ->
  trimStart (String c r) = String c r /\ spanSign (String c r) = (false, String c r).
Proof.
  destruct c as [[] [] [] [] [] [] [] []]; intros H;
    try (vm_compute in H; discriminate H); split; reflexivity.
Qed.

Lemma digit_not_x x :
  isDigit x = true -> (x =? "x")%char || (x =? "X")%char = false.
Proof.
  intros Hx. apply orb_false_iff. split.
  - destruct (Ascii.eqb_spec x "x") as [->|]; [discriminate Hx | reflexivity].
  - destruct (Ascii.eqb_spec x "X") as [->|]; [discriminate Hx | reflexivity].
Qed.

(** [parseInt] of a run of digits is the number nearest to its decimal
    value. *)
Lemma parseInt_digits ds :
  Shape.allDigits ds = true -> ds <> "" ->
  parseInt ds = ofZ (Z.of_N (digitsValue 0 ds)).
Proof.
  intros Hd Hne. destruct ds as [|c r]; [congruence|].
  pose proof (spanRadix_digits (String c r) None Hd) as Hs.
  pose proof Hd as Hd'. cbn [Shape.allDigits] in Hd'.
  apply andb_prop in Hd' as [Hc Hr].
  destruct (digit_plain c r Hc) as [Ht Hsign].
  unfold parseInt. rewrite Ht, Hsign.
  assert (Hradix :
            match String c r with
            | String "0" (String x t) =>
                if ((x =? "x") || (x =? "X"))%char then (16%N, t) else (10%N, String c r)
            | _ => (10%N, String c r)
            end = (10%N, String c r)).
  { destruct c as [[] [] [] [] [] [] [] []]; try reflexivity.
    destruct r as [|x t]; [reflexivity|].
    cbn [Shape.allDigits] in Hr. apply andb_prop in Hr as [Hx _].
    now rewrite (digit_not_x x Hx). }
  rewrite Hradix, Hs. reflexivity.
Qed.

(** *** The first number of a pace *)

Lemma append_nil_r (s : string) : s ++ "" = s.
Proof. induction s as [|c r IH]; [reflexivity|]. now rewrite append_cons, IH. Qed.

Lemma matchDecimal_skip pre s :
  Shape.digitFree pre = true -> matchDecimal (pre ++ s) = matchDecimal s.
Proof.
  intros H. induction pre as [|c r IH]; [reflexivity|].
  cbn [Shape.digitFree] in H. apply andb_prop in H as [Hc Hr].
  apply negb_true_iff in Hc.
  rewrite append_cons. cbn [matchDecimal]. rewrite Hc. exact (IH Hr).
Qed.

Lemma matchDecimal_head c r :
  isDigit c = true ->
  matchDecimal (String c r)
  = let '(int, t) := spanDigits (String c r) in
    match t with
    | String "." t' => Some (int ++ "." ++ fst (spanDigits t'))
    | _ => Some int
    end.
Proof. intros H. cbn [matchDecimal]. now rewrite H. Qed.

Lemma matchDecimal_int int post :
  Shape.allDigits int = true -> int <> "" ->
  Shape.noDigitAhead post = true -> startsWith post "." = false ->
  matchDecimal (int ++ post) = Some int.
Proof.
  intros Hd Hne Hp Hpoint. destruct int as [|c r]; [congruence|].
  pose proof Hd as Hd'. cbn [Shape.allDigits] in Hd'.
  apply andb_prop in Hd' as [Hc _].
  rewrite append_cons, (matchDecimal_head _ _ Hc), <- append_cons.
  rewrite (spanDigits_run _ _ Hd Hp).
  destruct post as [|x t]; [reflexivity|].
  destruct x as [[] [] [] [] [] [] [] []]; try reflexivity.
  destruct t; vm_compute in Hpoint; discriminate Hpoint.
Qed.

Lemma matchDecimal_frac int frac post :
  Shape.allDigits int = true -> int <> "" ->
  Shape.allDigits frac = true -> Shape.noDigitAhead post = true ->
  matchDecimal (int ++ "." ++ frac ++ post) = Some (int ++ "." ++ frac).
Proof.
  intros Hd Hne Hf Hp. destruct int as [|c r]; [congruence|].
  pose proof Hd as Hd'. cbn [Shape.allDigits] in Hd'.
  apply andb_prop in Hd' as [Hc _].
  rewrite append_cons, (matchDecimal_head _ _ Hc), <- append_cons.
  rewrite (spanDigits_run _ ("." ++ frac ++ post) Hd eq_refl).
  change ("." ++ frac ++ post) with (String "." (frac ++ post)).
  cbv beta iota. now rewrite (spanDigits_run _ _ Hf Hp).
Qed.

(** *** The calories of a success *)

Lemma shr_1_nonneg mrs : (0 <= shr_m mrs)%Z -> (0 <= shr_m (shr_1 mrs))%Z.
Proof.
  destruct mrs as [m r s]. destruct m as [|[p|p|]|p]; cbn [shr_1 shr_m]; lia.
Qed.

Lemma iter_shr_1_nonneg p :
  forall mrs, (0 <= shr_m mrs)%Z -> (0 <= shr_m (SpecFloat.iter_pos shr_1 p mrs))%Z.
Proof.
  induction p as [p IH|p IH|]; intros mrs H; cbn [SpecFloat.iter_pos].
  - apply IH, IH, shr_1_nonneg, H.
  - apply IH, IH, H.
  - apply shr_1_nonneg, H.
Qed.

Lemma shr_fexp_nonneg m e l :
  (0 <= m)%Z -> (0 <= shr_m (fst (shr_fexp prec emax m e l)))%Z.
Proof.
  intros H. unfold shr_fexp, shr.
  assert (H0 : (0 <= shr_m (shr_record_of_loc m l))%Z)
    by (destruct l as [|[]]; exact H).
  destruct (fexp prec emax (Zdigits2 m + e) - e)%Z; cbn [fst]; try exact H0.
  apply iter_shr_1_nonneg, H0.
Qed.

Lemma round_nearest_even_nonneg m l :
  (0 <= m)%Z -> (0 <= round_nearest_even m l)%Z.
Proof.
  intros H. unfold round_nearest_even.
  destruct l as [|[]]; try destruct (Z.even m); lia.
Qed.

Lemma binary_normalize_not_NaN m e s : isNaN (binary_normalize prec emax m e s) = false.
Proof.
  assert (R : forall sx mx, isNaN (binary_round prec emax sx mx e) = false).
  { intros sx mx. unfold binary_round.
    destruct (shl_align mx e _) as [mz ez].
    unfold binary_round_aux.
    pose proof (shr_fexp_nonneg (Z.pos mz) ez loc_Exact ltac:(lia)) as H1.
    destruct (shr_fexp prec emax (Z.pos mz) ez loc_Exact) as [mrs' e'].
    cbn [fst] in H1.
    pose proof (shr_fexp_nonneg _ e' loc_Exact
                  (round_nearest_even_nonneg _ (loc_of_shr_record mrs') H1)) as H2.
    destruct (shr_fexp prec emax _ e' loc_Exact) as [mrs'' e''].
    cbn [fst] in H2.
    destruct (shr_m mrs'') as [|p|p]; [reflexivity | | lia].
    destruct (e'' <=? emax - prec)%Z; reflexivity. }
  destruct m; [reflexivity | apply R | apply R].
Qed.

(** [Math.round] gives [NaN] for [NaN] only. *)
Lemma round_not_NaN n : isNaN n = false -> isNaN (round n) = false.
Proof.
  intros H. unfold round.
  destruct n as [| | |s m [| |k]]; try exact H.
  apply binary_normalize_not_NaN.
Qed.

(** A string member of a response body reaches the client as it is. *)
Lemma get_wire_str k fields m :
  get k (JObj fields) = JStr m -> get k (wire (JObj fields)) = JStr m.
Proof.
  cbn [get wire].
  induction fields as [|[k1 v1] r IH]; cbn [lookup]; [discriminate|].
  destruct (String.eqb_spec k k1) as [->|Hk].
  - intros ->. cbn [lookup wire]. now rewrite String.eqb_refl.
  - intros H. specialize (IH H).
    destruct v1; try exact IH; cbn [lookup];
      (destruct (String.eqb_spec k k1); [congruence | exact IH]).
Qed.

(** *** The response as it is written *)

Lemma errorBody_delivered r : Shape.errorBody r -> Shape.errorDelivered r.
Proof.
  intros (m & Ht & Hm). exists m. split; [exact Ht|].
  destruct (Route.body r) as [| | | | | |fields]; try discriminate.
  exact (get_wire_str _ _ _ Hm).
Qed.

Lemma respond_shape workoutType durationNum reply r :
  respond workoutType durationNum reply = Return r ->
  exists n explanation,
    isNaN n = false
    /\ truthy explanation = true
    /\ r = json 200 [("calories", JNum n); ("explanation", explanation);
                     ("workoutType", workoutType); ("duration", JNum durationNum)].
Proof.
  unfold respond, getProp.
  destruct (isNullish reply) eqn:Hn; cbn [andThen]; [discriminate|].
  destruct (truthy (get "calories" reply)) eqn:Ht; cbn [andThen]; [|discriminate].
  destruct (toNumber (get "calories" reply)) as [n|e]; cbn [andThen]; [|discriminate].
  destruct (isNaN n) eqn:E; [discriminate|].
  intros H. injection H as <-.
  eexists _, _. split; [exact (round_not_NaN n E)|]. split; [|reflexivity].
  unfold orElse. destruct (truthy (get "explanation" reply)) eqn:He; [exact He | reflexivity].
Qed.

Lemma buildPrompt_string workoutType durationNum runningPace weight weightUnit prompt :
  buildPrompt workoutType durationNum runningPace weight weightUnit = Return prompt ->
  exists s, workoutType = JStr s.
Proof.
  destruct workoutType; try discriminate. eauto.
Qed.

(** A response is the success, made from a validated request whose workout
    type is a string, or an error. *)
Lemma run_success_or_error env service request r :
  run service (POST env request) = Some r ->
  (exists body durationNum workoutType n explanation,
      request = Return body
      /\ Spec.validated body durationNum
      /\ get "workoutType" body = JStr workoutType
      /\ isNaN n = false
      /\ truthy explanation = true
      /\ r = json 200 [("calories", JNum n); ("explanation", explanation);
                       ("workoutType", JStr workoutType);
                       ("duration", JNum durationNum)])
  \/ ((status r = 400%Z \/ status r = 500%Z) /\ Shape.errorBody r).
Proof.
  destruct (POST env request) as [r'|prompt k] eqn:HP; cbn [run].
  - intros H; injection H as <-. right. exact (Respond_errors _ _ _ HP).
  - apply POST_Complete_key in HP as (body & d & key & -> & V & _ & _ & Hb & ->).
    destruct (buildPrompt_string _ _ _ _ _ _ Hb) as (w & Hw).
    unfold finish.
    destruct (service prompt) as [[[|ch text]|]|e]; cbv beta iota;
      try (intros H; injection H as <-; right;
           first [ split; [right; apply status_catch | apply catch_errorBody]
                 | split; [right; reflexivity | apply json_errorBody] ]).
    destruct (parseReply (String ch text)) as [[reply|e]|]; [| |discriminate].
    + destruct (respond (get "workoutType" body) d reply) as [r'|e] eqn:Hr;
        intros H; injection H as <-.
      * left. apply respond_shape in Hr as (n & ex & Hn & Hex & ->).
        exists body, d, w, n, ex. rewrite Hw. auto 7.
      * right. split; [right; apply status_catch | apply catch_errorBody].
    + intros H; injection H as <-. right.
      split; [right; apply status_catch | apply catch_errorBody].
Qed.

Lemma wire_success n explanation workoutType durationNum :
  truthy explanation = true ->
  wire (JObj [("calories", JNum n); ("explanation", explanation);
              ("workoutType", JStr workoutType); ("duration", JNum durationNum)])
  = JObj [("calories", wire (JNum n)); ("explanation", wire explanation);
          ("workoutType", JStr workoutType); ("duration", wire (JNum durationNum))].
Proof. destruct explanation; try discriminate; reflexivity. Qed.

Lemma wire_number n :
  isNaN n = false ->
  Shape.numberOrNull (wire (JNum n))
  /\ (wire (JNum n) = JNull <-> isFinite n = false).
Proof.
  unfold Shape.numberOrNull.
  destruct n as [s|s| |s m e]; try discriminate; intros _; cbn [wire isFinite].
  - split; [right; eexists; split; reflexivity|]. split; discriminate.
  - split; [now left|]. split; reflexivity.
  - split; [right; eexists; split; reflexivity|]. split; discriminate.
Qed.

Lemma wire_truthy v : truthy v = true -> truthy (wire v) = true \/ wire v = JNull.
Proof.
  destruct v as [| |b|n|s|items|fields]; try discriminate; intros H;
    try (left; exact H); try (left; reflexivity).
  destruct n; try discriminate; [now right | now left].
Qed.

Lemma wire_duration d :
  Spec.positive d = true ->
  (wire (JNum d) = JNum d /\ isFinite d = true)
  \/ (wire (JNum d) = JNull /\ d = Infinity).
Proof.
  destruct d as [s|s| |s m e]; try discriminate; intros H.
  - destruct s; [discriminate|]. right. split; reflexivity.
  - left. split; reflexivity.
Qed.

(** *** When the prompt can be built *)

Lemma weightStrings_returns weight weightUnit :
  (exists w, weightStrings weight weightUnit = Return w)
  <-> (truthy weight = true -> exists weightNum, parseFloatOf weight = Return weightNum).
Proof.
  unfold weightStrings. destruct (truthy weight).
  - destruct (parseFloatOf weight) as [weightNum|e]; cbn [andThen].
    + split; [eauto|]. intros _.
      destruct (negb (isNaN weightNum) && ltb zero weightNum); [|eauto].
      destruct (orElse weightUnit (JStr "kg")) as [| | | |u| |]; eauto.
      destruct u as [|c1 u]; eauto.
      repeat match goal with
             | |- context [match ?x with _ => _ end] => destruct x; eauto
             end.
    + split; [intros (w & H); discriminate|].
      intros H. destruct (H eq_refl) as (w & Hw). discriminate.
  - split; [discriminate | eauto].
Qed.

Lemma buildPrompt_returns workoutType durationNum runningPace weight weightUnit :
  (exists prompt,
      buildPrompt workoutType durationNum runningPace weight weightUnit = Return prompt)
  <-> (exists s,
          workoutType = JStr s
          /\ (Spec.isRun s = true -> truthy runningPace = true ->
              exists pace, runningPace = JStr pace)
          /\ (truthy weight = true ->
              exists weightNum, parseFloatOf weight = Return weightNum)).
Proof.
  split.
  - intros (prompt & H).
    destruct (buildPrompt_string _ _ _ _ _ _ H) as (s & ->).
    exists s. split; [reflexivity|].
    unfold buildPrompt in H. cbn [toLowerCaseOf andThen] in H. cbv zeta in H.
    change ((toLowerCase s =? "run") || (toLowerCase s =? "running"))
      with (Spec.isRun s) in H.
    destruct (weightStrings weight weightUnit) as [[wi wc]|e] eqn:Hw.
    + split; [|apply (proj1 (weightStrings_returns weight weightUnit)); eauto].
      intros Hr Ht. rewrite Hr, Ht in H. cbn [andb] in H.
      unfold paceGuidance in H. rewrite Ht in H. cbn [andb] in H.
      destruct runningPace; try (cbn in H; discriminate H); eauto;
        exfalso; destruct (toStr _); cbn [andThen] in H; discriminate H.
    + exfalso.
      destruct (if Spec.isRun s && truthy runningPace
                then andThen (toStr runningPace) _ else _);
        cbn [andThen] in H; discriminate H.
  - intros (s & -> & Hpace & Hweight).
    apply (proj2 (weightStrings_returns weight weightUnit)) in Hweight as ([wi wc] & Hw).
    unfold buildPrompt. cbn [toLowerCaseOf andThen]. cbv zeta.
    change ((toLowerCase s =? "run") || (toLowerCase s =? "running"))
      with (Spec.isRun s).
    rewrite Hw. unfold paceGuidance.
    destruct (Spec.isRun s) eqn:Hr; cbn [andb]; [|cbn; eauto].
    destruct (truthy runningPace) eqn:Ht; [|cbn; eauto].
    destruct (Hpace eq_refl eq_refl) as (pace & ->).
    cbn [toStr andThen].
    destruct (matchDecimal pace); cbn [andThen toStr]; eauto.
Qed.

End GatewayMore.

(** X1: the handler always answers, and in one of two shapes.  Whatever the
    request, the credential and the completion service (its replies within
    the strings of this development, no code unit above U+00FF, raw or
    escaped), [POST] gives a response, and the JSON body the caller reads is
    one of two.  A success has status 200 and exactly the members
    [calories], [explanation], [workoutType] and [duration], in this order:
    [calories] is a finite number or [null]; [explanation] is truthy or
    [null]; [workoutType] is the workout type of the request, a string;
    [duration] is the duration the request parsed to, or [null] when that is
    [Infinity]; and the request passed validation.  An error has status 400
    or 500 and an [error] member that is a string and not empty. *)
Theorem gateway_answers (env : Route.Env) (service : string -> Route.Completion)
        (request : Route.Request) :
  (forall prompt text,
      service prompt = Json.Return (Some text) -> Json.parse text <> Json.OutOfRange) ->
  exists r,
    Route.run service (Route.POST env request) = Some r
    /\ ((Route.status r = 200%Z
         /\ exists body durationNum workoutType calories explanation duration,
             request = Json.Return body
             /\ Spec.validated body durationNum
             /\ Json.get "workoutType" body = Json.JStr workoutType
             /\ Json.wire (Route.body r)
                = Json.JObj [("calories", calories); ("explanation", explanation);
                             ("workoutType", Json.JStr workoutType);
                             ("duration", duration)]
             /\ Shape.numberOrNull calories
             /\ (Json.truthy explanation = true \/ explanation = Json.JNull)
             /\ (duration = Json.JNum durationNum /\ JsNumber.isFinite durationNum = true
                 \/ duration = Json.JNull /\ durationNum = JsNumber.Infinity))
        \/ ((Route.status r = 400%Z \/ Route.status r = 500%Z)
            /\ Shape.errorDelivered r)).
Proof.
  intros Hservice.
  destruct (run_total env service request Hservice) as (r & Hr).
  exists r. split; [exact Hr|].
  apply run_success_or_error in Hr
    as [(body & d & w & n & ex & -> & V & Hw & Hn & Hex & ->) | (Hs & He)].
  - left. split; [reflexivity|].
    exists body, d, w, (Json.wire (Json.JNum n)), (Json.wire ex), (Json.wire (Json.JNum d)).
    split; [reflexivity|]. split; [exact V|]. split; [exact Hw|].
    split; [exact (wire_success n ex w d Hex)|].
    split; [exact (proj1 (wire_number n Hn))|].
    split; [exact (wire_truthy ex Hex)|].
    destruct V as (_ & _ & _ & _ & Hpos).
    destruct (wire_duration d Hpos) as [[E F] | [E F]]; rewrite E; auto.
  - right. split; [exact Hs | exact (errorBody_delivered r He)].
Qed.

Lemma gateway_answers_witness :
  exists r,
    Route.run (Scenario.answering Scenario.calories250)
              (Route.POST (Scenario.withKey "sk-test") (Json.Return Scenario.yoga45))
    = Some r
    /\ ((Route.status r = 200%Z
         /\ exists body durationNum workoutType calories explanation duration,
             Json.Return Scenario.yoga45 = Json.Return body
             /\ Spec.validated body durationNum
             /\ Json.get "workoutType" body = Json.JStr workoutType
             /\ Json.wire (Route.body r)
                = Json.JObj [("calories", calories); ("explanation", explanation);
                             ("workoutType", Json.JStr workoutType);
                             ("duration", duration)]
             /\ Shape.numberOrNull calories
             /\ (Json.truthy explanation = true \/ explanation = Json.JNull)
             /\ (duration = Json.JNum durationNum /\ JsNumber.isFinite durationNum = true
                 \/ duration = Json.JNull /\ durationNum = JsNumber.Infinity))
        \/ ((Route.status r = 400%Z \/ Route.status r = 500%Z)
            /\ Shape.errorDelivered r)).
Proof.
  apply (gateway_answers (Scenario.withKey "sk-test")
                         (Scenario.answering Scenario.calories250)
                         (Json.Return Scenario.yoga45)).
  intros prompt text H. injection H as <-. vm_compute. discriminate.
Defined.

(** X2: when the completion service is consulted.  It is consulted exactly
    for a request that passes validation, under a credential that starts
    with [sk-], from which the prompt can be built: the workout type is a
    string, the pace of a run, when truthy, is a string, and the weight, when
    truthy, converts to a string.  The prompt it is given is then the one
    [buildPrompt] makes of the members of the body.  A request that passes
    validation and the credential checks with a workout type that is not a
    string (the number 5, say) is answered with status 500 and no call. *)
Theorem service_consulted_iff (env : Route.Env) (request : Route.Request) :
  ((exists prompt k, Route.POST env request = Route.Complete prompt k)
   <-> (exists body durationNum key,
           request = Json.Return body
           /\ Spec.validated body durationNum
           /\ Route.OPENAI_API_KEY env = Some key
           /\ JsString.startsWith key "sk-" = true
           /\ Shape.promptable body))
  /\ (forall prompt k,
        Route.POST env request = Route.Complete prompt k ->
        exists body durationNum,
          request = Json.Return body
          /\ Spec.validated body durationNum
          /\ Route.buildPrompt (Json.get "workoutType" body) durationNum
                               (Json.get "runningPace" body) (Json.get "weight" body)
                               (Json.get "weightUnit" body)
             = Json.Return prompt
          /\ k = Route.finish (Json.get "workoutType" body) durationNum)
  /\ (forall body durationNum key,
        request = Json.Return body ->
        Spec.validated body durationNum ->
        Route.OPENAI_API_KEY env = Some key ->
        JsString.startsWith key "sk-" = true ->
        (forall s, Json.get "workoutType" body <> Json.JStr s) ->
        exists r, Route.POST env request = Route.Respond r /\ Route.status r = 500%Z).
Proof.
  split; [split|split].
  - intros (prompt & k & HP).
    apply POST_Complete_key in HP as (body & d & key & -> & V & Hk & Hs & Hb & _).
    exists body, d, key.
    split; [reflexivity|]. split; [exact V|]. split; [exact Hk|]. split; [exact Hs|].
    apply (proj1 (buildPrompt_returns (Json.get "workoutType" body) d (Json.get "runningPace" body)
                                      (Json.get "weight" body) (Json.get "weightUnit" body))).
    eauto.
  - intros (body & d & key & -> & V & Hk & Hs & Hp).
    apply (proj2 (buildPrompt_returns (Json.get "workoutType" body) d (Json.get "runningPace" body)
                                      (Json.get "weight" body) (Json.get "weightUnit" body)))
      in Hp as (prompt & Hb).
    rewrite (POST_validated env body d V), Hk.
    destruct key as [|c key]; [discriminate|].
    rewrite Hs, Hb. cbn [negb]. eauto.
  - intros prompt k HP.
    apply POST_Complete_key in HP as (body & d & key & -> & V & _ & _ & Hb & ->).
    exists body, d. auto.
  - intros body d key -> V Hk Hs Hw.
    rewrite (POST_validated env body d V), Hk.
    destruct key as [|c key]; [discriminate|].
    rewrite Hs. cbn [negb].
    destruct (Route.buildPrompt _ _ _ _ _) as [prompt|e] eqn:Hb.
    + destruct (buildPrompt_string _ _ _ _ _ _ Hb) as (s & E). now destruct (Hw s).
    + eexists. split; [reflexivity | apply status_catch].
Qed.

(** X3: the running pace of a request counts only for a run.  When the
    workout type is not [run] or [running] (in any case), the prompt is the
    one the same request without a pace gets, whatever the pace says. *)
Theorem pace_ignored_unless_running (workoutType : string)
        (durationNum : JsNumber.number) (runningPace weight weightUnit : Json.value) :
  Spec.isRun workoutType = false ->
  Route.buildPrompt (Json.JStr workoutType) durationNum runningPace weight weightUnit
  = Route.buildPrompt (Json.JStr workoutType) durationNum Json.JUndefined weight weightUnit.
Proof.
  intros H. unfold Spec.isRun in H. unfold Route.buildPrompt.
  cbn [Route.toLowerCaseOf Json.andThen]. cbv zeta. rewrite H.
  reflexivity.
Qed.

Lemma pace_ignored_unless_running_witness :
  Route.buildPrompt (Json.JStr "Yoga") (JsNumber.ofZ 45) (Json.JStr "5:30")
                    Json.JUndefined Json.JUndefined
  = Route.buildPrompt (Json.JStr "Yoga") (JsNumber.ofZ 45) Json.JUndefined
                      Json.JUndefined Json.JUndefined.
Proof.
  apply (pace_ignored_unless_running "Yoga" (JsNumber.ofZ 45) (Json.JStr "5:30")).
  reflexivity.
Defined.

(** X4: a weight the gateway cannot use counts as no weight.  When the
    weight of a request is falsy (absent, empty, zero) or parses to [NaN] or
    to a number that is not positive, the prompt is the one the same request
    without a weight gets, and a prompt that is built tells the service to
    assume an average adult. *)
Theorem unusable_weight_as_absent (workoutType : Json.value)
        (durationNum : JsNumber.number) (runningPace weight weightUnit : Json.value) :
  Json.truthy weight = false
  \/ (exists weightNum,
         Route.parseFloatOf weight = Json.Return weightNum
         /\ Spec.positive weightNum = false) ->
  Route.buildPrompt workoutType durationNum runningPace weight weightUnit
  = Route.buildPrompt workoutType durationNum runningPace Json.JUndefined weightUnit
  /\ (forall prompt,
        Route.buildPrompt workoutType durationNum runningPace weight weightUnit
        = Json.Return prompt ->
        exists before after,
          prompt = before
                   ++ "Assume an average adult (weighing approximately 70kg/154lbs) performing this activity."
                   ++ after).
Proof.
  intros H. pose proof (weightStrings_unusable weight weightUnit H) as Hw.
  split.
  - unfold Route.buildPrompt. rewrite Hw.
    replace (Route.weightStrings Json.JUndefined weightUnit)
      with (Json.Return (A := string * string) ("", "")) by reflexivity.
    reflexivity.
  - intros prompt Hb.
    destruct (buildPrompt_weight _ _ _ _ _ _ _ _ Hb Hw) as (before & between & after & ->).
    exists (before ++ between), after.
    cbn [JsString.truthy]. change ("" ++ between) with between.
    now rewrite append_assoc.
Qed.

Lemma unusable_weight_as_absent_witness :
  Route.buildPrompt (Json.JStr "Running") (JsNumber.ofZ 30) Json.JUndefined
                    (Json.JStr "0") (Json.JStr "lbs")
  = Route.buildPrompt (Json.JStr "Running") (JsNumber.ofZ 30) Json.JUndefined
                      Json.JUndefined (Json.JStr "lbs").
Proof.
  apply (unusable_weight_as_absent (Json.JStr "Running") (JsNumber.ofZ 30) Json.JUndefined
                                   (Json.JStr "0") (Json.JStr "lbs")).
  right. exists JsNumber.zero. split; reflexivity.
Defined.

(** X5: only the unit [lbs] is converted.  Whenever the gateway sends a
    prompt for a request whose weight parses to a positive number and whose
    unit is anything but the string [lbs] (absent, [kg], another word), the
    weight stands in the prompt as so many kilograms, unconverted. *)
Theorem other_units_read_as_kilograms (env : Route.Env) (body : Json.value)
        (prompt : string) (k : Route.Completion -> option Route.Response)
        (weightNum : JsNumber.number) :
  Route.POST env (Json.Return body) = Route.Complete prompt k ->
  Json.truthy (Json.get "weight" body) = true ->
  Route.parseFloatOf (Json.get "weight" body) = Json.Return weightNum ->
  Spec.positive weightNum = true ->
  Json.get "weightUnit" body <> Json.JStr "lbs" ->
  (exists before after,
      prompt = before
               ++ (JsString.nl ++ "Weight: " ++ JsNumber.toString weightNum ++ " kg")
               ++ after)
  /\ (exists before after,
         prompt = before
                  ++ ("Use the person's weight of " ++ JsNumber.toString weightNum
                        ++ " kg to calculate calories.")
                  ++ after).
Proof.
  intros HP Ht Hf Hpos Hu.
  apply POST_Complete in HP as (d & _ & Hb & _).
  pose proof (weightStrings_kg _ _ _ Ht Hf Hpos Hu) as Hw.
  destruct (buildPrompt_weight _ _ _ _ _ _ _ _ Hb Hw) as (before & between & after & ->).
  rewrite (truthy_append_r _ " kg" eq_refl).
  split.
  - exists before. eexists. reflexivity.
  - exists (before ++ (JsString.nl ++ "Weight: " ++ JsNumber.toString weightNum ++ " kg")
                   ++ between).
    eexists. rewrite !append_assoc. reflexivity.
Qed.

Lemma run30stone_prompt :
  Route.POST (Scenario.withKey "sk-test") (Json.Return Scenario.run30stone)
  = Route.Complete Scenario.prompt11 (Route.finish (Json.JStr "Running") (JsNumber.ofZ 30)).
Proof.
  assert (V : Spec.validated Scenario.run30stone (JsNumber.ofZ 30))
    by (repeat split; vm_compute; reflexivity).
  rewrite (POST_validated _ _ _ V).
  assert (B : Route.buildPrompt (Json.get "workoutType" Scenario.run30stone) (JsNumber.ofZ 30)
                (Json.get "runningPace" Scenario.run30stone)
                (Json.get "weight" Scenario.run30stone)
                (Json.get "weightUnit" Scenario.run30stone)
              = Json.Return Scenario.prompt11)
    by (vm_compute; reflexivity).
  cbn [Route.OPENAI_API_KEY Scenario.withKey].
  replace (negb (JsString.startsWith "sk-test" "sk-")) with false by reflexivity.
  rewrite B. reflexivity.
Defined.

Lemma other_units_read_as_kilograms_witness :
  (exists before after,
      Scenario.prompt11 = before ++ (JsString.nl ++ "Weight: 11 kg") ++ after)
  /\ (exists before after,
         Scenario.prompt11
         = before ++ "Use the person's weight of 11 kg to calculate calories." ++ after).
Proof.
  assert (Hf : Route.parseFloatOf (Json.get "weight" Scenario.run30stone)
               = Json.Return (JsNumber.ofZ 11))
    by (vm_compute; reflexivity).
  assert (Hpos : Spec.positive (JsNumber.ofZ 11) = true) by (vm_compute; reflexivity).
  assert (Hu : Json.get "weightUnit" Scenario.run30stone <> Json.JStr "lbs")
    by (vm_compute; discriminate).
  pose proof (other_units_read_as_kilograms (Scenario.withKey "sk-test") Scenario.run30stone
                Scenario.prompt11 (Route.finish (Json.JStr "Running") (JsNumber.ofZ 30))
                (JsNumber.ofZ 11) run30stone_prompt eq_refl Hf Hpos Hu)
    as P.
  replace (JsNumber.toString (JsNumber.ofZ 11)) with "11" in P by (vm_compute; reflexivity).
  exact P.
Defined.

(** X6: a reply without a figure ends in an error.  When the completion has
    no content, or an empty one, the gateway answers with status 500 and
    [No response from OpenAI]; when the content is not JSON and holds no
    decimal digit, it answers with status 500 and [Could not parse OpenAI
    response]. *)
Theorem reply_without_figure_fails (workoutType : Json.value)
        (durationNum : JsNumber.number) (content : option string) :
  (content = None \/ content = Some "" ->
   Route.finish workoutType durationNum (Json.Return content)
   = Some (Route.json 500 [("error", Json.JStr "No response from OpenAI")]))
  /\ (forall text,
        content = Some text -> text <> "" ->
        Json.parse text = Json.SyntaxError ->
        Shape.digitFree text = true ->
        Route.finish workoutType durationNum (Json.Return content)
        = Some (Route.json 500 [("error", Json.JStr "Could not parse OpenAI response")])).
Proof.
  split.
  - intros [-> | ->]; reflexivity.
  - intros text -> Hne Hparse Hfree.
    assert (Ht : JsString.truthy text = true) by (destruct text; [congruence | reflexivity]).
    rewrite (finish_content _ _ _ Ht). unfold Route.parseReply.
    rewrite Hparse, (matchDigits_digitFree _ Hfree). reflexivity.
Qed.

Lemma reply_without_figure_fails_witness :
  Route.finish (Json.JStr "Yoga") (JsNumber.ofZ 45) (Json.Return (Some Scenario.refusal))
  = Some (Route.json 500 [("error", Json.JStr "Could not parse OpenAI response")]).
Proof.
  apply (proj2 (reply_without_figure_fails (Json.JStr "Yoga") (JsNumber.ofZ 45)
                                           (Some Scenario.refusal))
               Scenario.refusal eq_refl).
  - discriminate.
  - vm_compute. reflexivity.
  - reflexivity.
Defined.

(** X7: the fallback reads the first run of digits, whole.  For a reply that
    is not JSON and is made of a digit-free part, then a run of digits that
    is not empty, then a rest that does not go on with a digit, the reply the
    gateway works with has for [calories] the number nearest to the decimal
    value of that run and for [explanation] the raw reply; when that value is
    zero the gateway answers with status 500 and the message of an invalid
    calorie calculation. *)
Theorem fallback_takes_first_run (workoutType : Json.value)
        (durationNum : JsNumber.number) (pre ds post : string) :
  Shape.digitFree pre = true ->
  Shape.allDigits ds = true -> ds <> "" ->
  Shape.noDigitAhead post = true ->
  Json.parse (pre ++ ds ++ post) = Json.SyntaxError ->
  Route.parseReply (pre ++ ds ++ post)
  = Some (Json.Return
            (Json.JObj [("calories", Json.JNum (JsNumber.ofZ (Z.of_N (JsParse.digitsValue 0 ds))));
                        ("explanation", Json.JStr (pre ++ ds ++ post))]))
  /\ (JsParse.digitsValue 0 ds = 0%N ->
      Route.finish workoutType durationNum (Json.Return (Some (pre ++ ds ++ post)))
      = Some (Route.json 500
                [("error", Json.JStr "Invalid calorie calculation from OpenAI")])).
Proof.
  intros Hpre Hd Hne Hpost Hparse.
  pose proof (matchDigits_first pre ds post Hpre Hd Hne Hpost) as Hm.
  assert (HR : Route.parseReply (pre ++ ds ++ post)
               = Some (Json.Return
                         (Json.JObj
                            [("calories",
                              Json.JNum (JsNumber.ofZ (Z.of_N (JsParse.digitsValue 0 ds))));
                             ("explanation", Json.JStr (pre ++ ds ++ post))]))).
  { unfold Route.parseReply. now rewrite Hparse, Hm, (parseInt_digits ds Hd Hne). }
  split; [exact HR|].
  intros Hz.
  rewrite (finish_content _ _ _ (matchDigits_nonempty _ _ Hm)), HR, Hz.
  reflexivity.
Qed.

Lemma fallback_takes_first_run_witness :
  Route.parseReply "About 480 kcal, give or take 20."
  = Some (Json.Return
            (Json.JObj [("calories", Json.JNum (JsNumber.ofZ 480));
                        ("explanation", Json.JStr "About 480 kcal, give or take 20.")])).
Proof.
  refine (proj1 (fallback_takes_first_run (Json.JStr "Running") (JsNumber.ofZ 30)
                                          "About " "480" " kcal, give or take 20."
                                          eq_refl eq_refl _ eq_refl _)).
  - discriminate.
  - vm_compute. reflexivity.
Defined.

(** X17: the pace guidance reads the first number of the pace.  For a run
    whose pace is made of a digit-free part, a run of digits that is not
    empty and a rest that does not go on with a digit, the guidance is the
    one of the digits alone when the rest does not start with a point (so
    the seconds of [5:30] and the words of [about 6 min] do not count); and
    when a point and further digits follow the run, the guidance is the one
    of the decimal they make. *)
Theorem pace_guidance_first_number (pre int post : string) :
  Shape.digitFree pre = true ->
  Shape.allDigits int = true -> int <> "" ->
  Shape.noDigitAhead post = true ->
  (JsString.startsWith post "." = false ->
   Route.paceGuidance true (Json.JStr (pre ++ int ++ post))
   = Route.paceGuidance true (Json.JStr int))
  /\ (forall frac,
        Shape.allDigits frac = true ->
        Route.paceGuidance true (Json.JStr (pre ++ int ++ "." ++ frac ++ post))
        = Route.paceGuidance true (Json.JStr (int ++ "." ++ frac))).
Proof.
  intros Hpre Hd Hne Hp.
  assert (Hint : JsString.truthy int = true) by (destruct int; [congruence | reflexivity]).
  assert (Htail : forall t, JsString.truthy (pre ++ int ++ t) = true).
  { intros t. apply truthy_append_r. destruct int; [congruence | reflexivity]. }
  split.
  - intros Hpoint. unfold Route.paceGuidance.
    cbn [andb Json.truthy]. rewrite (Htail post), Hint.
    rewrite (matchDecimal_skip _ _ Hpre), (matchDecimal_int _ _ Hd Hne Hp Hpoint).
    pose proof (matchDecimal_int int "" Hd Hne eq_refl eq_refl) as E.
    rewrite append_nil_r in E. now rewrite E.
  - intros frac Hf. unfold Route.paceGuidance.
    cbn [andb Json.truthy]. rewrite (Htail ("." ++ frac ++ post)).
    replace (JsString.truthy (int ++ "." ++ frac)) with true
      by (destruct int; [congruence | reflexivity]).
    rewrite (matchDecimal_skip _ _ Hpre), (matchDecimal_frac _ _ _ Hd Hne Hf Hp).
    pose proof (matchDecimal_frac int frac "" Hd Hne Hf eq_refl) as E.
    rewrite append_nil_r in E. now rewrite E.
Qed.

Lemma pace_guidance_first_number_witness :
  Route.paceGuidance true (Json.JStr "5:30 min/km")
  = Route.paceGuidance true (Json.JStr "5").
Proof.
  refine (proj1 (pace_guidance_first_number "" "5" ":30 min/km" eq_refl eq_refl _ eq_refl)
                eq_refl).
  discriminate.
Defined.

(** X18: the calories of a success.  Whatever the request, the credential and
    the completion service, in a response of status 200 the figure the
    handler hands over is a number and not [NaN]; in the JSON body the caller
    reads, [calories] is a finite number when that figure is finite, and
    [null] when it is infinite (a reply with calories 1e999 is answered with
    status 200 and calories [null]). *)
Theorem success_calories_delivered (env : Route.Env) (service : string -> Route.Completion)
        (request : Route.Request) (r : Route.Response) :
  Route.run service (Route.POST env request) = Some r ->
  Route.status r = 200%Z ->
  exists n,
    Json.get "calories" (Route.body r) = Json.JNum n
    /\ JsNumber.isNaN n = false
    /\ ((JsNumber.isFinite n = true
         /\ exists n',
             Json.get "calories" (Json.wire (Route.body r)) = Json.JNum n'
             /\ JsNumber.isFinite n' = true)
        \/ (JsNumber.isFinite n = false
            /\ Json.get "calories" (Json.wire (Route.body r)) = Json.JNull)).
Proof.
  intros Hr Hs.
  apply run_success_or_error in Hr
    as [(body & d & w & n & ex & -> & V & Hw & Hn & Hex & ->) | ([H | H] & _)];
    [| rewrite H in Hs; discriminate Hs | rewrite H in Hs; discriminate Hs].
  exists n. split; [reflexivity|]. split; [exact Hn|].
  cbn [Route.body Route.json]. rewrite (wire_success n ex w d Hex).
  destruct n as [s|s| |s m e]; try discriminate Hn.
  - left. split; [reflexivity|]. eexists. split; reflexivity.
  - right. split; reflexivity.
  - left. split; [reflexivity|]. eexists. split; reflexivity.
Qed.

Lemma success_calories_delivered_witness :
  let r := Route.json 200
             [("calories", Json.JNum JsNumber.Infinity);
              ("explanation",
               Json.JStr "Calories calculated based on workout type and duration.");
              ("workoutType", Json.JStr "Yoga");
              ("duration", Json.JNum (JsNumber.ofZ 45))] in
  exists n,
    Json.get "calories" (Route.body r) = Json.JNum n
    /\ JsNumber.isNaN n = false
    /\ ((JsNumber.isFinite n = true
         /\ exists n',
             Json.get "calories" (Json.wire (Route.body r)) = Json.JNum n'
             /\ JsNumber.isFinite n' = true)
        \/ (JsNumber.isFinite n = false
            /\ Json.get "calories" (Json.wire (Route.body r)) = Json.JNull)).
Proof.
  intros r.
  apply (success_calories_delivered (Scenario.withKey "sk-test")
                                    (Scenario.answering Scenario.hugeCalories)
                                    (Json.Return Scenario.yoga45) r).
  - vm_compute. reflexivity.
  - reflexivity.
Defined.

(** ** More on the client *)

Section ClientMore.
Import JsString JsNumber JsParse Json Page.

(** *** Objects *)

Lemma lookup_assign k k' v o :
  lookup k' (assign k v o) = if (k' =? k)%string then Some v else lookup k' o.
Proof.
  induction o as [|[k1 v1] r IH]; cbn [assign lookup]; [reflexivity|].
  destruct (String.eqb_spec k k1) as [->|Hk]; cbn [lookup].
  - destruct (k' =? k1)%string; reflexivity.
  - rewrite IH.
    destruct (String.eqb_spec k' k1) as [->|Hk1]; [|reflexivity].
    destruct (String.eqb_spec k1 k) as [->|_]; [congruence | reflexivity].
Qed.

Lemma lookup_spread_None k a b :
  lookup k b = None -> lookup k (spread a b) = lookup k a.
Proof.
  unfold spread. revert a. induction b as [|[k1 v1] r IH]; intros a H; [reflexivity|].
  cbn [lookup] in H. cbn [fold_left fst snd].
  destruct (String.eqb_spec k k1) as [->|Hk]; [discriminate|].
  rewrite (IH _ H), lookup_assign.
  destruct (String.eqb_spec k k1); [congruence | reflexivity].
Qed.

Lemma lookup_absent k (b : object) : k ∉ map fst b -> lookup k b = None.
Proof.
  induction b as [|[k1 v1] r IH]; intros H; [reflexivity|].
  cbn [map fst] in H. apply not_elem_of_cons in H as [Hk Hr].
  cbn [lookup]. destruct (String.eqb_spec k k1); [congruence | exact (IH Hr)].
Qed.

Lemma lookup_spread_Some k v a b :
  NoDup (map fst b) -> lookup k b = Some v -> lookup k (spread a b) = Some v.
Proof.
  unfold spread. revert a. induction b as [|[k1 v1] r IH]; intros a ND H; [discriminate|].
  cbn [map fst] in ND. apply NoDup_cons in ND as [Hnotin ND].
  cbn [lookup] in H. cbn [fold_left fst snd].
  destruct (String.eqb_spec k k1) as [->|Hk].
  - injection H as <-.
    pose proof (lookup_spread_None k1 (assign k1 v1 a) r (lookup_absent _ _ Hnotin)) as E.
    unfold spread in E. rewrite E, lookup_assign, String.eqb_refl. reflexivity.
  - exact (IH _ ND H).
Qed.

(** *** What a submission leaves *)

Lemma afterFetch_cases st fetched clock :
  afterFetch st fetched clock
  = match readResponse fetched with
    | Return data => Shape.succeeded data clock st
    | Throw e =>
        Shape.failed (if JsString.truthy (message e) then message e
                     else "Failed to calculate calories. Please try again.") st
    end.
Proof. unfold afterFetch. destruct (readResponse fetched); reflexivity. Qed.

Lemma afterFetch_gateway_error st clock r m :
  Route.status r = 400%Z \/ Route.status r = 500%Z ->
  get "error" (Route.body r) = JStr m ->
  JsString.truthy m = true ->
  afterFetch st (Return (System.deliver r)) clock = Shape.failed m st.
Proof.
  intros Hs Hm Ht. rewrite afterFetch_cases.
  unfold readResponse, System.deliver.
  cbn [andThen Page.contentType Page.json Page.ok]. rewrite includes_json.
  replace ((200 <=? Route.status r) && (Route.status r <=? 299))%Z with false
    by (destruct Hs as [-> | ->]; reflexivity).
  cbn [negb].
  destruct (Route.body r) as [| | | | | |fields] eqn:Hb; try discriminate.
  unfold getProp. replace (isNullish (wire (JObj fields))) with false by reflexivity.
  cbn [andThen]. rewrite (get_wire_str _ _ _ Hm).
  unfold orElse. cbn [truthy]. rewrite Ht. cbn [toStr andThen message].
  now rewrite Ht.
Qed.

Lemma afterFetch_gateway_success st clock fields :
  afterFetch st (Return (System.deliver (Route.json 200 fields))) clock
  = Shape.succeeded (wire (JObj fields)) clock st.
Proof. reflexivity. Qed.

(** *** What the page renders *)

Lemma renderable_wire_number n : renderable (wire (JNum n)) = true.
Proof. destruct n; reflexivity. Qed.

Lemma renders_history st :
  renders st = true -> forallb rendersEntry (workoutHistory st) = true.
Proof. unfold renders. intros H. now apply andb_prop in H as [_ H]. Qed.

Lemma renders_failed m st : renders st = true -> renders (Shape.failed m st) = true.
Proof. intros H. exact (renders_history st H). Qed.

(** The state a success of the gateway leaves renders exactly when the
    explanation does. *)
Lemma renders_succeeded st clock n explanation workoutType durationNum :
  renders st = true ->
  renders (Shape.succeeded
             (JObj [("calories", wire (JNum n)); ("explanation", explanation);
                    ("workoutType", JStr workoutType);
                    ("duration", wire (JNum durationNum))])
             clock st)
  = renderable explanation.
Proof.
  intros H. apply renders_history in H.
  unfold renders, Shape.succeeded.
  cbn [result workoutHistory truthy forallb].
  rewrite H.
  unfold rendersEntry, rendersResult, newWorkout.
  cbn [ownProperties spread fold_left fst snd assign lookup get String.eqb Ascii.eqb
       Bool.eqb truthy renderable andb].
  rewrite !renderable_wire_number.
  destruct (renderable explanation); reflexivity.
Qed.

Lemma plainEntry_new clock n explanation workoutType durationNum :
  renderable explanation = true ->
  Shape.plainEntry
    (newWorkout (JObj [("calories", wire (JNum n)); ("explanation", explanation);
                       ("workoutType", JStr workoutType);
                       ("duration", wire (JNum durationNum))])
                clock)
  = true.
Proof.
  intros H. unfold Shape.plainEntry, newWorkout.
  cbn [ownProperties spread fold_left fst snd assign String.eqb Ascii.eqb Bool.eqb
       forallb Shape.noDigitAhead renderable andb].
  rewrite !renderable_wire_number, H. reflexivity.
Qed.

Lemma forallb_filter (A : Type) (p f : A -> bool) (l : list A) :
  forallb p l = true -> forallb p (List.filter f l) = true.
Proof.
  induction l as [|x l IH]; [reflexivity|].
  cbn [forallb List.filter]. intros H. apply andb_prop in H as [Hx Hl].
  destruct (f x); [cbn [forallb]; now rewrite Hx, (IH Hl) | exact (IH Hl)].
Qed.

(** *** Deleting *)

Lemma differsFrom_iff id v : differsFrom id v = true <-> v <> JStr id.
Proof.
  unfold differsFrom. destruct v as [| | | |s| |]; try (split; [discriminate | reflexivity]).
  destruct (String.eqb_spec s id) as [->|Hs]; cbn [negb]; split;
    try congruence; try discriminate; reflexivity.
Qed.

Lemma filter_again (A : Type) (f : A -> bool) (l : list A) :
  List.filter f (List.filter f l) = List.filter f l.
Proof.
  induction l as [|x l IH]; [reflexivity|].
  cbn [List.filter]. destruct (f x) eqn:E; [|exact IH].
  cbn [List.filter]. now rewrite E, IH.
Qed.

Lemma historyKey_weightUnitKey : historyKey <> weightUnitKey.
Proof. discriminate. Qed.

(** A deletion touches the history record only. *)
Lemma delete_storage_frame id c k :
  k <> historyKey ->
  localStorage (deleteClicked true id c) !! k = localStorage c !! k.
Proof.
  intros Hk. apply not_eq_sym in Hk.
  unfold deleteClicked, saveHistory, deleteWorkout.
  cbn [state localStorage setWorkoutHistory workoutHistory].
  destruct (List.filter _ _) as [|e rest];
    cbn [length Nat.ltb Nat.leb state localStorage setWorkoutHistory workoutHistory].
  - now apply lookup_delete_ne.
  - rewrite !lookup_insert_ne by exact Hk. reflexivity.
Qed.

End ClientMore.

(** X8: every push-up submission fails.  In push-up mode the client sends
    [reps] and no [duration], and the gateway asks for [duration]: whatever
    the credential and the completion service, a push-up submission that
    passes the client's checks ends with the error [Workout type and duration
    are required], no result, the form as it was and nothing added to the
    history. *)
Theorem push_up_submission_fails (env : Route.Env)
        (service : string -> Route.Completion) (clock : Page.Clock) (st : Page.State) :
  Page.isPushUp (Page.workoutType st) = true ->
  Spec.maySend st = true ->
  System.submit env service clock st
  = Some (Shape.failed "Workout type and duration are required" st).
Proof.
  intros Hp Hs. unfold System.submit, System.serve.
  pose proof (handleSubmit_maySend st) as S. rewrite Hs in S. rewrite S.
  destruct (requestBody_wire st) as (_ & Hd).
  rewrite POST_requires_duration;
    [| reflexivity | now rewrite (Hd Hp)].
  cbn [Route.run].
  rewrite (afterFetch_gateway_error st clock _ "Workout type and duration are required");
    [reflexivity | now left | reflexivity | reflexivity].
Qed.

Lemma push_up_submission_fails_witness :
  System.submit Scenario.noKey (Scenario.answering Scenario.calories250) Scenario.clock
                Scenario.pushUps20
  = Some (Shape.failed "Workout type and duration are required" Scenario.pushUps20).
Proof.
  apply (push_up_submission_fails Scenario.noKey (Scenario.answering Scenario.calories250)
                                  Scenario.clock Scenario.pushUps20);
    vm_compute; reflexivity.
Defined.

(** X9: what a submission leaves, end to end.  From a state the page is
    showing, with no other event between the submission and the response and
    a completion service whose replies are within the strings of this
    development (no code unit above U+00FF, raw or escaped), a submission
    always ends.  When the client's checks turn it away the state is
    untouched.  Otherwise the gateway answers.  On an error response (status
    400 or 500) the handler leaves the [error] message of the JSON body, as
    sent, in the error of the state, with no result and the form and the
    history as they were, and the page renders that state.  On a success
    response (status 200, its workout type the trimmed one of the form) the
    handler sets the JSON body as the result, clears the form but for the
    unit, and puts one new entry made of that body first in the history; the
    page renders this state, so that it is committed, exactly when the
    explanation of the body is renderable, that is, holds no object: with an
    object for an explanation the render throws and nothing is committed. *)
Theorem submit_outcomes (env : Route.Env) (service : string -> Route.Completion)
        (clock : Page.Clock) (st : Page.State) :
  Page.renders st = true ->
  (forall prompt text,
      service prompt = Json.Return (Some text) -> Json.parse text <> Json.OutOfRange) ->
  exists st',
    System.submit env service clock st = Some st'
    /\ if Spec.maySend st
       then exists r,
           Route.run service
             (Route.POST env (Json.Return (Json.wire (Json.JObj (Page.requestBody st)))))
           = Some r
           /\ ((exists m,
                   (Route.status r = 400%Z \/ Route.status r = 500%Z)
                   /\ Json.get "error" (Json.wire (Route.body r)) = Json.JStr m
                   /\ JsString.truthy m = true
                   /\ st' = Shape.failed m st
                   /\ Page.renders st' = true)
               \/ (Route.status r = 200%Z
                   /\ Json.get "workoutType" (Json.wire (Route.body r))
                      = Json.JStr (JsString.trim (Page.workoutType st))
                   /\ st' = Shape.succeeded (Json.wire (Route.body r)) clock st
                   /\ Page.renders st'
                      = Page.renderable
                          (Json.get "explanation" (Json.wire (Route.body r)))))
       else st' = st.
Proof.
  intros Hrenders Hservice. unfold System.submit, System.serve.
  pose proof (handleSubmit_maySend st) as S.
  destruct (Spec.maySend st).
  - rewrite S.
    destruct (run_total env service
                        (Json.Return (Json.wire (Json.JObj (Page.requestBody st))))
                        Hservice) as (r & Hr).
    rewrite Hr. eexists. split; [reflexivity|].
    exists r. split; [reflexivity|].
    apply run_success_or_error in Hr
      as [(body & d & w & n & ex & Hb & V & Hw & Hn & Hex & ->) | (Hst & m & Hm & Hg)].
    + right.
      assert (E : body = Json.wire (Json.JObj (Page.requestBody st))) by congruence.
      rewrite E, (proj1 (requestBody_wire st)) in Hw. injection Hw as <-.
      rewrite afterFetch_gateway_success.
      cbn [Route.body Route.json]. rewrite (wire_success n ex _ d Hex).
      split; [reflexivity|]. split; [reflexivity|]. split; [reflexivity|].
      exact (renders_succeeded st clock n (Json.wire ex) _ d Hrenders).
    + left. exists m.
      split; [exact Hst|].
      split.
      { destruct (Route.body r) as [| | | | | |fields]; try discriminate.
        exact (get_wire_str _ _ _ Hg). }
      split; [exact Hm|].
      rewrite (afterFetch_gateway_error st clock r m Hst Hg Hm).
      split; [reflexivity | exact (renders_failed m st Hrenders)].
  - destruct S as (alert & ->). eexists. split; reflexivity.
Qed.

Lemma submit_outcomes_witness :
  exists st',
    System.submit (Scenario.withKey "sk-test") (Scenario.answering Scenario.calories250)
                  Scenario.clock Scenario.run30 = Some st'
    /\ if Spec.maySend Scenario.run30
       then exists r,
           Route.run (Scenario.answering Scenario.calories250)
             (Route.POST (Scenario.withKey "sk-test")
                         (Json.Return (Json.wire (Json.JObj (Page.requestBody Scenario.run30)))))
           = Some r
           /\ ((exists m,
                   (Route.status r = 400%Z \/ Route.status r = 500%Z)
                   /\ Json.get "error" (Json.wire (Route.body r)) = Json.JStr m
                   /\ JsString.truthy m = true
                   /\ st' = Shape.failed m Scenario.run30
                   /\ Page.renders st' = true)
               \/ (Route.status r = 200%Z
                   /\ Json.get "workoutType" (Json.wire (Route.body r))
                      = Json.JStr (JsString.trim (Page.workoutType Scenario.run30))
                   /\ st' = Shape.succeeded (Json.wire (Route.body r)) Scenario.clock
                                            Scenario.run30
                   /\ Page.renders st'
                      = Page.renderable
                          (Json.get "explanation" (Json.wire (Route.body r)))))
       else st' = Scenario.run30.
Proof.
  apply (submit_outcomes (Scenario.withKey "sk-test")
                         (Scenario.answering Scenario.calories250)
                         Scenario.clock Scenario.run30).
  - reflexivity.
  - intros prompt text H. injection H as <-. vm_compute. discriminate.
Defined.

(** X10: what any response leaves.  Whatever [fetch] resolves to or rejects
    with, with no other event in between, when the page renders the state
    the handler leaves (otherwise nothing is committed): the form is no
    longer submitting and the unit is kept; an error and a shown result never
    come together.  With an error, which is never empty, no result is shown
    and the form and the history are as they were.  Without an error the
    response was read as data, the form is cleared, the history has grown by
    exactly one entry, put first, and the result panel is shown exactly when
    the data is truthy: a body of [null] leaves neither an error nor a
    result, and still adds an entry. *)
Theorem afterFetch_invariants (st : Page.State) (fetched : Page.Fetched)
        (clock : Page.Clock) :
  let st' := Page.afterFetch st fetched clock in
  Page.renders st' = true ->
  Page.isSubmitting st' = false
  /\ Page.weightUnit st' = Page.weightUnit st
  /\ match Page.error st' with
     | Some m =>
         JsString.truthy m = true
         /\ Page.showsResult st' = false
         /\ Page.workoutHistory st' = Page.workoutHistory st
         /\ Page.workoutType st' = Page.workoutType st
         /\ Page.duration st' = Page.duration st
         /\ Page.reps st' = Page.reps st
         /\ Page.runningPace st' = Page.runningPace st
         /\ Page.weight st' = Page.weight st
     | None =>
         exists data,
           Page.readResponse fetched = Json.Return data
           /\ Page.result st' = Some data
           /\ Page.showsResult st' = Json.truthy data
           /\ Page.workoutHistory st'
              = Page.newWorkout data clock :: Page.workoutHistory st
           /\ Page.workoutType st' = ""
           /\ Page.duration st' = ""
           /\ Page.reps st' = ""
           /\ Page.runningPace st' = ""
           /\ Page.weight st' = ""
     end.
Proof.
  intros st' _. subst st'. rewrite afterFetch_cases.
  destruct (Page.readResponse fetched) as [data|e].
  - split; [reflexivity|]. split; [reflexivity|].
    cbn [Shape.succeeded Page.error]. exists data. repeat split; reflexivity.
  - cbn [Shape.failed Page.isSubmitting Page.weightUnit Page.error Page.result
         Page.workoutHistory Page.workoutType Page.duration Page.reps
         Page.runningPace Page.weight].
    repeat split; try reflexivity.
    destruct (JsString.truthy (Json.message e)) eqn:Hm; [exact Hm | reflexivity].
Qed.

Lemma afterFetch_invariants_witness :
  let fetched :=
    Json.Return {| Page.ok := true; Page.contentType := Some "application/json";
                   Page.json := Json.Return Json.JNull; Page.text := "null" |} in
  let st' := Page.afterFetch Scenario.run30 fetched Scenario.clock in
  Page.error st' = None
  /\ Page.showsResult st' = false
  /\ Page.workoutHistory st'
     = [[("id", Json.JStr "1714548600000");
         ("timestamp", Json.JStr "2024-05-01T07:30:00.000Z")]].
Proof.
  intros fetched st'.
  pose proof (afterFetch_invariants Scenario.run30 fetched Scenario.clock eq_refl) as H.
  destruct H as (_ & _ & H).
  change (Page.error (Page.afterFetch Scenario.run30 fetched Scenario.clock))
    with (@None string) in H.
  destruct H as (data & Hd & _ & Hshow & Hh & _).
  injection Hd as <-.
  split; [reflexivity|]. split; [exact Hshow | exact Hh].
Defined.

(** X11: the members of a new entry.  For a response body with each key
    once, the entry [addToHistory] makes has the clock's time for
    [timestamp], whatever the body says; for [id] it has the body's own [id]
    when the body has one, else the clock's reading; every other member is
    the body's. *)
Theorem newWorkout_fields (workout : Json.value) (clock : Page.Clock) :
  NoDup (map fst (Page.ownProperties workout)) ->
  let entry := Page.newWorkout workout clock in
  Json.lookup "timestamp" entry = Some (Json.JStr (Page.iso clock))
  /\ Json.lookup "id" entry
     = Some (match Json.lookup "id" (Page.ownProperties workout) with
             | Some v => v
             | None => Json.JStr (Page.now clock)
             end)
  /\ (forall k, k <> "timestamp" -> k <> "id" ->
      Json.lookup k entry = Json.lookup k (Page.ownProperties workout)).
Proof.
  intros ND entry. subst entry. unfold Page.newWorkout.
  split; [now rewrite lookup_assign|].
  split.
  - rewrite lookup_assign. cbn [String.eqb Ascii.eqb Bool.eqb].
    destruct (Json.lookup "id" (Page.ownProperties workout)) as [v|] eqn:E.
    + exact (lookup_spread_Some _ _ _ _ ND E).
    + now rewrite (lookup_spread_None _ _ _ E).
  - intros k Ht Hi. rewrite lookup_assign.
    destruct (String.eqb_spec k "timestamp"); [congruence|].
    destruct (Json.lookup k (Page.ownProperties workout)) as [v|] eqn:E.
    + exact (lookup_spread_Some _ _ _ _ ND E).
    + rewrite (lookup_spread_None _ _ _ E). cbn [Json.lookup].
      destruct (String.eqb_spec k "id"); [congruence | reflexivity].
Qed.

Lemma newWorkout_fields_witness :
  let workout :=
    Json.JObj [("id", Json.JStr "from-the-server"); ("calories", Json.JNum (JsNumber.ofZ 251));
               ("timestamp", Json.JStr "1999-12-31T23:59:59.000Z")] in
  let entry := Page.newWorkout workout Scenario.clock in
  Json.lookup "timestamp" entry = Some (Json.JStr (Page.iso Scenario.clock))
  /\ Json.lookup "id" entry
     = Some (match Json.lookup "id" (Page.ownProperties workout) with
             | Some v => v
             | None => Json.JStr (Page.now Scenario.clock)
             end)
  /\ (forall k, k <> "timestamp" -> k <> "id" ->
      Json.lookup k entry = Json.lookup k (Page.ownProperties workout)).
Proof.
  intros workout.
  apply (newWorkout_fields workout Scenario.clock).
  apply (bool_decide_unpack _). vm_compute. exact I.
Defined.

(** X12: a deletion removes exactly the entries of the identifier.  After a
    confirmed deletion the history holds the entries it held whose [id] is
    not the deleted one, and no other; deleting the same identifier again
    changes nothing, in the state or in the storage; and no record of the
    storage other than the history record is touched. *)
Theorem delete_exact (id : string) (c : Page.Client) :
  let c' := Page.deleteClicked true id c in
  (forall e,
      In e (Page.workoutHistory (Page.state c'))
      <-> In e (Page.workoutHistory (Page.state c)) /\ Spec.idOf e <> Json.JStr id)
  /\ Page.deleteClicked true id c' = c'
  /\ (forall k, k <> Page.historyKey ->
      Page.localStorage c' !! k = Page.localStorage c !! k).
Proof.
  intros c'. subst c'.
  unfold Page.deleteClicked, Page.saveHistory, Page.deleteWorkout.
  cbn [Page.state Page.localStorage Page.setWorkoutHistory Page.workoutHistory].
  fold (Spec.remaining id (Page.workoutHistory (Page.state c))).
  assert (Hagain : Spec.remaining id (Spec.remaining id (Page.workoutHistory (Page.state c)))
                   = Spec.remaining id (Page.workoutHistory (Page.state c)))
    by apply filter_again.
  set (rest := Spec.remaining id (Page.workoutHistory (Page.state c))) in *.
  assert (Hin : forall e, In e rest
                          <-> In e (Page.workoutHistory (Page.state c))
                              /\ Spec.idOf e <> Json.JStr id).
  { intros e. subst rest. unfold Spec.remaining. rewrite List.filter_In.
    unfold Spec.idOf. now rewrite differsFrom_iff. }
  clearbody rest.
  destruct rest as [|e rest];
    cbn [length Nat.ltb Nat.leb Page.state Page.localStorage Page.setWorkoutHistory
         Page.workoutHistory].
  - split; [exact Hin|]. split.
    + fold (Spec.remaining id []). cbn [Spec.remaining List.filter length Nat.ltb Nat.leb].
      now rewrite delete_delete_eq.
    + intros k Hk. apply lookup_delete_ne. exact (not_eq_sym Hk).
  - split; [exact Hin|]. split.
    + fold (Spec.remaining id (e :: rest)). rewrite Hagain.
      cbn [length Nat.ltb Nat.leb Page.state Page.localStorage Page.setWorkoutHistory
           Page.workoutHistory].
      now rewrite !insert_insert_eq.
    + intros k Hk. rewrite !lookup_insert_ne by exact (not_eq_sym Hk). reflexivity.
Qed.

(** X13: the history record follows the history.  Take a page that is
    showing its state, whose entries are plain: no key starts with a digit
    and no value holds an object, so that [JSON.stringify] writes them in the
    order of this development.  After a confirmed deletion and after a
    confirmed clearing the storage holds the history serialised, or no
    history record when the history is empty, and the page still shows plain
    entries.  A submission through the gateway, with no other event before
    the response, keeps this whenever the page renders the state it leaves:
    the entries stay plain, and either the history is as it was and nothing
    is written, or one entry is added and the saving effect writes the new
    history. *)
Theorem history_record_in_sync (c : Page.Client) :
  Page.renders (Page.state c) = true ->
  forallb Shape.plainEntry (Page.workoutHistory (Page.state c)) = true ->
  (forall id,
      let c' := Page.deleteClicked true id c in
      Shape.inSync c'
      /\ forallb Shape.plainEntry (Page.workoutHistory (Page.state c')) = true
      /\ Page.renders (Page.state c') = true)
  /\ (let c' := Page.clearHistory true c in
      Shape.inSync c'
      /\ forallb Shape.plainEntry (Page.workoutHistory (Page.state c')) = true
      /\ Page.renders (Page.state c') = true)
  /\ (forall env service clock st',
        System.submit env service clock (Page.state c) = Some st' ->
        Shape.inSync c ->
        Page.renders st' = true ->
        let c' := {| Page.state := st'; Page.localStorage := Page.localStorage c |} in
        forallb Shape.plainEntry (Page.workoutHistory st') = true
        /\ ((Page.workoutHistory st' = Page.workoutHistory (Page.state c)
             /\ Shape.inSync c')
            \/ (exists entry,
                  Page.workoutHistory st' = entry :: Page.workoutHistory (Page.state c)
                  /\ Shape.inSync (Page.saveHistory c')))).
Proof.
  intros Hrenders Hplain.
  split.
  { intros id c'. subst c'. split.
    - unfold Shape.inSync. rewrite deleteClicked_storage, deleteClicked_history. reflexivity.
    - rewrite deleteClicked_history. unfold Spec.remaining. split.
      + now apply forallb_filter.
      + unfold Page.renders in *.
        apply andb_prop in Hrenders as [Hres Hhist].
        assert (E : Page.result (Page.state (Page.deleteClicked true id c))
                    = Page.result (Page.state c)).
        { unfold Page.deleteClicked, Page.saveHistory, Page.deleteWorkout.
          destruct (0 <? length _)%nat; reflexivity. }
        rewrite E, Hres, deleteClicked_history. unfold Spec.remaining.
        now apply forallb_filter. }
  split.
  { intros c'. subst c'. unfold Shape.inSync, Page.clearHistory, Page.renders in *.
    cbn [Page.state Page.localStorage Page.setWorkoutHistory Page.workoutHistory
         Page.result forallb].
    split; [apply lookup_delete_eq|]. split; [reflexivity|].
    apply andb_prop in Hrenders as [Hres _]. now rewrite Hres. }
  intros env service clock st' Hs Hsync Hr' c'. subst c'.
  unfold System.submit, System.serve in Hs.
  pose proof (handleSubmit_maySend (Page.state c)) as S.
  destruct (Spec.maySend (Page.state c)).
  - rewrite S in Hs.
    destruct (Route.run service _) as [r|] eqn:Hr; [|discriminate].
    injection Hs as <-.
    apply run_success_or_error in Hr
      as [(body & d & w & n & ex & Hb & V & Hw & Hn & Hex & ->) | (Hst & m & Hm & Hg)].
    + rewrite afterFetch_gateway_success in *.
      rewrite (wire_success n ex w d Hex) in *.
      rewrite (renders_succeeded (Page.state c) clock n (Json.wire ex) w d Hrenders) in Hr'.
      split.
      * cbn [Shape.succeeded Page.workoutHistory forallb].
        now rewrite (plainEntry_new clock n (Json.wire ex) w d Hr'), Hplain.
      * right. eexists. split; [reflexivity|].
        unfold Shape.inSync, Page.saveHistory.
        cbn [Page.state Page.localStorage Shape.succeeded Page.workoutHistory
             length Nat.ltb Nat.leb].
        apply lookup_insert_eq.
    + rewrite (afterFetch_gateway_error (Page.state c) clock r m Hst Hg Hm).
      split; [exact Hplain|]. left. split; [reflexivity | exact Hsync].
  - destruct S as (alert & S). rewrite S in Hs. injection Hs as <-.
    split; [exact Hplain|]. left. split; [reflexivity|]. destruct c; exact Hsync.
Qed.

Lemma history_record_in_sync_witness :
  Shape.inSync (Page.deleteClicked true "1714635000000" Scenario.pair)
  /\ forallb Shape.plainEntry
             (Page.workoutHistory
                (Page.state (Page.deleteClicked true "1714635000000" Scenario.pair)))
     = true
  /\ Page.renders (Page.state (Page.deleteClicked true "1714635000000" Scenario.pair))
     = true.
Proof.
  exact (proj1 (history_record_in_sync Scenario.pair eq_refl eq_refl) "1714635000000").
Defined.

(** X14: the unit preference comes back.  When the unit has been saved by
    the effect of the unit, whatever the history effects, deletions and
    clearings do to the storage afterwards, the mount effect of a fresh page
    sets the unit that was saved (or [lbs] when the saved unit is empty), and
    it does so whenever it can read the history record; the saving of the
    unit does not change what is read of the history. *)
Theorem weight_unit_restored (c : Page.Client) (fresh : Page.State) :
  let unit := if JsString.truthy (Page.weightUnit (Page.state c))
              then Page.weightUnit (Page.state c) else "lbs" in
  Page.loadWeightUnit (Page.localStorage (Page.saveWeightUnit c)) = unit
  /\ (forall id confirmed,
        Page.loadWeightUnit
          (Page.localStorage (Page.deleteClicked confirmed id (Page.saveWeightUnit c)))
        = unit)
  /\ (forall confirmed,
        Page.loadWeightUnit
          (Page.localStorage (Page.clearHistory confirmed (Page.saveWeightUnit c)))
        = unit)
  /\ Page.loadWeightUnit (Page.localStorage (Page.saveHistory (Page.saveWeightUnit c)))
     = unit
  /\ Page.loadHistory (Page.localStorage (Page.saveWeightUnit c))
     = Page.loadHistory (Page.localStorage c)
  /\ (Page.loadHistory (Page.localStorage c) <> None ->
      exists c',
        Page.loadOnMount {| Page.state := fresh;
                            Page.localStorage := Page.localStorage (Page.saveWeightUnit c) |}
        = Some c'
        /\ Page.weightUnit (Page.state c') = unit
        /\ Page.weight (Page.state c') = Page.weight fresh).
Proof.
  intros unit.
  assert (Hsaved : Page.loadWeightUnit (Page.localStorage (Page.saveWeightUnit c)) = unit).
  { unfold Page.loadWeightUnit, Page.saveWeightUnit. cbn [Page.localStorage Page.state].
    rewrite lookup_insert_eq. subst unit.
    destruct (Page.weightUnit (Page.state c)); reflexivity. }
  assert (Hframe : forall storage' : gmap string string,
             storage' !! Page.weightUnitKey
             = Page.localStorage (Page.saveWeightUnit c) !! Page.weightUnitKey ->
             Page.loadWeightUnit storage' = unit).
  { intros storage' E. rewrite <- Hsaved. unfold Page.loadWeightUnit. now rewrite E. }
  assert (Hhistory : Page.loadHistory (Page.localStorage (Page.saveWeightUnit c))
                     = Page.loadHistory (Page.localStorage c)).
  { unfold Page.loadHistory, Page.saveWeightUnit. cbn [Page.localStorage].
    rewrite lookup_insert_ne by (symmetry; exact historyKey_weightUnitKey).
    reflexivity. }
  split; [exact Hsaved|].
  split.
  { intros id confirmed. apply Hframe.
    destruct confirmed; [|reflexivity].
    exact (delete_storage_frame id (Page.saveWeightUnit c) Page.weightUnitKey
                                (not_eq_sym historyKey_weightUnitKey)). }
  split.
  { intros confirmed. apply Hframe.
    destruct confirmed; [|reflexivity].
    unfold Page.clearHistory. cbn [Page.localStorage].
    apply lookup_delete_ne. exact historyKey_weightUnitKey. }
  split.
  { apply Hframe. unfold Page.saveHistory.
    destruct (0 <? length _)%nat; [|reflexivity].
    cbn [Page.localStorage]. apply lookup_insert_ne. exact historyKey_weightUnitKey. }
  split; [exact Hhistory|].
  intros Hread. unfold Page.loadOnMount. cbn [Page.localStorage Page.state].
  rewrite Hhistory.
  destruct (Page.loadHistory (Page.localStorage c)) as [loaded|]; [|congruence].
  eexists. split; [reflexivity|].
  cbn [Page.state Page.setWeightUnit Page.weightUnit Page.weight].
  split; [exact Hsaved|].
  destruct loaded; reflexivity.
Qed.

(** X15: a history record that cannot be read does no harm.  When the
    storage has no history record, an empty one, or one that is not JSON,
    the mount effect still ends: it leaves the history and the storage as
    they are and sets the unit from the unit record, [lbs] when there is
    none or it is empty; and while the history is empty the saving effect
    leaves the unreadable record in place. *)
Theorem mount_tolerates_bad_record (c : Page.Client) :
  Page.localStorage c !! Page.historyKey = None
  \/ Page.localStorage c !! Page.historyKey = Some ""
  \/ (exists saved,
        Page.localStorage c !! Page.historyKey = Some saved
        /\ Json.parse saved = Json.SyntaxError) ->
  exists c',
    Page.loadOnMount c = Some c'
    /\ Page.workoutHistory (Page.state c') = Page.workoutHistory (Page.state c)
    /\ Page.localStorage c' = Page.localStorage c
    /\ (Page.localStorage c !! Page.weightUnitKey = None
        \/ Page.localStorage c !! Page.weightUnitKey = Some "" ->
        Page.weightUnit (Page.state c') = "lbs")
    /\ (forall unit,
          Page.localStorage c !! Page.weightUnitKey = Some unit ->
          JsString.truthy unit = true ->
          Page.weightUnit (Page.state c') = unit)
    /\ (Page.workoutHistory (Page.state c) = [] ->
        Page.localStorage (Page.saveHistory c') = Page.localStorage c).
Proof.
  intros H.
  assert (Hload : Page.loadHistory (Page.localStorage c) = Some None).
  { unfold Page.loadHistory.
    destruct H as [-> | [-> | (saved & -> & Hp)]]; try reflexivity.
    destruct saved; [reflexivity|]. now rewrite Hp. }
  unfold Page.loadOnMount. rewrite Hload.
  eexists. split; [reflexivity|].
  cbn [Page.state Page.localStorage Page.setWeightUnit Page.workoutHistory Page.weightUnit].
  split; [reflexivity|]. split; [reflexivity|].
  split.
  { unfold Page.loadWeightUnit. intros [-> | ->]; reflexivity. }
  split.
  { unfold Page.loadWeightUnit. intros unit -> Hu. destruct unit; [discriminate | reflexivity]. }
  intros Hempty. unfold Page.saveHistory.
  cbn [Page.state Page.localStorage Page.setWeightUnit Page.workoutHistory].
  now rewrite Hempty.
Qed.

Lemma mount_tolerates_bad_record_witness :
  exists c',
    Page.loadOnMount
      {| Page.state := Scenario.form "" "" "" [];
         Page.localStorage := {[ Page.historyKey := "[{oops" ]} |}
    = Some c'
    /\ Page.workoutHistory (Page.state c') = []
    /\ Page.localStorage c' = {[ Page.historyKey := "[{oops" ]}.
Proof.
  destruct (mount_tolerates_bad_record
              {| Page.state := Scenario.form "" "" "" [];
                 Page.localStorage := {[ Page.historyKey := "[{oops" ]} |})
    as (c' & H1 & H2 & H3 & _).
  - right. right. exists "[{oops". split; [apply lookup_singleton_eq|].
    vm_compute. reflexivity.
  - exists c'. auto.
Defined.

(** X16: the fields of a run and the field of the reps never come together.
    When the form shows the weight and pace fields (the workout type is [run]
    or [running] once trimmed and lower-cased) it is not in push-up mode: it
    shows the duration field, and the request carries [duration] and no
    [reps]. *)
Theorem run_fields_exclude_reps (st : Page.State) :
  Page.showsRunFields st = true ->
  Page.isPushUp (Page.workoutType st) = false
  /\ Json.lookup "duration" (Page.requestBody st)
     = Some (Json.JNum (JsParse.parseFloat (Page.duration st)))
  /\ Json.lookup "reps" (Page.requestBody st) = None.
Proof.
  intros H.
  assert (Hp : Page.isPushUp (Page.workoutType st) = false).
  { unfold Page.showsRunFields in H. unfold Page.isPushUp.
    destruct (JsString.truthy (Page.workoutType st)); [|reflexivity].
    destruct (JsString.truthy (JsString.trim (Page.workoutType st))); [|reflexivity].
    cbn [negb]. cbv zeta. unfold Page.normalize.
    apply orb_prop in H as [H | H]; apply String.eqb_eq in H; rewrite H; reflexivity. }
  split; [exact Hp|].
  pose proof (requestBody_quantity st) as Q. rewrite Hp in Q. exact Q.
Qed.

Lemma run_fields_exclude_reps_witness :
  Page.isPushUp (Page.workoutType Scenario.run30) = false
  /\ Json.lookup "duration" (Page.requestBody Scenario.run30)
     = Some (Json.JNum (JsParse.parseFloat (Page.duration Scenario.run30)))
  /\ Json.lookup "reps" (Page.requestBody Scenario.run30) = None.
Proof.
  apply (run_fields_exclude_reps Scenario.run30). reflexivity.
Defined.
